(** * Streaming core of the Kagi client: framers and reducers

    A shallow embedding of [kagi_client/streams.py] and of the stream
    reducers of [proofread.py], [summarizer.py], [assistant.py] and
    [search.py], with the properties of the framing and reassembly layer.

    Python [str] values are modelled by [string]; a character is a code
    point in the range U+0000..U+00FF. *)

From Stdlib Require Import List String Ascii Bool ZArith Lia Arith DecimalString.
From Stdlib Require Import Floats.PrimFloat Floats.FloatOps Floats.SpecFloat.
From Stdlib Require Import Numbers.Cyclic.Int63.Uint63.
Import ListNotations.

Set Warnings "-notation-for-abbreviation".

Local Open Scope string_scope.
Local Open Scope list_scope.
Local Open Scope bool_scope.
Local Open Scope nat_scope.

(** String concatenation, kept apart from list concatenation. *)
Infix "+++" := String.append (right associativity, at level 60).

(** ** Python string primitives *)

Module Str.

(** The line feed, as a character and as a string. *)
Definition lf : ascii := ascii_of_nat 10.
Definition nl : string := String lf "".

(** The double quote. *)
Definition dq : ascii := ascii_of_nat 34.

(** [str.isspace] on one character, as used by [str.strip()]. *)
Definition is_space (c : ascii) : bool :=
  let n := nat_of_ascii c in
  ((9 <=? n) && (n <=? 13)) || ((28 <=? n) && (n <=? 32))
  || (n =? 133) || (n =? 160).

Definition is_empty (s : string) : bool :=
  match s with EmptyString => true | String _ _ => false end.

Fixpoint lstrip (s : string) : string :=
  match s with
  | EmptyString => EmptyString
  | String c s' => if is_space c then lstrip s' else s
  end.

Fixpoint rstrip (s : string) : string :=
  match s with
  | EmptyString => EmptyString
  | String c s' =>
      let r := rstrip s' in
      if is_space c && is_empty r then EmptyString else String c r
  end.

(** [s.strip()] *)
Definition strip (s : string) : string := rstrip (lstrip s).

(** [s.startswith(p)] *)
Fixpoint startswith (s p : string) : bool :=
  match p with
  | EmptyString => true
  | String a p' =>
      match s with
      | EmptyString => false
      | String b s' => Ascii.eqb b a && startswith s' p'
      end
  end.

(** [s[n:]] *)
Fixpoint drop (n : nat) (s : string) : string :=
  match n, s with
  | O, _ => s
  | S n', String _ s' => drop n' s'
  | S _, EmptyString => EmptyString
  end.

(** [s.split(sep)] for a one-character separator. *)
Fixpoint split (sep : ascii) (s : string) : list string :=
  match s with
  | EmptyString => [EmptyString]
  | String c s' =>
      if Ascii.eqb c sep then EmptyString :: split sep s'
      else match split sep s' with
           | h :: t => String c h :: t
           | [] => [String c EmptyString]
           end
  end.

(** [sep.join(parts)] *)
Fixpoint join (sep : string) (parts : list string) : string :=
  match parts with
  | [] => EmptyString
  | [x] => x
  | x :: rest => x +++ sep +++ join sep rest
  end.

(** [c in s] for one character. *)
Fixpoint mem (c : ascii) (s : string) : bool :=
  match s with
  | EmptyString => false
  | String d s' => Ascii.eqb d c || mem c s'
  end.

(** [sub in s] for strings. *)
Fixpoint contains (s sub : string) : bool :=
  startswith s sub
  || match s with
     | EmptyString => false
     | String _ s' => contains s' sub
     end.

(** Longest prefix of characters satisfying [p], and the remainder. *)
Fixpoint span (p : ascii -> bool) (s : string) : string * string :=
  match s with
  | EmptyString => (EmptyString, EmptyString)
  | String c s' =>
      if p c then let (a, b) := span p s' in (String c a, b)
      else (EmptyString, s)
  end.

End Str.

(** ** [streams.py] *)

Module SSEEvent.
Record t := mk {
  event : option string;
  data : string;
  id : option string
}.
End SSEEvent.

Module KagiStreamLine.
Record t := mk {
  tag : string;
  payload : string
}.
End KagiStreamLine.

(** The local variables of [parse_sse_events]. *)
Record sse_state := mkSseState {
  events : list SSEEvent.t;
  current_event : option string;
  current_data : list string;
  current_id : option string
}.

Definition sse_init : sse_state := mkSseState [] None [] None.

(** One iteration of [for line in text.split(...)]. *)
Definition sse_step (st : sse_state) (line : string) : sse_state :=
  if Str.is_empty line then
    mkSseState
      (match current_data st with
       | [] => events st
       | _ :: _ =>
           events st ++
             [SSEEvent.mk (current_event st)
                          (Str.join Str.nl (current_data st))
                          (current_id st)]
       end)
      None [] None
  else if Str.startswith line "event:" then
    mkSseState (events st) (Some (Str.strip (Str.drop 6 line)))
               (current_data st) (current_id st)
  else if Str.startswith line "data:" then
    mkSseState (events st) (current_event st)
               (current_data st ++ [Str.strip (Str.drop 5 line)])
               (current_id st)
  else if Str.startswith line "id:" then
    mkSseState (events st) (current_event st) (current_data st)
               (Some (Str.strip (Str.drop 3 line)))
  else st.

Definition sse_run (st : sse_state) (lines : list string) : sse_state :=
  fold_left sse_step lines st.

Definition parse_sse_events (text : string) : list SSEEvent.t :=
  events (sse_run sse_init (Str.split Str.lf text)).

(** [_TAG_RE]: at the start of the text a tag, made of a letter or an
    underscore followed by letters, digits, underscores, dots and hyphens;
    then a colon; then the remainder of the line. *)

Definition in_range (lo hi : nat) (c : ascii) : bool :=
  (lo <=? nat_of_ascii c) && (nat_of_ascii c <=? hi).

Definition is_alpha (c : ascii) : bool := in_range 97 122 c || in_range 65 90 c.
Definition is_digit (c : ascii) : bool := in_range 48 57 c.

Definition tag_head (c : ascii) : bool := is_alpha c || Ascii.eqb c "_".
Definition tag_char (c : ascii) : bool :=
  is_alpha c || is_digit c || Ascii.eqb c "_" || Ascii.eqb c "." || Ascii.eqb c "-".

(** The second group and the end anchor, on the text after the colon: the
    dot stops at a line feed, and the anchor holds at the end of the text or
    before a final line feed. *)
Definition tag_rest (r : string) : option string :=
  let (body, tail) := Str.span (fun c => negb (Ascii.eqb c Str.lf)) r in
  if Str.is_empty tail || String.eqb tail Str.nl then Some body else None.

(** [_TAG_RE.match(s)], giving [(group(1), group(2))]. *)
Definition _TAG_RE_match (s : string) : option (string * string) :=
  match s with
  | EmptyString => None
  | String c s' =>
      if tag_head c then
        let (run, rest) := Str.span tag_char s' in
        match rest with
        | String ":" r =>
            match tag_rest r with
            | Some g2 => Some (String c run, g2)
            | None => None
            end
        | _ => None
        end
      else None
  end.

Definition parse_kagi_stream_line (line : string) : option KagiStreamLine.t :=
  match _TAG_RE_match (Str.strip line) with
  | Some (t, p) => Some (KagiStreamLine.mk t p)
  | None => None
  end.

(** [s.strip() == ""] *)
Definition is_blank (s : string) : bool := Str.is_empty (Str.strip s).

Definition is_tag_line (s : string) : bool :=
  match _TAG_RE_match s with Some _ => true | None => false end.

(** The payload of a frame: the parts with a non-blank strip, joined by
    line feeds. *)
Definition join_payload (payload_parts : list string) : string :=
  Str.join Str.nl (filter (fun p => negb (is_blank p)) payload_parts).

(** The two nested [while] loops of [parse_kagi_stream_lines], over the
    lines from index [i] on.  The inner loop hands the line at which it
    breaks back to the outer loop. *)
Fixpoint kagi_loop (raw_lines : list string) : list KagiStreamLine.t :=
  match raw_lines with
  | [] => []
  | raw :: rest =>
      if is_blank raw then kagi_loop rest
      else
        match _TAG_RE_match raw with
        | Some (t, g2) =>
            (fix collect (ls : list string) (payload_parts : list string)
               {struct ls} : list KagiStreamLine.t :=
               match ls with
               | [] => [KagiStreamLine.mk t (join_payload payload_parts)]
               | next_line :: ls' =>
                   if is_blank next_line then collect ls' payload_parts
                   else if is_tag_line next_line then
                     KagiStreamLine.mk t (join_payload payload_parts)
                       :: kagi_loop ls
                   else collect ls' (payload_parts ++ [next_line])
               end) rest [g2]
        | None => kagi_loop rest
        end
  end.

Definition parse_kagi_stream_lines (text : string) : list KagiStreamLine.t :=
  kagi_loop (Str.split Str.lf text).

(** ** Python values and exceptions *)

(** A decoded JSON document, which is also the shape of every dynamically
    typed value the reducers handle.  [JNull] is [None]; a [dict] keeps its
    pairs in decoding order, and the last pair of a key is the one in
    force. *)
#[warnings="-register-all"]
Inductive json : Type :=
| JNull
| JBool (b : bool)
| JInt (n : Z)
| JFloat (f : float)
| JStr (s : string)
| JArr (items : list json)
| JObj (members : list (string * json)).

Inductive exn : Type :=
| JSONDecodeError
| KeyError (key : string)
| TypeError
| AttributeError
| IndexError
| APIError (message : string) (status_code : Z) (body : string).

Inductive result (A : Type) : Type :=
| Ok (a : A)
| Raise (e : exn).
Arguments Ok {A} a.
Arguments Raise {A} e.

Definition bind {A B : Type} (c : result A) (k : A -> result B) : result B :=
  match c with
  | Ok a => k a
  | Raise e => Raise e
  end.

Notation "x <- c ;; k" := (bind c (fun x => k))
  (at level 61, c at next level, right associativity).

Module Py.

Fixpoint lookup (members : list (string * json)) (k : string) : option json :=
  match members with
  | [] => None
  | (k', v) :: rest =>
      match lookup rest k with
      | Some w => Some w
      | None => if String.eqb k' k then Some v else None
      end
  end.

Definition has_key (members : list (string * json)) (k : string) : bool :=
  match lookup members k with Some _ => true | None => false end.

(** The keys of a [dict], each once, in insertion order. *)
Fixpoint keys (seen : list string) (members : list (string * json)) : list string :=
  match members with
  | [] => []
  | (k, _) :: rest =>
      if existsb (String.eqb k) seen then keys seen rest
      else k :: keys (k :: seen) rest
  end.

(** [obj.get(k, default)] *)
Definition get (obj : json) (k : string) (default : json) : result json :=
  match obj with
  | JObj members =>
      Ok (match lookup members k with Some v => v | None => default end)
  | _ => Raise AttributeError
  end.

(** [obj[k]] for a string key *)
Definition getitem (obj : json) (k : string) : result json :=
  match obj with
  | JObj members =>
      match lookup members k with
      | Some v => Ok v
      | None => Raise (KeyError k)
      end
  | _ => Raise TypeError
  end.

Definition is_str (v : json) (s : string) : bool :=
  match v with JStr t => String.eqb t s | _ => false end.

(** [k in obj] for a string [k] *)
Definition contains (k : string) (obj : json) : result bool :=
  match obj with
  | JObj members => Ok (has_key members k)
  | JArr items => Ok (existsb (fun v => is_str v k) items)
  | JStr s => Ok (Str.contains s k)
  | _ => Raise TypeError
  end.

Definition isinstance_dict (v : json) : bool :=
  match v with JObj _ => true | _ => false end.
Definition isinstance_str (v : json) : bool :=
  match v with JStr _ => true | _ => false end.

(** [bool(v)] *)
Definition truthy (v : json) : bool :=
  match v with
  | JNull => false
  | JBool b => b
  | JInt n => negb (Z.eqb n 0)
  | JFloat f => negb (PrimFloat.eqb f PrimFloat.zero)
  | JStr s => negb (Str.is_empty s)
  | JArr items => match items with [] => false | _ => true end
  | JObj members => match members with [] => false | _ => true end
  end.

(** Exact comparison of a float with an integer. *)
Definition float_eq_int (f : float) (n : Z) : bool :=
  match Prim2SF f with
  | S754_zero _ => Z.eqb n 0
  | S754_finite s m e =>
      let v := if s then Z.neg m else Z.pos m in
      if (0 <=? e)%Z then Z.eqb n (v * 2 ^ e)
      else Z.eqb (n * 2 ^ (- e)) v
  | _ => false
  end.

Definition int_of_bool (b : bool) : Z := if b then 1%Z else 0%Z.

(** [a == b] *)
Fixpoint eq (a b : json) {struct a} : bool :=
  match a, b with
  | JNull, JNull => true
  | JBool x, JBool y => Bool.eqb x y
  | JBool x, JInt n | JInt n, JBool x => Z.eqb (int_of_bool x) n
  | JBool x, JFloat f | JFloat f, JBool x => float_eq_int f (int_of_bool x)
  | JInt n, JInt m => Z.eqb n m
  | JInt n, JFloat f | JFloat f, JInt n => float_eq_int f n
  | JFloat f, JFloat g => PrimFloat.eqb f g
  | JStr s, JStr t => String.eqb s t
  | JArr l, JArr m =>
      (fix all2 (l m : list json) {struct l} : bool :=
         match l, m with
         | [], [] => true
         | x :: l', y :: m' => eq x y && all2 l' m'
         | _, _ => false
         end) l m
  | JObj d, JObj e =>
      Nat.eqb (List.length (keys [] d)) (List.length (keys [] e))
      && (fix each (d : list (string * json)) {struct d} : bool :=
            match d with
            | [] => true
            | (k, v) :: d' =>
                (if has_key d' k then true
                 else match lookup e k with
                      | Some w => eq v w
                      | None => false
                      end)
                && each d'
            end) d
  | _, _ => false
  end.

(** [v > 0] *)
Definition gt0 (v : json) : result bool :=
  match v with
  | JBool b => Ok b
  | JInt n => Ok (0 <? n)%Z
  | JFloat f => Ok (PrimFloat.ltb PrimFloat.zero f)
  | _ => Raise TypeError
  end.

Fixpoint chars (s : string) : list json :=
  match s with
  | EmptyString => []
  | String c s' => JStr (String c EmptyString) :: chars s'
  end.

(** The items of [for x in v]. *)
Definition iter (v : json) : result (list json) :=
  match v with
  | JArr items => Ok items
  | JObj members => Ok (map JStr (keys [] members))
  | JStr s => Ok (chars s)
  | _ => Raise TypeError
  end.

(** [sep.join(parts)], which takes strings only. *)
Fixpoint strs (parts : list json) : result (list string) :=
  match parts with
  | [] => Ok []
  | JStr s :: rest => ss <- strs rest ;; Ok (s :: ss)
  | _ :: _ => Raise TypeError
  end.

Definition join (sep : string) (parts : list json) : result string :=
  ss <- strs parts ;; Ok (Str.join sep ss).

End Py.

(** ** [models.py]

    The dataclasses are not checked at run time: a field holds whatever
    value the decoded document carried. *)

Module DetectedLanguage.
Record t := mk { iso : json; label : json }.
End DetectedLanguage.

Module ToneAnalysis.
Record t := mk { overall_tone : json; description : json }.
End ToneAnalysis.

Module WritingStatistics.
Record t := mk {
  word_count : json;
  character_count : json;
  character_count_no_spaces : json;
  paragraph_count : json;
  sentence_count : json;
  average_words_per_sentence : json;
  average_characters_per_word : json;
  vocabulary_diversity : json;
  reading_time_minutes : json;
  reading_level : json;
  readability_score : json
}.
End WritingStatistics.

Module ProofreadAnalysis.
Record t := mk {
  corrected_text : json;
  changes : json;
  corrections_summary : json;
  tone_analysis : ToneAnalysis.t;
  writing_statistics : WritingStatistics.t
}.
End ProofreadAnalysis.

Module ProofreadResult.
Record t := mk {
  detected_language : option DetectedLanguage.t;
  text : string;
  analysis : option ProofreadAnalysis.t
}.
End ProofreadResult.

Module WordStats.
Record t := mk {
  n_tokens : json;
  n_words : json;
  n_pages : json;
  time_saved : json;
  length : json
}.
End WordStats.

Module ResponseMetadata.
Record t := mk {
  speed : json;
  tokens : json;
  total_time_second : json;
  model : json;
  version : json;
  cost : json
}.
End ResponseMetadata.

Module SummaryResult.
Record t := mk {
  output_text : json;
  markdown : json;
  status : json;
  word_stats : WordStats.t;
  response_metadata : ResponseMetadata.t;
  elapsed_seconds : json;
  title : json
}.
End SummaryResult.

Module AssistantThread.
Record t := mk {
  id : json;
  title : json;
  created_at : json;
  expires_at : json;
  saved : json;
  shared : json
}.
End AssistantThread.

Module AssistantMessage.
Record t := mk {
  id : json;
  created_at : json;
  state : json;
  prompt : json;
  reply : json;
  md : json
}.
End AssistantMessage.

Module AssistantResult.
Record t := mk {
  thread : AssistantThread.t;
  message : AssistantMessage.t
}.
End AssistantResult.

Module SearchInfo.
Record t := mk {
  share_url : json;
  curr_batch : json;
  curr_piece : json;
  next_batch : json;
  next_piece : json
}.
End SearchInfo.

Module DomainInfo.
Record t := mk {
  domain : json;
  favicon_url : json;
  domain_secure : json;
  trackers : json;
  registration_date : json;
  website_speed : json;
  rule_type : json;
  description : json
}.
End DomainInfo.

Module SearchItem.
Record t := mk {
  title : string;
  url : string;
  description : string;
  web_archive_url : option string;
  date : option string
}.
End SearchItem.

Module SearchResult.
Record t := mk {
  search_html : string;
  info : SearchInfo.t;
  items : list SearchItem.t;
  domain_infos : list DomainInfo.t
}.
End SearchResult.

(** The part of an [httpx.Response] the clients read. *)
Module Response.
Record t := mk {
  status_code : Z;
  text : string
}.
End Response.

(** ** What the reducers share *)

(** [for x in l: st = f(st, x)], stopping at the first exception. *)
Fixpoint foldM {A S : Type} (f : S -> A -> result S) (l : list A) (st : S)
  : result S :=
  match l with
  | [] => Ok st
  | x :: l' => st' <- f st x ;; foldM f l' st'
  end.

Definition json_ws (c : ascii) : bool :=
  Ascii.eqb c " " || Ascii.eqb c (ascii_of_nat 9)
  || Ascii.eqb c (ascii_of_nat 10) || Ascii.eqb c (ascii_of_nat 13).

Definition skip_ws (s : string) : string := snd (Str.span json_ws s).

(** [str(n)] for an integer. *)
Definition str_of_Z (n : Z) : string :=
  DecimalString.NilZero.string_of_int (Z.to_int n).

(** ** The reducers *)

Section Reducers.

(** [json.JSONDecoder.raw_decode] on a text: the first JSON value and
    the text after it, or [None] for [JSONDecodeError]. *)
Variable raw_decode : string -> option (json * string).

(** [_parse_search_items] of [search.py], the extractor of result items
    from the accumulated HTML; the reducers only pass its value on. *)
Variable _parse_search_items : string -> list SearchItem.t.

(** [json.loads]: leading white space, one value, trailing white space
    and nothing else. *)
Definition json_loads (s : string) : result json :=
  match raw_decode (skip_ws s) with
  | Some (obj, rest) =>
      if Str.is_empty (skip_ws rest) then Ok obj else Raise JSONDecodeError
  | None => Raise JSONDecodeError
  end.

(** [assistant._parse_json] *)
Definition _parse_json (payload : string) : result json :=
  match raw_decode (Str.strip payload) with
  | Some (obj, _) => Ok obj
  | None => Raise JSONDecodeError
  end.

(** *** [proofread.py] *)

Definition _parse_writing_stats (raw : json) : result WritingStatistics.t :=
  word_count <- Py.getitem raw "word_count" ;;
  character_count <- Py.getitem raw "character_count" ;;
  character_count_no_spaces <- Py.getitem raw "character_count_no_spaces" ;;
  paragraph_count <- Py.getitem raw "paragraph_count" ;;
  sentence_count <- Py.getitem raw "sentence_count" ;;
  average_words_per_sentence <- Py.getitem raw "average_words_per_sentence" ;;
  average_characters_per_word <- Py.getitem raw "average_characters_per_word" ;;
  vocabulary_diversity <- Py.getitem raw "vocabulary_diversity" ;;
  reading_time_minutes <- Py.getitem raw "reading_time_minutes" ;;
  reading_level <- Py.getitem raw "reading_level" ;;
  readability_score <- Py.getitem raw "readability_score" ;;
  Ok (WritingStatistics.mk word_count character_count
        character_count_no_spaces paragraph_count sentence_count
        average_words_per_sentence average_characters_per_word
        vocabulary_diversity reading_time_minutes reading_level
        readability_score).

Record proofread_state := mkProofreadState {
  pr_detected_language : option DetectedLanguage.t;
  pr_text_parts : list json;
  pr_analysis : option ProofreadAnalysis.t
}.

(** The body of [for event in events] in [_parse_proofread_response]. *)
Definition proofread_step (st : proofread_state) (event : SSEEvent.t)
  : result proofread_state :=
  data <- json_loads (SSEEvent.data event) ;;
  has_dl <- Py.contains "detected_language" data ;;
  if has_dl then
    dl <- Py.getitem data "detected_language" ;;
    iso <- Py.getitem dl "iso" ;;
    label <- Py.getitem dl "label" ;;
    Ok (mkProofreadState (Some (DetectedLanguage.mk iso label))
          (pr_text_parts st) (pr_analysis st))
  else
    has_delta <- Py.contains "delta" data ;;
    if has_delta then
      delta <- Py.getitem data "delta" ;;
      Ok (mkProofreadState (pr_detected_language st)
            (pr_text_parts st ++ [delta]) (pr_analysis st))
    else
      has_analysis <- Py.contains "analysis" data ;;
      if has_analysis then
        a <- Py.getitem data "analysis" ;;
        ta <- Py.getitem a "tone_analysis" ;;
        ws <- Py.getitem a "writing_statistics" ;;
        corrected_text <- Py.getitem a "corrected_text" ;;
        changes <- Py.get a "changes" (JArr []) ;;
        corrections_summary <- Py.getitem a "corrections_summary" ;;
        overall_tone <- Py.getitem ta "overall_tone" ;;
        description <- Py.getitem ta "description" ;;
        writing_statistics <- _parse_writing_stats ws ;;
        Ok (mkProofreadState (pr_detected_language st) (pr_text_parts st)
              (Some (ProofreadAnalysis.mk corrected_text changes
                       corrections_summary
                       (ToneAnalysis.mk overall_tone description)
                       writing_statistics)))
      else Ok st.

Definition proofread_fold (events : list SSEEvent.t) (st : proofread_state)
  : result proofread_state :=
  foldM proofread_step events st.

Definition _parse_proofread_response (response_text : string)
  : result ProofreadResult.t :=
  st <- proofread_fold (parse_sse_events response_text)
          (mkProofreadState None [] None) ;;
  text <- Py.join "" (pr_text_parts st) ;;
  Ok (ProofreadResult.mk (pr_detected_language st) text (pr_analysis st)).

(** *** [summarizer.py] *)

(** The first loop of [_parse_summary_response]: the first line whose
    decoded [type] is ["final"]. *)
Fixpoint find_final (lines : list KagiStreamLine.t) : result (option json) :=
  match lines with
  | [] => Ok None
  | line :: rest =>
      data <- json_loads (KagiStreamLine.payload line) ;;
      ty <- Py.get data "type" JNull ;;
      if Py.is_str ty "final" then Ok (Some data) else find_final rest
  end.

(** The second loop, run over [reversed(lines)]. *)
Fixpoint find_completed (lines : list KagiStreamLine.t) : result (option json) :=
  match lines with
  | [] => Ok None
  | line :: rest =>
      data <- json_loads (KagiStreamLine.payload line) ;;
      od <- Py.get data "output_data" (JObj []) ;;
      status <- Py.get od "status" JNull ;;
      if Py.is_str status "completed" then Ok (Some data)
      else find_completed rest
  end.

(** [lines[-1]] *)
Definition last_line (lines : list KagiStreamLine.t) : result KagiStreamLine.t :=
  match rev lines with
  | [] => Raise IndexError
  | line :: _ => Ok line
  end.

(** The construction of the [SummaryResult] from the chosen record. *)
Definition summary_of (final_data : json) : result SummaryResult.t :=
  od <- Py.get final_data "output_data" (JObj []) ;;
  ws_raw <- Py.get od "word_stats" (JObj []) ;;
  rm_raw <- Py.get od "response_metadata" (JObj []) ;;
  output_text <- Py.get final_data "output_text" (JStr "") ;;
  markdown <- Py.get od "markdown" (JStr "") ;;
  status <- Py.get od "status" (JStr "") ;;
  n_tokens <- Py.get ws_raw "n_tokens" (JInt 0) ;;
  n_words <- Py.get ws_raw "n_words" (JInt 0) ;;
  n_pages <- Py.get ws_raw "n_pages" (JInt 0) ;;
  time_saved <- Py.get ws_raw "time_saved" (JInt 0) ;;
  length <- Py.get ws_raw "length" JNull ;;
  speed <- Py.get rm_raw "speed" JNull ;;
  tokens <- Py.get rm_raw "tokens" (JInt 0) ;;
  total_time_second <- Py.get rm_raw "total_time_second" (JInt 0) ;;
  model <- Py.get rm_raw "model" (JStr "") ;;
  version <- Py.get rm_raw "version" (JStr "") ;;
  cost <- Py.get rm_raw "cost" (JInt 0) ;;
  elapsed_seconds <- Py.get od "elapsed_seconds" JNull ;;
  title <- Py.get od "title" (JStr "") ;;
  Ok (SummaryResult.mk output_text markdown status
        (WordStats.mk n_tokens n_words n_pages time_saved length)
        (ResponseMetadata.mk speed tokens total_time_second model version cost)
        elapsed_seconds title).

Definition summary_lines (lines : list KagiStreamLine.t)
  : result SummaryResult.t :=
  final_data <- find_final lines ;;
  final_data <- match final_data with
                | None => find_completed (rev lines)
                | Some _ => Ok final_data
                end ;;
  final_data <- match final_data with
                | None =>
                    line <- last_line lines ;;
                    json_loads (KagiStreamLine.payload line)
                | Some data => Ok data
                end ;;
  summary_of final_data.

Definition _parse_summary_response (response_text : string)
  : result SummaryResult.t :=
  summary_lines (parse_kagi_stream_lines response_text).

(** *** [assistant.py] *)

Record assistant_state := mkAssistantState {
  as_thread : option AssistantThread.t;
  as_message : option AssistantMessage.t
}.

(** The body of [for line in lines] in [_parse_assistant_response]. *)
Definition assistant_step (st : assistant_state) (line : KagiStreamLine.t)
  : result assistant_state :=
  if String.eqb (KagiStreamLine.tag line) "thread.json" then
    data <- _parse_json (KagiStreamLine.payload line) ;;
    id <- Py.getitem data "id" ;;
    title <- Py.getitem data "title" ;;
    created_at <- Py.getitem data "created_at" ;;
    expires_at <- Py.get data "expires_at" (JStr "") ;;
    saved <- Py.get data "saved" (JBool false) ;;
    shared <- Py.get data "shared" (JBool false) ;;
    Ok (mkAssistantState
          (Some (AssistantThread.mk id title created_at expires_at saved shared))
          (as_message st))
  else if String.eqb (KagiStreamLine.tag line) "new_message.json" then
    data <- _parse_json (KagiStreamLine.payload line) ;;
    id <- Py.getitem data "id" ;;
    created_at <- Py.getitem data "created_at" ;;
    state <- Py.getitem data "state" ;;
    prompt <- Py.getitem data "prompt" ;;
    reply <- Py.get data "reply" JNull ;;
    md <- Py.get data "md" JNull ;;
    Ok (mkAssistantState (as_thread st)
          (Some (AssistantMessage.mk id created_at state prompt reply md)))
  else Ok st.

Definition assistant_fold (lines : list KagiStreamLine.t) (st : assistant_state)
  : result assistant_state :=
  foldM assistant_step lines st.

Definition _parse_assistant_response (response_text : string)
  : result AssistantResult.t :=
  st <- assistant_fold (parse_kagi_stream_lines response_text)
          (mkAssistantState None None) ;;
  match as_thread st with
  | None => Raise (APIError "No thread.json found in response" 200 response_text)
  | Some thread =>
      match as_message st with
      | None =>
          Raise (APIError "No new_message.json found in response" 200
                   response_text)
      | Some message => Ok (AssistantResult.mk thread message)
      end
  end.

(** One iteration of [async for raw_line in resp.aiter_lines()] in
    [prompt_stream]: the next [prev_text], and the snapshot yielded if
    any. *)
Definition prompt_stream_step (prev_text : json) (raw_line : string)
  : result (json * option json) :=
  match parse_kagi_stream_line raw_line with
  | None => Ok (prev_text, None)
  | Some parsed =>
      if negb (String.eqb (KagiStreamLine.tag parsed) "tokens.json") then
        Ok (prev_text, None)
      else
        match _parse_json (KagiStreamLine.payload parsed) with
        | Raise _ => Ok (prev_text, None)
        | Ok data =>
            full_text <- Py.get data "text" (JStr "") ;;
            if Py.truthy full_text && negb (Py.eq full_text prev_text)
            then Ok (full_text, Some full_text)
            else Ok (prev_text, None)
        end
  end.

(** What a consumer of the generator receives: the values yielded, and
    the exception that ended the iteration if one did. *)
Definition stream (A : Type) : Type := (list A * option exn)%type.

Definition yield {A : Type} (a : A) (rest : stream A) : stream A :=
  (a :: fst rest, snd rest).

Fixpoint prompt_stream_lines (prev_text : json) (raw_lines : list string)
  : stream json :=
  match raw_lines with
  | [] => ([], None)
  | raw_line :: rest =>
      match prompt_stream_step prev_text raw_line with
      | Raise e => ([], Some e)
      | Ok (prev_text', None) => prompt_stream_lines prev_text' rest
      | Ok (prev_text', Some full_text) =>
          yield full_text (prompt_stream_lines prev_text' rest)
      end
  end.

(** [AssistantClient.prompt_stream] on the response of the transport,
    whose body arrives as [raw_lines]. *)
Definition prompt_stream (resp : Response.t) (raw_lines : list string)
  : stream json :=
  if negb (Z.eqb (Response.status_code resp) 200) then
    ([], Some (APIError ("Assistant request failed: "
                           +++ str_of_Z (Response.status_code resp))
                 (Response.status_code resp) (Response.text resp)))
  else prompt_stream_lines (JStr "") raw_lines.

(** *** [search.py] *)

Record search_state := mkSearchState {
  search_html_parts : list json;
  ss_info : option SearchInfo.t;
  ss_domain_infos : list DomainInfo.t
}.

Definition domain_info_of (d : json) : result DomainInfo.t :=
  domain <- Py.get d "domain" (JStr "") ;;
  favicon_url <- Py.get d "favicon_url" JNull ;;
  domain_secure <- Py.get d "domain_secure" JNull ;;
  trackers <- Py.get d "trackers" JNull ;;
  registration_date <- Py.get d "registration_date" JNull ;;
  website_speed <- Py.get d "website_speed" JNull ;;
  rule_type <- Py.get d "rule_type" JNull ;;
  description <- Py.get d "description" JNull ;;
  Ok (DomainInfo.mk domain favicon_url domain_secure trackers
        registration_date website_speed rule_type description).

(** The body of [for item in items]. *)
Definition search_item_step (st : search_state) (item : json)
  : result search_state :=
  tag <- Py.get item "tag" (JStr "") ;;
  payload <- Py.get item "payload" JNull ;;
  if Py.is_str tag "search" then
    if Py.isinstance_dict payload then
      content <- Py.get payload "content" (JStr "") ;;
      Ok (mkSearchState (search_html_parts st ++ [content])
            (ss_info st) (ss_domain_infos st))
    else if Py.isinstance_str payload then
      Ok (mkSearchState (search_html_parts st ++ [payload])
            (ss_info st) (ss_domain_infos st))
    else Ok st
  else if Py.is_str tag "search.info" then
    if Py.isinstance_dict payload then
      share_url <- Py.get payload "share_url" (JStr "") ;;
      curr_batch <- Py.get payload "curr_batch" (JInt 1) ;;
      curr_piece <- Py.get payload "curr_piece" (JInt 1) ;;
      next_batch <- Py.get payload "next_batch" (JInt (-1)) ;;
      next_piece <- Py.get payload "next_piece" (JInt 1) ;;
      Ok (mkSearchState (search_html_parts st)
            (Some (SearchInfo.mk share_url curr_batch curr_piece
                     next_batch next_piece))
            (ss_domain_infos st))
    else Ok st
  else if Py.is_str tag "domain_info" then
    raw <- match payload with
           | JStr s => json_loads s
           | _ => Ok payload
           end ;;
    if Py.isinstance_dict raw then
      data <- Py.get raw "data" (JArr []) ;;
      ds <- Py.iter data ;;
      foldM (fun st d =>
               di <- domain_info_of d ;;
               Ok (mkSearchState (search_html_parts st) (ss_info st)
                     (ss_domain_infos st ++ [di])))
            ds st
    else Ok st
  else Ok st.

(** The body of [for event in events] in [_parse_search_response]. *)
Definition search_step (st : search_state) (event : SSEEvent.t)
  : result search_state :=
  if Str.is_empty (SSEEvent.data event) || is_blank (SSEEvent.data event)
  then Ok st
  else
    match json_loads (SSEEvent.data event) with
    | Raise _ => Ok st
    | Ok items =>
        match items with
        | JArr l => foldM search_item_step l st
        | _ => Ok st
        end
    end.

Definition search_fold (events : list SSEEvent.t) (st : search_state)
  : result search_state :=
  foldM search_step events st.

Definition default_info : SearchInfo.t :=
  SearchInfo.mk (JStr "") (JInt 1) (JInt 1) (JInt (-1)) (JInt 1).

Definition _parse_search_response (response_text : string)
  : result SearchResult.t :=
  st <- search_fold (parse_sse_events response_text)
          (mkSearchState [] None []) ;;
  let info := match ss_info st with
              | None => default_info
              | Some info => info
              end in
  full_html <- Py.join Str.nl (search_html_parts st) ;;
  Ok (SearchResult.mk full_html info (_parse_search_items full_html)
        (ss_domain_infos st)).

(** [SearchClient.search] over a transport [request], given the value of
    [batch] if there is one. *)
Definition search (request : option json -> Response.t) (batch : option json)
  : result SearchResult.t :=
  let resp := request batch in
  if negb (Z.eqb (Response.status_code resp) 200) then
    Raise (APIError ("Search request failed: "
                       +++ str_of_Z (Response.status_code resp))
             (Response.status_code resp) (Response.text resp))
  else _parse_search_response (Response.text resp).

End Reducers.

(** *** [SearchClient.search_all]

    The generator is driven one [__anext__] at a time; [fetch] stands for
    [self.search] with the query fixed. *)

Inductive search_all_state : Type :=
| SearchAllStart
| SearchAllLoop (result : SearchResult.t)
| SearchAllDone.

(** The outcome of one [__anext__]: a page yielded, the end of the
    iteration, or an exception. *)
Inductive anext (A : Type) : Type :=
| Yielded (a : A)
| StopAsyncIteration
| Raised (e : exn).
Arguments Yielded {A} a.
Arguments StopAsyncIteration {A}.
Arguments Raised {A} e.

(** One [__anext__]: the next state, the [batch] arguments of the calls of
    [self.search] it makes, and its outcome. *)
Definition search_all_next (fetch : option json -> result SearchResult.t)
  (st : search_all_state)
  : search_all_state * list (option json) * anext SearchResult.t :=
  match st with
  | SearchAllStart =>
      match fetch None with
      | Ok r => (SearchAllLoop r, [None], Yielded r)
      | Raise e => (SearchAllDone, [None], Raised e)
      end
  | SearchAllLoop r =>
      let next_batch := SearchInfo.next_batch (SearchResult.info r) in
      match Py.gt0 next_batch with
      | Raise e => (SearchAllDone, [], Raised e)
      | Ok false => (SearchAllDone, [], StopAsyncIteration)
      | Ok true =>
          match fetch (Some next_batch) with
          | Ok r' => (SearchAllLoop r', [Some next_batch], Yielded r')
          | Raise e => (SearchAllDone, [Some next_batch], Raised e)
          end
      end
  | SearchAllDone => (SearchAllDone, [], StopAsyncIteration)
  end.

(** [async for result in search_all(query)], collecting the pages; [None]
    when the iteration is still going on after [fuel] steps. *)
Fixpoint search_all_run (fetch : option json -> result SearchResult.t)
  (fuel : nat) (st : search_all_state)
  : option (list SearchResult.t * option exn) :=
  match fuel with
  | O => None
  | S fuel' =>
      match search_all_next fetch st with
      | (st', _, Yielded r) =>
          match search_all_run fetch fuel' st' with
          | Some (rs, e) => Some (r :: rs, e)
          | None => None
          end
      | (_, _, StopAsyncIteration) => Some ([], None)
      | (_, _, Raised e) => Some ([], Some e)
      end
  end.

Definition search_all (fetch : option json -> result SearchResult.t)
  (fuel : nat) : option (list SearchResult.t * option exn) :=
  search_all_run fetch fuel SearchAllStart.

(** ** A scanner for JSON texts

    [JSON.raw_decode] follows the scanner of Python's [json.decoder]: its
    white space, literals, number syntax, strict strings and containers.
    A [\u] escape above U+00FF has no character in this model and is
    refused. *)

Module JSON.

Local Open Scope Z_scope.

(** The nearest binary64 number to [m * 10 ^ e] for [0 <= m], ties to
    even, as [float()] gives it. *)
Definition float_of_decimal (neg : bool) (m e : Z) : float :=
  let mag :=
    if m =? 0 then PrimFloat.zero
    else
      let N := if 0 <=? e then m * 10 ^ e else m in
      let D := if 0 <=? e then 1 else 10 ^ (- e) in
      let quot k := if 0 <=? k then N / (D * 2 ^ k) else (N * 2 ^ (- k)) / D in
      let k0 := Z.max (Z.log2 N - Z.log2 D - 52) (-1074) in
      let k := if (quot k0 <? 2 ^ 52) && (-1074 <? k0) then k0 - 1 else k0 in
      let N' := if 0 <=? k then N else N * 2 ^ (- k) in
      let D' := if 0 <=? k then D * 2 ^ k else D in
      let q := N' / D' in
      let r := N' mod D' in
      let q' := if (D' <? 2 * r) || ((D' =? 2 * r) && Z.odd q) then q + 1 else q in
      if 1024 <? k then PrimFloat.infinity
      else Z.ldexp (PrimFloat.of_uint63 (Uint63.of_Z q')) k
  in
  if neg then PrimFloat.opp mag else mag.

Definition digit_val (c : ascii) : Z := Z.of_nat (nat_of_ascii c) - 48.

(** The value of a run of decimal digits after [acc]. *)
Fixpoint digits_val (acc : Z) (s : string) : Z :=
  match s with
  | EmptyString => acc
  | String c s' => digits_val (10 * acc + digit_val c) s'
  end.

Definition hex_val (c : ascii) : option Z :=
  let n := Z.of_nat (nat_of_ascii c) in
  if (48 <=? n) && (n <=? 57) then Some (n - 48)
  else if (97 <=? n) && (n <=? 102) then Some (n - 87)
  else if (65 <=? n) && (n <=? 70) then Some (n - 55)
  else None.

Definition hex4 (a b c d : ascii) : option Z :=
  match hex_val a, hex_val b, hex_val c, hex_val d with
  | Some x, Some y, Some z, Some w => Some (((x * 16 + y) * 16 + z) * 16 + w)
  | _, _, _, _ => None
  end.

Definition unescape (c : ascii) : option ascii :=
  if Ascii.eqb c Str.dq then Some Str.dq
  else if Ascii.eqb c "\" then Some "\"%char
  else if Ascii.eqb c "/" then Some "/"%char
  else if Ascii.eqb c "b" then Some (ascii_of_nat 8)
  else if Ascii.eqb c "f" then Some (ascii_of_nat 12)
  else if Ascii.eqb c "n" then Some (ascii_of_nat 10)
  else if Ascii.eqb c "r" then Some (ascii_of_nat 13)
  else if Ascii.eqb c "t" then Some (ascii_of_nat 9)
  else None.

(** [scanstring] in strict mode, from the character after the opening
    quote: the string and the text after the closing quote. *)
Fixpoint scanstring (s : string) : option (string * string) :=
  match s with
  | EmptyString => None
  | String c s' =>
      if Ascii.eqb c Str.dq then Some (EmptyString, s')
      else if Ascii.eqb c "\" then
        match s' with
        | String "u" (String h1 (String h2 (String h3 (String h4 s3)))) =>
            match hex4 h1 h2 h3 h4 with
            | Some n =>
                if n <? 256 then
                  match scanstring s3 with
                  | Some (t, r) => Some (String (ascii_of_nat (Z.to_nat n)) t, r)
                  | None => None
                  end
                else None
            | None => None
            end
        | String e s'' =>
            match unescape e with
            | Some x =>
                match scanstring s'' with
                | Some (t, r) => Some (String x t, r)
                | None => None
                end
            | None => None
            end
        | EmptyString => None
        end
      else if (nat_of_ascii c <? 32)%nat then None
      else
        match scanstring s' with
        | Some (t, r) => Some (String c t, r)
        | None => None
        end
  end.

(** The number syntax: an optional minus, an integer part without a
    leading zero, an optional fraction and an optional exponent, each of
    the last two taken only when complete. *)
Definition scan_number (s : string) : option (json * string) :=
  let (neg, s1) := match s with
                   | String "-" r => (true, r)
                   | _ => (false, s)
                   end in
  let int_part :=
    match s1 with
    | String "0" r => Some ("0"%string, r)
    | String c _ =>
        if is_digit c then Some (Str.span is_digit s1) else None
    | EmptyString => None
    end in
  match int_part with
  | None => None
  | Some (ip, s2) =>
      let (frac, s3) :=
        match s2 with
        | String "." r =>
            let (fd, r') := Str.span is_digit r in
            if Str.is_empty fd then (None, s2) else (Some fd, r')
        | _ => (None, s2)
        end in
      let (ex, s4) :=
        match s3 with
        | String c r =>
            if Ascii.eqb c "e" || Ascii.eqb c "E" then
              let (eneg, r1) := match r with
                                | String "-" r1 => (true, r1)
                                | String "+" r1 => (false, r1)
                                | _ => (false, r)
                                end in
              let (ed, r2) := Str.span is_digit r1 in
              if Str.is_empty ed then (None, s3)
              else (Some (if eneg then - digits_val 0 ed else digits_val 0 ed), r2)
            else (None, s3)
        | EmptyString => (None, s3)
        end in
      match frac, ex with
      | None, None =>
          Some (JInt (if neg then - digits_val 0 ip else digits_val 0 ip), s4)
      | _, _ =>
          let fd := match frac with Some fd => fd | None => EmptyString end in
          let e := match ex with Some e => e | None => 0 end in
          Some (JFloat (float_of_decimal neg (digits_val (digits_val 0 ip) fd)
                          (e - Z.of_nat (String.length fd))),
                s4)
      end
  end.

(** [scan_once], with the loops of [JSONArray] and [JSONObject].  Fuel
    of twice the length of the text and two is enough for every text. *)
Fixpoint scan_once (fuel : nat) (s : string) {struct fuel}
  : option (json * string) :=
  match fuel with
  | O => None
  | S fuel' =>
      match s with
      | EmptyString => None
      | String c rest =>
          if Ascii.eqb c Str.dq then
            match scanstring rest with
            | Some (t, r) => Some (JStr t, r)
            | None => None
            end
          else if Ascii.eqb c "{" then
            match skip_ws rest with
            | String "}" r => Some (JObj [], r)
            | r =>
                match scan_members fuel' r [] with
                | Some (ms, r') => Some (JObj ms, r')
                | None => None
                end
            end
          else if Ascii.eqb c "[" then
            match skip_ws rest with
            | String "]" r => Some (JArr [], r)
            | r =>
                match scan_items fuel' r [] with
                | Some (vs, r') => Some (JArr vs, r')
                | None => None
                end
            end
          else if Str.startswith s "null" then Some (JNull, Str.drop 4 s)
          else if Str.startswith s "true" then Some (JBool true, Str.drop 4 s)
          else if Str.startswith s "false" then Some (JBool false, Str.drop 5 s)
          else
            match scan_number s with
            | Some r => Some r
            | None =>
                if Str.startswith s "NaN" then
                  Some (JFloat PrimFloat.nan, Str.drop 3 s)
                else if Str.startswith s "Infinity" then
                  Some (JFloat PrimFloat.infinity, Str.drop 8 s)
                else if Str.startswith s "-Infinity" then
                  Some (JFloat PrimFloat.neg_infinity, Str.drop 9 s)
                else None
            end
      end
  end

with scan_items (fuel : nat) (s : string) (acc : list json) {struct fuel}
  : option (list json * string) :=
  match fuel with
  | O => None
  | S fuel' =>
      match scan_once fuel' s with
      | Some (v, r) =>
          match skip_ws r with
          | String "]" r' => Some (rev (v :: acc), r')
          | String "," r' => scan_items fuel' (skip_ws r') (v :: acc)
          | _ => None
          end
      | None => None
      end
  end

with scan_members (fuel : nat) (s : string) (acc : list (string * json))
  {struct fuel} : option (list (string * json) * string) :=
  match fuel with
  | O => None
  | S fuel' =>
      match s with
      | String c r0 =>
          if Ascii.eqb c Str.dq then
            match scanstring r0 with
            | Some (key, r1) =>
                match skip_ws r1 with
                | String ":" r2 =>
                    match scan_once fuel' (skip_ws r2) with
                    | Some (v, r3) =>
                        match skip_ws r3 with
                        | String "}" r4 => Some (rev ((key, v) :: acc), r4)
                        | String "," r4 =>
                            scan_members fuel' (skip_ws r4) ((key, v) :: acc)
                        | _ => None
                        end
                    | None => None
                    end
                | _ => None
                end
            | None => None
            end
          else None
      | EmptyString => None
      end
  end.

Definition raw_decode (s : string) : option (json * string) :=
  scan_once (2 * String.length s + 2) s.

End JSON.

(** ** SSE texts read block by block

    The reading of an SSE text that the properties below compare
    [parse_sse_events] with. *)

Definition is_event_line (l : string) : bool := Str.startswith l "event:".
Definition is_data_line (l : string) : bool := Str.startswith l "data:".
Definition is_id_line (l : string) : bool := Str.startswith l "id:".

(** The blocks of lines that an empty line closes, in order, [cur] being
    the lines read since the last empty line.  The lines after the last
    empty line are in no block. *)
Fixpoint closed_blocks (cur lines : list string) : list (list string) :=
  match lines with
  | [] => []
  | l :: rest =>
      if Str.is_empty l then cur :: closed_blocks [] rest
      else closed_blocks (cur ++ [l]) rest
  end.

Definition has_data (block : list string) : bool := existsb is_data_line block.

(** What the [data:] lines of a block contribute. *)
Definition data_of (block : list string) : list string :=
  map (fun l => Str.strip (Str.drop 5 l)) (filter is_data_line block).

(** The content of the last line of a block with a given prefix of [n]
    characters. *)
Definition last_field (p : string -> bool) (n : nat) (block : list string)
  : option string :=
  match rev (filter p block) with
  | [] => None
  | l :: _ => Some (Str.strip (Str.drop n l))
  end.

Definition frame_of (block : list string) : SSEEvent.t :=
  SSEEvent.mk (last_field is_event_line 6 block)
              (Str.join Str.nl (data_of block))
              (last_field is_id_line 3 block).

(** The content of a line with one leading space removed and nothing
    else. *)
Definition strip_one_space (s : string) : string :=
  match s with
  | String " " r => r
  | _ => s
  end.

(** [trimmed_of s t]: [t] is [s] without the white space at its two
    ends. *)
Fixpoint all_space (s : string) : bool :=
  match s with
  | EmptyString => true
  | String c r => Str.is_space c && all_space r
  end.

Definition first_char (s : string) : option ascii :=
  match s with
  | EmptyString => None
  | String c _ => Some c
  end.

Fixpoint last_char (s : string) : option ascii :=
  match s with
  | EmptyString => None
  | String c r =>
      match last_char r with
      | Some x => Some x
      | None => Some c
      end
  end.

Definition trimmed_of (s t : string) : Prop :=
  (exists a c, s = a +++ t +++ c /\ all_space a = true /\ all_space c = true)
  /\ (forall ch, first_char t = Some ch -> Str.is_space ch = false)
  /\ (forall ch, last_char t = Some ch -> Str.is_space ch = false).

(** A frame written back as text.  The repository has no writer of
    frames; this is the one the round-trip property speaks of: an [event:]
    line when there is an event name, one [data:] line per line of the
    data, an [id:] line when there is an id, and an empty line to close. *)
Definition frame_lines (ev : SSEEvent.t) : list string :=
  match SSEEvent.event ev with
  | Some e => ["event: " +++ e]
  | None => []
  end
  ++ map (fun d => "data: " +++ d) (Str.split Str.lf (SSEEvent.data ev))
  ++ match SSEEvent.id ev with
     | Some i => ["id: " +++ i]
     | None => []
     end
  ++ [""].

(** A list of lines as a text, each line ended by a line feed. *)
Fixpoint unlines (lines : list string) : string :=
  match lines with
  | [] => ""
  | l :: rest => l +++ Str.nl +++ unlines rest
  end.

Definition serialize (ev : SSEEvent.t) : string := unlines (frame_lines ev).

(** ** Tag lines and the lines that follow them *)

(** The lines after a tag line end at the next tag line or at the end of
    the input. *)
Definition ends_frame (rest : list string) : Prop :=
  match rest with
  | [] => True
  | l :: _ => is_tag_line l = true
  end.

Definition not_blank (p : string) : bool := negb (is_blank p).

(** C3 as stated: the payload of a frame is the join of the non-blank
    lines after its tag line. *)
Definition payload_is_following_lines : Prop :=
  forall (text : string) (pre : list string) (raw t g2 : string)
         (conts rest : list string),
    Str.split Str.lf text = pre ++ raw :: conts ++ rest ->
    _TAG_RE_match raw = Some (t, g2) ->
    Forall (fun l => is_tag_line l = false) conts ->
    ends_frame rest ->
    parse_kagi_stream_lines text
    = kagi_loop pre
        ++ KagiStreamLine.mk t (Str.join Str.nl (filter not_blank conts))
        :: kagi_loop rest.

(** ** Decoded records *)

(** The value under key [k] of a decoded object, [default] when the key is
    absent. *)
Definition field (d : json) (k : string) (default : json) : json :=
  match d with
  | JObj members =>
      match Py.lookup members k with
      | Some v => v
      | None => default
      end
  | _ => default
  end.

Definition is_object (d : json) : bool := Py.isinstance_dict d.

(** A decoded summarizer frame: an object whose [output_data], when it has
    one, is an object, whose [word_stats] and [response_metadata] are
    objects when present. *)
Definition summary_record (d : json) : bool :=
  is_object d
  && is_object (field d "output_data" (JObj []))
  && is_object (field (field d "output_data" (JObj [])) "word_stats" (JObj []))
  && is_object (field (field d "output_data" (JObj [])) "response_metadata"
                  (JObj [])).

Definition is_final (d : json) : bool :=
  Py.is_str (field d "type" JNull) "final".

Definition is_completed (d : json) : bool :=
  Py.is_str (field (field d "output_data" (JObj [])) "status" JNull) "completed".

(** The result read off a decoded summarizer frame, field by field. *)
Definition summary_fields (d : json) : SummaryResult.t :=
  let od := field d "output_data" (JObj []) in
  let ws := field od "word_stats" (JObj []) in
  let rm := field od "response_metadata" (JObj []) in
  SummaryResult.mk
    (field d "output_text" (JStr ""))
    (field od "markdown" (JStr ""))
    (field od "status" (JStr ""))
    (WordStats.mk (field ws "n_tokens" (JInt 0)) (field ws "n_words" (JInt 0))
       (field ws "n_pages" (JInt 0)) (field ws "time_saved" (JInt 0))
       (field ws "length" JNull))
    (ResponseMetadata.mk (field rm "speed" JNull) (field rm "tokens" (JInt 0))
       (field rm "total_time_second" (JInt 0)) (field rm "model" (JStr ""))
       (field rm "version" (JStr "")) (field rm "cost" (JInt 0)))
    (field od "elapsed_seconds" JNull)
    (field od "title" (JStr "")).

(** The frames of a text, each with the record its payload decodes to. *)
Definition decoded_as (raw_decode : string -> option (json * string))
  (lines : list KagiStreamLine.t) (records : list json) : Prop :=
  Forall2 (fun line d =>
             json_loads raw_decode (KagiStreamLine.payload line) = Ok d)
          lines records.

(** ** Assistant frames *)

(** The last frame of tag [t], if there is one. *)
Fixpoint last_tagged (t : string) (lines : list KagiStreamLine.t)
  : option KagiStreamLine.t :=
  match lines with
  | [] => None
  | line :: rest =>
      match last_tagged t rest with
      | Some l => Some l
      | None => if String.eqb (KagiStreamLine.tag line) t then Some line else None
      end
  end.

Definition has_tag (t : string) (lines : list KagiStreamLine.t) : bool :=
  existsb (fun line => String.eqb (KagiStreamLine.tag line) t) lines.

Definition has_keys (d : json) (ks : list string) : bool :=
  match d with
  | JObj members => forallb (Py.has_key members) ks
  | _ => false
  end.

Definition thread_fields (d : json) : AssistantThread.t :=
  AssistantThread.mk (field d "id" JNull) (field d "title" JNull)
    (field d "created_at" JNull) (field d "expires_at" (JStr ""))
    (field d "saved" (JBool false)) (field d "shared" (JBool false)).

Definition message_fields (d : json) : AssistantMessage.t :=
  AssistantMessage.mk (field d "id" JNull) (field d "created_at" JNull)
    (field d "state" JNull) (field d "prompt" JNull)
    (field d "reply" JNull) (field d "md" JNull).

(** The first JSON value of the payload of a frame, [JNull] when there is
    none. *)
Definition payload_json (raw_decode : string -> option (json * string))
  (line : KagiStreamLine.t) : json :=
  match _parse_json raw_decode (KagiStreamLine.payload line) with
  | Ok d => d
  | Raise _ => JNull
  end.

(** A [thread.json] or [new_message.json] frame is well formed when its
    payload starts with a JSON object that has the keys the reducer
    subscripts; any other frame is. *)
Definition frame_ok (raw_decode : string -> option (json * string))
  (line : KagiStreamLine.t) : bool :=
  if String.eqb (KagiStreamLine.tag line) "thread.json" then
    match _parse_json raw_decode (KagiStreamLine.payload line) with
    | Ok d => has_keys d ["id"; "title"; "created_at"]
    | Raise _ => false
    end
  else if String.eqb (KagiStreamLine.tag line) "new_message.json" then
    match _parse_json raw_decode (KagiStreamLine.payload line) with
    | Ok d => has_keys d ["id"; "created_at"; "state"; "prompt"]
    | Raise _ => false
    end
  else true.

(** C6 as stated: the reducer fails exactly when one of the two frames is
    missing. *)
Definition assistant_fails_iff_frame_missing
  (raw_decode : string -> option (json * string)) : Prop :=
  forall text : string,
    (exists e, _parse_assistant_response raw_decode text = Raise e)
    <-> (has_tag "thread.json" (parse_kagi_stream_lines text) = false
         \/ has_tag "new_message.json" (parse_kagi_stream_lines text) = false).

(** The text that a raw line of the assistant stream carries: none when
    the line is not a [tokens.json] frame or its payload does not start
    with a JSON value. *)
Definition token_text (raw_decode : string -> option (json * string))
  (raw_line : string) : result (option json) :=
  match parse_kagi_stream_line raw_line with
  | None => Ok None
  | Some parsed =>
      if negb (String.eqb (KagiStreamLine.tag parsed) "tokens.json") then Ok None
      else
        match _parse_json raw_decode (KagiStreamLine.payload parsed) with
        | Raise _ => Ok None
        | Ok data =>
            full_text <- Py.get data "text" (JStr "") ;; Ok (Some full_text)
        end
  end.

(** [yields_from prev snapshots ys]: of the snapshots, taken in order, [ys]
    are those that are not empty and differ from the snapshot yielded last
    before them, [prev] standing for it at the start. *)
Inductive yields_from : string -> list string -> list string -> Prop :=
| yields_end (prev : string) : yields_from prev [] []
| yields_take (prev t : string) (ts ys : list string) :
    t <> "" -> t <> prev ->
    yields_from t ts ys -> yields_from prev (t :: ts) (t :: ys)
| yields_skip (prev t : string) (ts ys : list string) :
    t = "" \/ t = prev ->
    yields_from prev ts ys -> yields_from prev (t :: ts) ys.

(** ** Examples

    Stream texts after those of the unit tests, for running the framers
    and the reducers with the scanner above. *)

(** [q s] is [s] with a double quote for each apostrophe and a line feed
    for each vertical bar: the stream texts of the examples are written
    with it. *)
Fixpoint q (s : string) : string :=
  match s with
  | EmptyString => EmptyString
  | String c s' =>
      String (if Ascii.eqb c "'" then Str.dq
              else if Ascii.eqb c "|" then Str.lf
              else c) (q s')
  end.

(** The extractor of result items on a text with no result block, where
    it finds no item; the texts of the examples below have none. *)
Definition no_items (html : string) : list SearchItem.t := [].

(** The records of the frames of a text, [JNull] standing for a payload
    that does not decode. *)
Definition records_of (text : string) : list json :=
  map (fun line =>
         match json_loads JSON.raw_decode (KagiStreamLine.payload line) with
         | Ok d => d
         | Raise _ => JNull
         end)
      (parse_kagi_stream_lines text).

(** The summarizer stream of the unit tests: two updates and the final
    frame. *)
Definition summary_stream_example : string :=
  q ("update:{'output_text':'','output_data':{'status':'reading',"
     +++ "'word_stats':{'n_tokens':0,'n_words':0,'n_pages':1,'time_saved':0,'length':null},"
     +++ "'elapsed_seconds':null,'markdown':'',"
     +++ "'response_metadata':{'speed':null,'tokens':0,'total_time_second':0,"
     +++ "'model':'','version':'','cost':0},"
     +++ "'images':[],'title':'','authors':null},'tokens':0,'type':'update'}|"
     +++ "update:{'output_text':'<p>Title: Test</p>',"
     +++ "'output_data':{'status':'generating',"
     +++ "'word_stats':{'n_tokens':100,'n_words':80,'n_pages':2,'time_saved':5,'length':null},"
     +++ "'elapsed_seconds':null,'markdown':'',"
     +++ "'response_metadata':{'speed':null,'tokens':0,'total_time_second':0,"
     +++ "'model':'','version':'','cost':0},"
     +++ "'images':[],'title':'','authors':null},'tokens':100,'type':'update'}|"
     +++ "final:{'output_text':'<p>Title: Test</p><ul><li>Point one</li></ul>',"
     +++ "'output_data':{'status':'completed',"
     +++ "'word_stats':{'n_tokens':100,'n_words':80,'n_pages':2,'time_saved':5,'length':null},"
     +++ "'elapsed_seconds':12.1,"
     +++ "'markdown':'Title: Test\n\n- Point one',"
     +++ "'response_metadata':{'speed':77,'tokens':4154,'total_time_second':12.12,"
     +++ "'model':'Mistral Small','version':'mistral-small-latest','cost':0.00048},"
     +++ "'images':[],'title':'Test Article','authors':null},'tokens':3605,'type':'final'}|").

(** The assistant stream of the unit tests. *)
Definition assistant_stream_example : string :=
  q ("hi:{'v':'202509261613.stage.699a118','trace':'abc123'}|"
     +++ "thread_list.html:|"
     +++ "  <div class='hide-if-no-threads'>content</div>|"
     +++ "thread.json:{'id':'thread-1','title':'Test','created_at':'2025-09-30T09:47:23Z',"
     +++ "'expires_at':'2025-09-30T10:47:23Z','saved':false,'shared':false,"
     +++ "'branch_id':'00000000-0000-4000-0000-000000000000','tag_ids':[]}|"
     +++ "messages.json:[]|"
     +++ "new_message.json:{'id':'msg-1','created_at':'2025-09-30T09:47:23Z',"
     +++ "'state':'waiting','prompt':'Hello','reply':null,'md':null,"
     +++ "'profile':{},'citations':null,'documents':[]}|"
     +++ "tokens.json:{'text':'','id':'msg-1'}|"
     +++ "tokens.json:{'text':'<p>Hi there!</p>','id':'msg-1'}|"
     +++ "tokens.json:{'text':'<p>Hi there!</p>','id':'msg-1'}|"
     +++ "new_message.json:{'id':'msg-1','created_at':'2025-09-30T09:47:23Z',"
     +++ "'state':'done','prompt':'Hello','reply':'<p>Hi there!</p>',"
     +++ "'md':'Hi there!','profile':{},'metadata':'','citations':[],'documents':[]}|").

(** Four token frames, with the snapshots of C5. *)
Definition token_lines_example : list string :=
  [q "tokens.json:{'text':'','id':'msg-1'}";
   q "tokens.json:{'text':'<p>A</p>','id':'msg-1'}";
   q "tokens.json:{'text':'<p>A</p>','id':'msg-1'}";
   q "tokens.json:{'text':'<p>AB</p>','id':'msg-1'}"].

(** A first page, whose cursor points to batch 2, and a second and last
    page, after the responses of the unit tests. *)
Definition search_page1_example : string :=
  q ("hi||id: 1|"
     +++ "data: [{'tag':'top_content','payload':'<div>10 results</div>',"
     +++ "'sent_at':1770905073337,'kagi_version':'v1'}]||"
     +++ "id: 2|"
     +++ "data: [{'tag':'search.info','payload':{'share_url':'https://kagi.com/search?q=test',"
     +++ "'curr_batch':1,'curr_piece':1,'next_batch':2,'next_piece':1},"
     +++ "'sent_at':1770905073337,'kagi_version':'v1'}]||"
     +++ "id: 3|"
     +++ "data: [{'tag':'search','payload':{'content':'<div class=\'result\'>Result 1</div>'},"
     +++ "'sent_at':1770905073337,'kagi_version':'v1'}]||"
     +++ "id: 4|"
     +++ "data: [{'tag':'domain_info','payload':'{\'too_many_rules\': false, "
     +++ "\'data\': [{\'domain\': \'example.com\', \'trackers\': 5}]}',"
     +++ "'sent_at':1770905073337,'kagi_version':'v1'}]||"
     +++ "id: CLOSE|data: ||").

Definition search_page2_example : string :=
  q ("hi||id: 1|"
     +++ "data: [{'tag':'search.info','payload':{'share_url':'https://kagi.com/search?q=test',"
     +++ "'curr_batch':2,'curr_piece':1,'next_batch':-1,'next_piece':1},"
     +++ "'sent_at':1770905073337,'kagi_version':'v1'}]||"
     +++ "id: 2|"
     +++ "data: [{'tag':'search','payload':{'content':'<div>Result 2</div>'},"
     +++ "'sent_at':1770905073337,'kagi_version':'v1'}]||"
     +++ "id: CLOSE|data: ||").

(** A transport that serves the first page when no batch is asked for and
    the second page otherwise. *)
Definition request_example (batch : option json) : Response.t :=
  match batch with
  | None => Response.mk 200 search_page1_example
  | Some _ => Response.mk 200 search_page2_example
  end.

Definition fetch_example : option json -> result SearchResult.t :=
  search JSON.raw_decode no_items request_example.

(** Streams with a frame that is not JSON. *)
Definition proofread_broken_example : string :=
  q "data: {'delta':'Hel'}||data: oops||data: {'delta':'lo'}||".

Definition summary_broken_example : string :=
  q "update:oops|final:{'output_text':'done','type':'final'}|".

Definition assistant_broken_example : string :=
  q ("thread.json:{'id':'t1','title':'T','created_at':'now'}|"
     +++ "new_message.json:oops|"
     +++ "new_message.json:{'id':'m1','created_at':'now','state':'done','prompt':'hi'}|").

Definition search_broken_example : string :=
  q ("data: [{'tag':'search','payload':'<p>1</p>'}]||data: oops||"
     +++ "data: [{'tag':'search','payload':'<p>2</p>'}]||").

(** ** Notions used in the proofs *)

(** The state of the loop after the lines [cur] of an open block, with
    the frames [evs] emitted before it. *)
Definition acc_state (evs : list SSEEvent.t) (cur : list string) : sse_state :=
  mkSseState evs (last_field is_event_line 6 cur) (data_of cur)
             (last_field is_id_line 3 cur).

(** A string with no white space at its ends and no line feed. *)
Definition clean (s : string) : Prop := Str.strip s = s /\ Str.mem Str.lf s = false.

Definition clean_field (o : option string) : Prop :=
  forall s, o = Some s -> clean s.

(** What every emitted frame satisfies. *)
Definition emitted (ev : SSEEvent.t) : Prop :=
  clean_field (SSEEvent.event ev)
  /\ (exists cs, cs <> [] /\ Forall clean cs
                 /\ SSEEvent.data ev = Str.join Str.nl cs)
  /\ clean_field (SSEEvent.id ev).

Definition no_lf (l : string) : Prop := Str.mem Str.lf l = false.

(** The lines of a written frame, by kind. *)
Definition event_lines (o : option string) : list string :=
  match o with Some e => ["event: " +++ e] | None => [] end.
Definition data_lines (cs : list string) : list string :=
  map (fun d => "data: " +++ d) cs.
Definition id_lines (o : option string) : list string :=
  match o with Some i => ["id: " +++ i] | None => [] end.

Definition body (e : option string) (cs : list string) (i : option string)
  : list string :=
  event_lines e ++ data_lines cs ++ id_lines i.

(** The inner loop of [kagi_loop], for the frame of tag [t]. *)
Fixpoint collect (t : string) (ls payload_parts : list string)
  : list KagiStreamLine.t :=
  match ls with
  | [] => [KagiStreamLine.mk t (join_payload payload_parts)]
  | next_line :: ls' =>
      if is_blank next_line then collect t ls' payload_parts
      else if is_tag_line next_line then
        KagiStreamLine.mk t (join_payload payload_parts) :: kagi_loop ls
      else collect t ls' (payload_parts ++ [next_line])
  end.

(** ** Further notions on the framers *)

(** The lines that [parse_sse_events] acts on: the empty line and the
    lines of the three fields. *)
Definition sse_relevant (l : string) : bool :=
  Str.is_empty l || is_event_line l || is_data_line l || is_id_line l.

Fixpoint all_chars (p : ascii -> bool) (s : string) : bool :=
  match s with
  | EmptyString => true
  | String c r => p c && all_chars p r
  end.

(** A tag as [_TAG_RE] reads it: a letter or an underscore, then letters,
    digits, underscores, dots and hyphens. *)
Definition valid_tag (t : string) : bool :=
  match t with
  | EmptyString => false
  | String c r => tag_head c && all_chars tag_char r
  end.

(** The tag of a line, when the line is a tag line. *)
Definition tag_of_line (l : string) : list string :=
  match _TAG_RE_match l with
  | Some (t, _) => [t]
  | None => []
  end.

(** ** The streaming entry points of [summarizer.py] and [proofread.py] *)

Module SummaryUpdate.
Record t := mk {
  output_text : json;
  status : json;
  word_stats : WordStats.t;
  tokens : json;
  type : json
}.
End SummaryUpdate.

(** The [SummaryUpdate] that [summarize_stream] builds from one frame. *)
Definition summary_update_of (raw_decode : string -> option (json * string))
  (line : KagiStreamLine.t) : result SummaryUpdate.t :=
  data <- json_loads raw_decode (KagiStreamLine.payload line) ;;
  od <- Py.get data "output_data" (JObj []) ;;
  ws_raw <- Py.get od "word_stats" (JObj []) ;;
  output_text <- Py.get data "output_text" (JStr "") ;;
  status <- Py.get od "status" (JStr "") ;;
  n_tokens <- Py.get ws_raw "n_tokens" (JInt 0) ;;
  n_words <- Py.get ws_raw "n_words" (JInt 0) ;;
  n_pages <- Py.get ws_raw "n_pages" (JInt 0) ;;
  time_saved <- Py.get ws_raw "time_saved" (JInt 0) ;;
  length <- Py.get ws_raw "length" JNull ;;
  tokens <- Py.get data "tokens" (JInt 0) ;;
  type <- Py.get data "type" (JStr "update") ;;
  Ok (SummaryUpdate.mk output_text status
        (WordStats.mk n_tokens n_words n_pages time_saved length)
        tokens type).

(** The loop of [summarize_stream] over the frames, as the generator a
    consumer drives. *)
Fixpoint summarize_stream_lines (raw_decode : string -> option (json * string))
  (lines : list KagiStreamLine.t) : stream SummaryUpdate.t :=
  match lines with
  | [] => ([], None)
  | line :: rest =>
      match summary_update_of raw_decode line with
      | Raise e => ([], Some e)
      | Ok u => yield u (summarize_stream_lines raw_decode rest)
      end
  end.

(** [SummarizerClient.summarize_stream] on the response of the transport. *)
Definition summarize_stream (raw_decode : string -> option (json * string))
  (resp : Response.t) : stream SummaryUpdate.t :=
  if negb (Z.eqb (Response.status_code resp) 200) then
    ([], Some (APIError ("Summarizer request failed: "
                           +++ str_of_Z (Response.status_code resp))
                 (Response.status_code resp) (Response.text resp)))
  else summarize_stream_lines raw_decode
         (parse_kagi_stream_lines (Response.text resp)).

(** [SummarizerClient.summarize] on the response of the transport. *)
Definition summarize (raw_decode : string -> option (json * string))
  (resp : Response.t) : result SummaryResult.t :=
  if negb (Z.eqb (Response.status_code resp) 200) then
    Raise (APIError ("Summarizer request failed: "
                       +++ str_of_Z (Response.status_code resp))
             (Response.status_code resp) (Response.text resp))
  else _parse_summary_response raw_decode (Response.text resp).

(** The loop of [proofread_stream] over the frames. *)
Fixpoint proofread_stream_events (raw_decode : string -> option (json * string))
  (events : list SSEEvent.t) : stream json :=
  match events with
  | [] => ([], None)
  | event :: rest =>
      match json_loads raw_decode (SSEEvent.data event) with
      | Raise e => ([], Some e)
      | Ok data => yield data (proofread_stream_events raw_decode rest)
      end
  end.

(** [ProofreadClient.proofread_stream] on the response of the transport. *)
Definition proofread_stream (raw_decode : string -> option (json * string))
  (resp : Response.t) : stream json :=
  if negb (Z.eqb (Response.status_code resp) 200) then
    ([], Some (APIError ("Proofread request failed: "
                           +++ str_of_Z (Response.status_code resp))
                 (Response.status_code resp) (Response.text resp)))
  else proofread_stream_events raw_decode
         (parse_sse_events (Response.text resp)).

(** [ProofreadClient.proofread] on the response of the transport. *)
Definition proofread (raw_decode : string -> option (json * string))
  (resp : Response.t) : result ProofreadResult.t :=
  if negb (Z.eqb (Response.status_code resp) 200) then
    Raise (APIError ("Proofread request failed: "
                       +++ str_of_Z (Response.status_code resp))
             (Response.status_code resp) (Response.text resp))
  else _parse_proofread_response raw_decode (Response.text resp).

(** ** Frames of the proofread stream, by kind *)

(** The last value that [f] gives on a list, if it gives one. *)
Fixpoint last_some {A B : Type} (f : A -> option B) (l : list A) : option B :=
  match l with
  | [] => None
  | x :: rest =>
      match last_some f rest with
      | Some b => Some b
      | None => f x
      end
  end.

Definition has_field (d : json) (k : string) : bool :=
  match d with
  | JObj members => Py.has_key members k
  | _ => false
  end.

(** The language of a frame that has the key [detected_language]. *)
Definition language_of (d : json) : option DetectedLanguage.t :=
  if has_field d "detected_language" then
    let dl := field d "detected_language" JNull in
    Some (DetectedLanguage.mk (field dl "iso" JNull) (field dl "label" JNull))
  else None.

(** The delta of a frame that has the key [delta] and not the key
    [detected_language]. *)
Definition delta_of (d : json) : list json :=
  if has_field d "detected_language" then []
  else if has_field d "delta" then [field d "delta" JNull]
  else [].

Definition writing_statistics_keys : list string :=
  ["word_count"; "character_count"; "character_count_no_spaces";
   "paragraph_count"; "sentence_count"; "average_words_per_sentence";
   "average_characters_per_word"; "vocabulary_diversity";
   "reading_time_minutes"; "reading_level"; "readability_score"].

Definition writing_statistics_fields (ws : json) : WritingStatistics.t :=
  WritingStatistics.mk
    (field ws "word_count" JNull) (field ws "character_count" JNull)
    (field ws "character_count_no_spaces" JNull)
    (field ws "paragraph_count" JNull) (field ws "sentence_count" JNull)
    (field ws "average_words_per_sentence" JNull)
    (field ws "average_characters_per_word" JNull)
    (field ws "vocabulary_diversity" JNull)
    (field ws "reading_time_minutes" JNull) (field ws "reading_level" JNull)
    (field ws "readability_score" JNull).

(** The analysis of a frame that has the key [analysis] and neither of the
    two other keys. *)
Definition analysis_of (d : json) : option ProofreadAnalysis.t :=
  if has_field d "detected_language" then None
  else if has_field d "delta" then None
  else if has_field d "analysis" then
    let a := field d "analysis" JNull in
    let ta := field a "tone_analysis" JNull in
    Some (ProofreadAnalysis.mk
            (field a "corrected_text" JNull)
            (field a "changes" (JArr []))
            (field a "corrections_summary" JNull)
            (ToneAnalysis.mk (field ta "overall_tone" JNull)
                             (field ta "description" JNull))
            (writing_statistics_fields (field a "writing_statistics" JNull)))
  else None.

(** A decoded proofread frame that the reducer folds without failure: an
    object; its language, when it is a language frame, an object with
    [iso] and [label]; its analysis, when it is an analysis frame, an
    object with the keys that the reducer subscripts. *)
Definition proofread_record (d : json) : bool :=
  is_object d
  && (if has_field d "detected_language" then
        has_keys (field d "detected_language" JNull) ["iso"; "label"]
      else if has_field d "delta" then true
      else if has_field d "analysis" then
        let a := field d "analysis" JNull in
        has_keys a ["tone_analysis"; "writing_statistics"; "corrected_text";
                    "corrections_summary"]
        && has_keys (field a "tone_analysis" JNull)
                    ["overall_tone"; "description"]
        && has_keys (field a "writing_statistics" JNull) writing_statistics_keys
      else true).

(** The frames of an SSE text, each with the value its data decodes to. *)
Definition events_decoded_as (raw_decode : string -> option (json * string))
  (events : list SSEEvent.t) (records : list json) : Prop :=
  Forall2 (fun event d => json_loads raw_decode (SSEEvent.data event) = Ok d)
          events records.

Definition events_records_of (text : string) : list json :=
  map (fun event =>
         match json_loads JSON.raw_decode (SSEEvent.data event) with
         | Ok d => d
         | Raise _ => JNull
         end)
      (parse_sse_events text).

(** The proofread stream of the specification: a language, two deltas and
    an analysis. *)
Definition proofread_stream_example : string :=
  q ("event: message|data: {'detected_language':{'iso':'en','label':'English'}}||"
     +++ "data: {'delta':'Hel'}||data: {'delta':'lo'}||"
     +++ "data: {'analysis':{'corrected_text':'Hello','changes':[],"
     +++ "'corrections_summary':'none',"
     +++ "'tone_analysis':{'overall_tone':'neutral','description':'plain'},"
     +++ "'writing_statistics':{'word_count':1,'character_count':5,"
     +++ "'character_count_no_spaces':5,'paragraph_count':1,'sentence_count':1,"
     +++ "'average_words_per_sentence':1.0,'average_characters_per_word':5.0,"
     +++ "'vocabulary_diversity':1.0,'reading_time_minutes':0.1,"
     +++ "'reading_level':'easy','readability_score':90.5}}}||"
     +++ "data: {'done':true}||").

(** ** Further notions on the assistant stream *)

(** A raw line that the streaming loop reads a text from, or fails on. *)
Definition carries_text (raw_decode : string -> option (json * string))
  (raw_line : string) : bool :=
  match token_text raw_decode raw_line with
  | Ok None => false
  | _ => true
  end.


(** The first of the keys [ks] that the object [d] does not have. *)
Definition first_missing (d : json) (ks : list string) : option string :=
  find (fun k => negb (has_field d k)) ks.

(** ** Further notions on the search stream *)

(** The items that the search reducer reads from a frame: those of the
    list its data decodes to, none when the data is blank, is not JSON or
    is not a list. *)
Definition items_of (raw_decode : string -> option (json * string))
  (event : SSEEvent.t) : list json :=
  if Str.is_empty (SSEEvent.data event) || is_blank (SSEEvent.data event)
  then []
  else
    match json_loads raw_decode (SSEEvent.data event) with
    | Ok (JArr l) => l
    | _ => []
    end.

(** The fragment that a [search] item adds to the HTML. *)
Definition html_of (item : json) : list json :=
  let payload := field item "payload" JNull in
  if Py.is_str (field item "tag" (JStr "")) "search" then
    if is_object payload then [field payload "content" (JStr "")]
    else if Py.isinstance_str payload then [payload]
    else []
  else [].

(** The cursor of a [search.info] item whose payload is an object. *)
Definition info_of (item : json) : option SearchInfo.t :=
  let payload := field item "payload" JNull in
  if Py.is_str (field item "tag" (JStr "")) "search.info" && is_object payload
  then
    Some (SearchInfo.mk (field payload "share_url" (JStr ""))
            (field payload "curr_batch" (JInt 1))
            (field payload "curr_piece" (JInt 1))
            (field payload "next_batch" (JInt (-1)))
            (field payload "next_piece" (JInt 1)))
  else None.

Definition domain_info_fields (d : json) : DomainInfo.t :=
  DomainInfo.mk (field d "domain" (JStr "")) (field d "favicon_url" JNull)
    (field d "domain_secure" JNull) (field d "trackers" JNull)
    (field d "registration_date" JNull) (field d "website_speed" JNull)
    (field d "rule_type" JNull) (field d "description" JNull).

(** The domains of a [domain_info] item, whose payload is an object or the
    JSON text of one. *)
Definition domains_of (raw_decode : string -> option (json * string))
  (item : json) : list DomainInfo.t :=
  if Py.is_str (field item "tag" (JStr "")) "domain_info" then
    let raw := match field item "payload" JNull with
               | JStr s =>
                   match json_loads raw_decode s with
                   | Ok v => v
                   | Raise _ => JNull
                   end
               | payload => payload
               end in
    if is_object raw then
      match Py.iter (field raw "data" (JArr [])) with
      | Ok ds => map domain_info_fields ds
      | Raise _ => []
      end
    else []
  else [].

(** The pages of [search_all] after the page [r]: each is the page fetched
    for the positive [next_batch] of the page before it. *)
Fixpoint linked (fetch : option json -> result SearchResult.t)
  (r : SearchResult.t) (rest : list SearchResult.t) : Prop :=
  match rest with
  | [] => True
  | r' :: rest' =>
      Py.gt0 (SearchInfo.next_batch (SearchResult.info r)) = Ok true
      /\ fetch (Some (SearchInfo.next_batch (SearchResult.info r))) = Ok r'
      /\ linked fetch r' rest'
  end.



(** A page whose [domain_info] payload is a string that is not JSON. *)
Definition search_bad_domain_example : string :=
  q ("data: [{'tag':'search','payload':'<p>1</p>'},"
     +++ "{'tag':'domain_info','payload':'oops'}]||").

(** A page-fetch function whose every page has the cursor [next_batch = 2]. *)
Definition fetch_same_page_example : option json -> result SearchResult.t :=
  fun _ => Ok (SearchResult.mk ""
                 (SearchInfo.mk (JStr "") (JInt 1) (JInt 1) (JInt 2) (JInt 1))
                 [] []).

(** ** [auth.py]

    [ProofreadClient._request] asks [KagiAuth.get_valid_token] for the
    session token before it posts.  The functions are given what they take
    from outside: [jwt.decode] with the signature check off ([None] for the
    library's [DecodeError]), the value of [int(time.time())], the response
    of the GET on the auth URL and its [json()]. *)

Module TokenPayload.
Record t := mk {
  subscription : json;
  id : json;
  logged_in : json;
  account_type : json;
  iat : json;
  exp : json
}.
End TokenPayload.

(** [self._token] holds [JNull] for [None]. *)
Module KagiAuth.
Record t := mk {
  kagi_session : string;
  _token : json
}.
End KagiAuth.

Inductive auth_exn : Type :=
| PyExn (e : exn)
| JwtDecodeError
| AuthError (msg : string).

Inductive auth_result (A : Type) : Type :=
| AuthOk (a : A)
| AuthRaise (e : auth_exn).
Arguments AuthOk {A} a.
Arguments AuthRaise {A} e.

Definition auth_lift {A : Type} (r : result A) : auth_result A :=
  match r with
  | Ok a => AuthOk a
  | Raise e => AuthRaise (PyExn e)
  end.

(** Exact comparison [f <= n] of a float with an integer. *)
Definition float_le_int (f : float) (n : Z) : bool :=
  match Prim2SF f with
  | S754_zero _ => (0 <=? n)%Z
  | S754_infinity s => s
  | S754_nan => false
  | S754_finite s m e =>
      let v := if s then Z.neg m else Z.pos m in
      if (0 <=? e)%Z then (v * 2 ^ e <=? n)%Z
      else (v <=? n * 2 ^ (- e))%Z
  end.

(** [v <= n] for an integer [n]. *)
Definition le_int (v : json) (n : Z) : result bool :=
  match v with
  | JBool b => Ok (Py.int_of_bool b <=? n)%Z
  | JInt m => Ok (m <=? n)%Z
  | JFloat f => Ok (float_le_int f n)
  | _ => Raise TypeError
  end.

Section Auth.

Variable jwt_decode : json -> option json.
Variable now : Z.
Variable response_json : Response.t -> result json.

Definition decode_token (token : json) : auth_result TokenPayload.t :=
  match jwt_decode token with
  | None => AuthRaise JwtDecodeError
  | Some payload =>
      auth_lift
        (subscription <- Py.getitem payload "subscription" ;;
         id <- Py.getitem payload "id" ;;
         logged_in <- Py.getitem payload "loggedIn" ;;
         account_type <- Py.getitem payload "accountType" ;;
         iat <- Py.getitem payload "iat" ;;
         exp <- Py.getitem payload "exp" ;;
         Ok (TokenPayload.mk subscription id logged_in account_type iat exp))
  end.

Definition is_token_expired (token : json) : auth_result bool :=
  match decode_token token with
  | AuthRaise e => AuthRaise e
  | AuthOk payload => auth_lift (le_int (TokenPayload.exp payload) now)
  end.

(** [refresh_token], on the response [resp] of its request: the outcome
    and the object after the call. *)
Definition refresh_token (resp : Response.t) (self : KagiAuth.t)
  : auth_result json * KagiAuth.t :=
  if negb (Z.eqb (Response.status_code resp) 200) then
    (AuthRaise (AuthError ("Auth refresh failed with status "
                             +++ str_of_Z (Response.status_code resp)
                             +++ ": " +++ Response.text resp)),
     self)
  else
    match (data <- response_json resp ;; Py.getitem data "token") with
    | Raise e => (AuthRaise (PyExn e), self)
    | Ok token => (AuthOk token, KagiAuth.mk (KagiAuth.kagi_session self) token)
    end.

(** [get_valid_token]: the outcome, the object after the call and the
    number of requests made; [resp] is the response a request would get. *)
Definition get_valid_token (resp : Response.t) (self : KagiAuth.t)
  : auth_result json * KagiAuth.t * nat :=
  match KagiAuth._token self with
  | JNull => (refresh_token resp self, 1)
  | token =>
      match is_token_expired token with
      | AuthRaise e => (AuthRaise e, self, 0)
      | AuthOk false => (AuthOk token, self, 0)
      | AuthOk true => (refresh_token resp self, 1)
      end
  end.

End Auth.

(** The keys that [decode_token] subscripts. *)
Definition token_payload_keys : list string :=
  ["subscription"; "id"; "loggedIn"; "accountType"; "iat"; "exp"].

(** A decoder for the examples: the token [good] holds a payload that
    expires at 2000, any other token is refused. *)
Definition jwt_decode_example (token : json) : option json :=
  if Py.is_str token "good" then
    Some (JObj [("subscription", JBool true); ("id", JStr "u1");
                ("loggedIn", JBool true); ("accountType", JStr "pro");
                ("iat", JInt 1000); ("exp", JInt 2000)])
  else None.

(** ** [formatters.py]: the response text of an assistant result *)

(** The index of the first [>] of [s]. *)
Fixpoint index_gt (s : string) : option nat :=
  match s with
  | EmptyString => None
  | String c r =>
      if Ascii.eqb c ">"%char then Some 0 else option_map S (index_gt r)
  end.

(** The match of the tag pattern at a [<] that [r] follows: one or more
    characters other than [>], then [>].  The length is counted without
    the [<]. *)
Definition tag_length (r : string) : option nat :=
  match index_gt r with
  | Some (S n) => Some (S (S n))
  | _ => None
  end.

(** [re.sub] of the tag pattern by the empty string: the text is scanned
    from the left, and the characters of a match are passed over; [skip] is
    the number of characters of the current match still to pass. *)
Fixpoint sub_tags (skip : nat) (s : string) : string :=
  match s with
  | EmptyString => EmptyString
  | String c r =>
      match skip with
      | S k => sub_tags k r
      | O =>
          if Ascii.eqb c "<"%char then
            match tag_length r with
            | Some n => sub_tags n r
            | None => String c (sub_tags 0 r)
            end
          else String c (sub_tags 0 r)
      end
  end.

Definition _strip_html (html : string) : string := Str.strip (sub_tags 0 html).

(** [s.find(sub)], [None] standing for -1. *)
Fixpoint find_sub (s sub : string) : option nat :=
  if Str.startswith s sub then Some 0
  else
    match s with
    | EmptyString => None
    | String _ r => option_map S (find_sub r sub)
    end.

(** The number of white space characters that [s] starts with. *)
Definition space_run (s : string) : nat :=
  String.length (fst (Str.span Str.is_space s)).

(** The match of the details pattern at the start of [s]: the opening
    tag, the shortest text up to a closing tag, and the white space after
    it. *)
Definition details_length (s : string) : option nat :=
  if Str.startswith s "<details>" then
    match find_sub (Str.drop 9 s) "</details>" with
    | Some i => Some (9 + i + 10 + space_run (Str.drop (9 + i + 10) s))
    | None => None
    end
  else None.

(** [re.sub] of the details pattern by the empty string. *)
Fixpoint sub_details (skip : nat) (s : string) : string :=
  match s with
  | EmptyString => EmptyString
  | String c r =>
      match skip with
      | S k => sub_details k r
      | O =>
          match details_length s with
          | Some (S n) => sub_details n r
          | _ => String c (sub_details 0 r)
          end
      end
  end.

Definition _strip_details (text : string) : string :=
  Str.strip (sub_details 0 text).

(** [re.sub] takes a string only. *)
Definition _extract_response (res : AssistantResult.t) : result string :=
  let message := AssistantResult.message res in
  if Py.truthy (AssistantMessage.md message) then
    match AssistantMessage.md message with
    | JStr md => Ok (_strip_details md)
    | _ => Raise TypeError
    end
  else if Py.truthy (AssistantMessage.reply message) then
    match AssistantMessage.reply message with
    | JStr reply => Ok (_strip_html (_strip_details reply))
    | _ => Raise TypeError
    end
  else Ok "".

Definition ask_md (res : AssistantResult.t) : result string :=
  response <- _extract_response res ;;
  if negb (Str.is_empty response) then Ok (response +++ Str.nl) else Ok "".

(** A text has a tag when the tag pattern matches somewhere in it. *)
Fixpoint contains_tag (s : string) : bool :=
  match s with
  | EmptyString => false
  | String c r =>
      (Ascii.eqb c "<"%char
       && match tag_length r with Some _ => true | None => false end)
      || contains_tag r
  end.

(** An assistant stream whose message has a reply with a thinking block
    and no Markdown. *)
Definition assistant_reply_example : string :=
  q ("thread.json:{'id':'t1','title':'T','created_at':'now'}|"
     +++ "new_message.json:{'id':'m1','created_at':'now','state':'done',"
     +++ "'prompt':'hi','reply':'<details><summary>Thinking</summary>"
     +++ "<p>hm</p></details> <p>Hello <b>world</b></p>','md':''}|").

(** * Properties *)

(** ** Strings *)

Module StrFacts.
Import Str.

Lemma is_empty_true (s : string) : is_empty s = true <-> s = "".
Proof. destruct s; simpl; split; congruence. Qed.

(** *** [strip] *)

Lemma lstrip_fix (s : string) :
  lstrip s = "" \/ exists c r, lstrip s = String c r /\ is_space c = false.
Proof.
  induction s as [|c s IH]; simpl; auto.
  destruct (is_space c) eqn:E; auto.
  right; exists c, s; auto.
Qed.

Lemma rstrip_idem (s : string) : rstrip (rstrip s) = rstrip s.
Proof.
  induction s as [|c s IH]; simpl; auto.
  destruct (is_space c && is_empty (rstrip s)) eqn:E; simpl; auto.
  rewrite IH, E; reflexivity.
Qed.

Lemma rstrip_head (c : ascii) (r : string) :
  is_space c = false -> rstrip (String c r) = String c (rstrip r).
Proof. intros H; simpl; rewrite H; reflexivity. Qed.

Lemma strip_idem (s : string) : strip (strip s) = strip s.
Proof.
  unfold strip.
  destruct (lstrip_fix s) as [E | (c & r & E & Hc)]; rewrite E.
  - reflexivity.
  - rewrite (rstrip_head _ _ Hc). simpl lstrip. rewrite Hc.
    rewrite <- (rstrip_head _ _ Hc), rstrip_idem. reflexivity.
Qed.

Lemma strip_space_cons (s : string) : strip (String " " s) = strip s.
Proof. reflexivity. Qed.

Lemma lstrip_decompose (s : string) :
  exists a, s = a +++ lstrip s /\ all_space a = true.
Proof.
  induction s as [|c s (a & E & Ha)]; simpl.
  - exists "". auto.
  - destruct (is_space c) eqn:Hc.
    + exists (String c a). simpl. rewrite Hc, Ha, <- E. auto.
    + exists "". auto.
Qed.

Lemma rstrip_decompose (s : string) :
  exists c, s = rstrip s +++ c /\ all_space c = true.
Proof.
  induction s as [|ch s (c & E & Hc)]; simpl.
  - exists "". auto.
  - destruct (is_space ch && is_empty (rstrip s)) eqn:H.
    + apply andb_true_iff in H as [H1 H2]. apply is_empty_true in H2.
      rewrite H2 in E. simpl in E. subst s.
      exists (String ch c). simpl. rewrite H1, Hc. auto.
    + exists c. simpl. rewrite <- E. auto.
Qed.

Lemma rstrip_last (s : string) (ch : ascii) :
  last_char (rstrip s) = Some ch -> is_space ch = false.
Proof.
  induction s as [|c s IH]; simpl; [discriminate|].
  destruct (is_space c && is_empty (rstrip s)) eqn:H; simpl; [discriminate|].
  destruct (last_char (rstrip s)) as [x|] eqn:L.
  - intros [= ->]. auto.
  - intros [= ->]. destruct (rstrip s); [|simpl in L; destruct (last_char s0); discriminate].
    simpl in H. rewrite andb_true_r in H. exact H.
Qed.

Lemma strip_trimmed (s : string) : trimmed_of s (strip s).
Proof.
  unfold trimmed_of, strip. split; [|split].
  - destruct (lstrip_decompose s) as (a & Ea & Ha).
    destruct (rstrip_decompose (lstrip s)) as (c & Ec & Hc).
    exists a, c. rewrite <- Ec, <- Ea. auto.
  - intros ch. destruct (lstrip_fix s) as [E | (c & r & E & Hc)]; rewrite E.
    + discriminate.
    + rewrite (rstrip_head _ _ Hc). intros [= <-]. exact Hc.
  - intros ch. apply rstrip_last.
Qed.

(** *** Characters of a string *)

Lemma mem_lstrip (c : ascii) (s : string) :
  mem c s = false -> mem c (lstrip s) = false.
Proof.
  induction s as [|d s IH]; simpl; auto.
  intros H. apply orb_false_iff in H as [H1 H2].
  destruct (is_space d); simpl; auto. rewrite H1, H2; reflexivity.
Qed.

Lemma mem_rstrip (c : ascii) (s : string) :
  mem c s = false -> mem c (rstrip s) = false.
Proof.
  induction s as [|d s IH]; simpl; auto.
  intros H. apply orb_false_iff in H as [H1 H2].
  destruct (is_space d && is_empty (rstrip s)); simpl; auto.
  rewrite H1, IH; auto.
Qed.

Lemma mem_strip (c : ascii) (s : string) :
  mem c s = false -> mem c (strip s) = false.
Proof. intros; unfold strip; auto using mem_lstrip, mem_rstrip. Qed.

Lemma mem_drop (c : ascii) (n : nat) (s : string) :
  mem c s = false -> mem c (drop n s) = false.
Proof.
  revert s; induction n as [|n IH]; intros [|d s]; simpl; auto.
  intros H. apply orb_false_iff in H as [_ H]. auto.
Qed.

Lemma mem_append (c : ascii) (a b : string) :
  mem c (a +++ b) = mem c a || mem c b.
Proof. induction a; simpl; auto. rewrite IHa, orb_assoc; reflexivity. Qed.

(** *** [split] and [join] *)

Lemma split_no_sep (sep : ascii) (s : string) :
  Forall (fun l => mem sep l = false) (split sep s).
Proof.
  induction s as [|c s IH]; simpl.
  - repeat constructor.
  - destruct (Ascii.eqb c sep) eqn:E.
    + constructor; auto.
    + destruct (split sep s) as [|h t]; inversion IH; subst;
        constructor; simpl; auto; rewrite E; simpl; auto.
Qed.

Lemma split_plain (sep : ascii) (s : string) :
  mem sep s = false -> split sep s = [s].
Proof.
  induction s as [|c s IH]; simpl; auto.
  intros H. apply orb_false_iff in H as [H1 H2].
  rewrite H1, (IH H2). reflexivity.
Qed.

Lemma split_append (sep : ascii) (a b : string) :
  mem sep a = false ->
  split sep (a +++ String sep b) = a :: split sep b.
Proof.
  induction a as [|c a IH]; simpl.
  - intros _. rewrite Ascii.eqb_refl. reflexivity.
  - intros H. apply orb_false_iff in H as [H1 H2].
    rewrite H1, (IH H2). reflexivity.
Qed.

Lemma split_join (sep : ascii) (parts : list string) :
  parts <> [] ->
  Forall (fun l => mem sep l = false) parts ->
  split sep (join (String sep "") parts) = parts.
Proof.
  induction parts as [|x rest IH]; [congruence|].
  intros _ H. inversion H as [|? ? Hx Hrest]; subst.
  destruct rest as [|y rest].
  - simpl. apply split_plain; assumption.
  - change (join (String sep "") (x :: y :: rest))
      with (x +++ String sep (join (String sep "") (y :: rest))).
    rewrite split_append by assumption.
    rewrite IH; auto. discriminate.
Qed.

Lemma split_unlines (lines : list string) :
  Forall (fun l => mem lf l = false) lines ->
  split lf (unlines lines) = lines ++ [""].
Proof.
  induction 1 as [|l rest Hl _ IH]; simpl; auto.
  change (l +++ nl +++ unlines rest) with (l +++ String lf (unlines rest)).
  rewrite split_append by assumption. rewrite IH. reflexivity.
Qed.

End StrFacts.

(** ** The SSE framer *)

Module SSE.
Import Str StrFacts.

Lemma data_not_event (l : string) :
  is_data_line l = true -> is_event_line l = false.
Proof.
  unfold is_data_line, is_event_line, startswith.
  destruct l as [|c l]; simpl; auto.
  destruct (Ascii.eqb_spec c "d"); subst; simpl; auto; discriminate.
Qed.

Lemma id_not_event (l : string) :
  is_id_line l = true -> is_event_line l = false.
Proof.
  unfold is_id_line, is_event_line, startswith.
  destruct l as [|c l]; simpl; auto.
  destruct (Ascii.eqb_spec c "i"); subst; simpl; auto; discriminate.
Qed.

Lemma id_not_data (l : string) :
  is_id_line l = true -> is_data_line l = false.
Proof.
  unfold is_id_line, is_data_line, startswith.
  destruct l as [|c l]; simpl; auto.
  destruct (Ascii.eqb_spec c "i"); subst; simpl; auto; discriminate.
Qed.

Lemma last_field_snoc (p : string -> bool) (n : nat) (cur : list string)
      (l : string) :
  last_field p n (cur ++ [l])
  = if p l then Some (strip (drop n l)) else last_field p n cur.
Proof.
  unfold last_field. rewrite filter_app. simpl.
  destruct (p l).
  - rewrite rev_app_distr. reflexivity.
  - rewrite app_nil_r. reflexivity.
Qed.

Lemma data_of_snoc (cur : list string) (l : string) :
  data_of (cur ++ [l])
  = data_of cur ++ if is_data_line l then [strip (drop 5 l)] else [].
Proof.
  unfold data_of. rewrite filter_app, map_app. simpl.
  destruct (is_data_line l); reflexivity.
Qed.

Lemma data_of_nil (cur : list string) :
  has_data cur = false -> data_of cur = [].
Proof.
  unfold has_data, data_of. induction cur as [|l cur IH]; simpl; auto.
  destruct (is_data_line l); simpl; auto. discriminate.
Qed.

Lemma data_of_not_nil (cur : list string) :
  has_data cur = true -> data_of cur <> [].
Proof.
  unfold has_data, data_of. induction cur as [|l cur IH]; simpl.
  - discriminate.
  - destruct (is_data_line l); simpl; auto. discriminate.
Qed.

Lemma step_line (evs : list SSEEvent.t) (cur : list string) (l : string) :
  is_empty l = false ->
  sse_step (acc_state evs cur) l = acc_state evs (cur ++ [l]).
Proof.
  intros Hl. unfold sse_step, acc_state. rewrite Hl. simpl.
  rewrite !last_field_snoc, data_of_snoc.
  fold (is_event_line l) (is_data_line l) (is_id_line l).
  destruct (is_event_line l) eqn:He.
  - destruct (is_data_line l) eqn:Hd.
    { apply data_not_event in Hd; congruence. }
    destruct (is_id_line l) eqn:Hi.
    { apply id_not_event in Hi; congruence. }
    rewrite app_nil_r; reflexivity.
  - destruct (is_data_line l) eqn:Hd.
    + destruct (is_id_line l) eqn:Hi.
      { apply id_not_data in Hi; congruence. }
      reflexivity.
    + rewrite app_nil_r. destruct (is_id_line l); reflexivity.
Qed.

Lemma step_blank (evs : list SSEEvent.t) (cur : list string) :
  sse_step (acc_state evs cur) ""
  = acc_state (evs ++ if has_data cur then [frame_of cur] else []) [].
Proof.
  unfold sse_step, acc_state. simpl.
  destruct (has_data cur) eqn:H.
  - pose proof (data_of_not_nil _ H) as Hne.
    destruct (data_of cur) eqn:E; [congruence|].
    unfold frame_of. rewrite E. reflexivity.
  - rewrite (data_of_nil _ H), app_nil_r. reflexivity.
Qed.

(** The frames after any run of lines, block by block. *)
Lemma run_blocks (lines cur : list string) (evs : list SSEEvent.t) :
  events (sse_run (acc_state evs cur) lines)
  = evs ++ map frame_of (filter has_data (closed_blocks cur lines)).
Proof.
  revert cur evs. induction lines as [|l rest IH]; intros cur evs.
  - simpl. rewrite app_nil_r. reflexivity.
  - unfold sse_run in *. simpl fold_left. simpl closed_blocks.
    destruct (is_empty l) eqn:Hl.
    + apply is_empty_true in Hl. subst l.
      rewrite step_blank, IH. simpl filter.
      destruct (has_data cur); simpl.
      * rewrite <- app_assoc. reflexivity.
      * rewrite app_nil_r. reflexivity.
    + rewrite (step_line _ _ _ Hl). apply IH.
Qed.

Lemma parse_blocks (text : string) :
  parse_sse_events text
  = map frame_of (filter has_data (closed_blocks [] (split lf text))).
Proof. unfold parse_sse_events. exact (run_blocks _ [] []). Qed.

Lemma step_keeps_events (st : sse_state) (l : string) :
  is_empty l = false -> events (sse_step st l) = events st.
Proof.
  intros Hl. unfold sse_step. rewrite Hl.
  repeat match goal with |- context [if ?b then _ else _] => destruct b end;
    reflexivity.
Qed.

Lemma run_keeps_events (tail : list string) (st : sse_state) :
  events (sse_run st (filter (fun l => negb (is_empty l)) tail)) = events st.
Proof.
  revert st. induction tail as [|l tail IH]; intros st; simpl; auto.
  destruct (is_empty l) eqn:Hl; simpl; auto.
  unfold sse_run in *. simpl. rewrite IH. apply step_keeps_events, Hl.
Qed.

End SSE.

(** C7.  The SSE framer emits one frame for each block of lines closed by
    an empty line in which a [data:] line was read, in the order of the
    blocks, and nothing else; lines read after the last empty line never
    add a frame. *)
Theorem sse_emits_at_blank_lines :
  (forall text : string,
      parse_sse_events text
      = map frame_of
          (filter has_data (closed_blocks [] (Str.split Str.lf text))))
  /\ (forall lines tail : list string,
         events (sse_run sse_init
                   (lines ++ filter (fun l => negb (Str.is_empty l)) tail))
         = events (sse_run sse_init lines)).
Proof.
  split.
  - exact SSE.parse_blocks.
  - intros lines tail. unfold sse_run. rewrite fold_left_app.
    apply SSE.run_keeps_events.
Qed.

(** C4, as the code has it.  Each [data:] line contributes its content
    with all the white space at both ends removed, and the data of an
    emitted frame is these contributions joined by line feeds in the order
    of the lines. *)
Theorem sse_data_joins_stripped_contents (text : string) :
  map SSEEvent.data (parse_sse_events text)
  = map (fun block =>
           Str.join Str.nl
             (map (fun l => Str.strip (Str.drop 5 l))
                  (filter is_data_line block)))
        (filter has_data (closed_blocks [] (Str.split Str.lf text)))
  /\ (forall l : string, trimmed_of (Str.drop 5 l) (Str.strip (Str.drop 5 l))).
Proof.
  split.
  - rewrite SSE.parse_blocks, map_map. reflexivity.
  - intros l. apply StrFacts.strip_trimmed.
Qed.

(** C4, as stated, fails: on a [data:] line with two spaces before its
    content and one after, the frame's data has none of them, where the
    removal of one leading space alone would leave two. *)
Lemma sse_data_one_space_counterexample :
  map SSEEvent.data (parse_sse_events (q "data:  x ||"))
  <> map (fun block =>
            Str.join Str.nl
              (map (fun l => strip_one_space (Str.drop 5 l))
                   (filter is_data_line block)))
         (filter has_data
            (closed_blocks [] (Str.split Str.lf (q "data:  x ||")))).
Proof. vm_compute. discriminate. Qed.

(** ** Writing a frame back and framing it again *)

Module SSERoundTrip.
Import Str StrFacts.

Lemma clean_content (n : nat) (l : string) :
  no_lf l -> clean (strip (drop n l)).
Proof.
  intros H. split.
  - apply strip_idem.
  - apply mem_strip, mem_drop, H.
Qed.

Lemma last_field_clean (p : string -> bool) (n : nat) (block : list string) :
  Forall no_lf block -> clean_field (last_field p n block).
Proof.
  intros H s. unfold last_field.
  destruct (rev (filter p block)) as [|l r] eqn:E; [discriminate|].
  intros [= <-]. apply clean_content.
  assert (In l (rev (filter p block))) as Hin by (rewrite E; left; auto).
  apply in_rev, filter_In in Hin as [Hin _].
  rewrite Forall_forall in H. auto.
Qed.

Lemma data_of_clean (block : list string) :
  Forall no_lf block -> Forall clean (data_of block).
Proof.
  intros H. unfold data_of. apply Forall_forall. intros c Hc.
  apply in_map_iff in Hc as (l & <- & Hl).
  apply filter_In in Hl as [Hl _].
  apply clean_content. rewrite Forall_forall in H. auto.
Qed.

Lemma frame_of_emitted (block : list string) :
  Forall no_lf block -> has_data block = true -> emitted (frame_of block).
Proof.
  intros H Hd. unfold emitted, frame_of; simpl. split; [|split].
  - apply last_field_clean, H.
  - exists (data_of block). split; [|split].
    + apply SSE.data_of_not_nil, Hd.
    + apply data_of_clean, H.
    + reflexivity.
  - apply last_field_clean, H.
Qed.

Lemma closed_blocks_no_lf (lines cur : list string) :
  Forall no_lf cur -> Forall no_lf lines ->
  Forall (Forall no_lf) (closed_blocks cur lines).
Proof.
  revert cur. induction lines as [|l rest IH]; intros cur Hc Hl; simpl.
  - constructor.
  - inversion Hl; subst. destruct (is_empty l).
    + constructor; auto.
    + apply IH; auto. apply Forall_app; auto.
Qed.

Lemma parse_emitted (text : string) (ev : SSEEvent.t) :
  In ev (parse_sse_events text) -> emitted ev.
Proof.
  rewrite SSE.parse_blocks. intros H.
  apply in_map_iff in H as (block & <- & Hb).
  apply filter_In in Hb as [Hb Hd].
  apply frame_of_emitted; auto.
  pose proof (closed_blocks_no_lf (split lf text) [] (Forall_nil _)
                (split_no_sep lf text)) as HF.
  rewrite Forall_forall in HF. auto.
Qed.

(** *** Framing the lines of a written frame *)

Lemma closed_blocks_app (blk cur rest : list string) :
  Forall (fun l => is_empty l = false) blk ->
  closed_blocks cur (blk ++ rest) = closed_blocks (cur ++ blk) rest.
Proof.
  intros H. revert cur. induction H as [|l blk Hl _ IH]; intros cur; simpl.
  - rewrite app_nil_r. reflexivity.
  - rewrite Hl, IH, <- app_assoc. reflexivity.
Qed.

Lemma filter_map_true {A B : Type} (p : B -> bool) (f : A -> B) (l : list A) :
  (forall x, p (f x) = true) -> filter p (map f l) = map f l.
Proof.
  intros H. induction l; simpl; auto. rewrite H, IHl. reflexivity.
Qed.

Lemma filter_map_false {A B : Type} (p : B -> bool) (f : A -> B) (l : list A) :
  (forall x, p (f x) = false) -> filter p (map f l) = [].
Proof.
  intros H. induction l; simpl; auto. rewrite H, IHl. reflexivity.
Qed.

Lemma body_filter_event e cs i :
  filter is_event_line (body e cs i) = event_lines e.
Proof.
  unfold body. rewrite !filter_app.
  unfold data_lines. rewrite filter_map_false by reflexivity.
  destruct e, i; reflexivity.
Qed.

Lemma body_filter_data e cs i :
  filter is_data_line (body e cs i) = data_lines cs.
Proof.
  unfold body. rewrite !filter_app.
  unfold data_lines. rewrite filter_map_true by reflexivity.
  destruct e, i; simpl; rewrite ?app_nil_r; reflexivity.
Qed.

Lemma body_filter_id e cs i :
  filter is_id_line (body e cs i) = id_lines i.
Proof.
  unfold body. rewrite !filter_app.
  unfold data_lines. rewrite filter_map_false by reflexivity.
  destruct e, i; reflexivity.
Qed.

Lemma body_nonempty e cs i :
  Forall (fun l => is_empty l = false) (body e cs i).
Proof.
  unfold body. rewrite !Forall_app. repeat split.
  - destruct e; repeat constructor.
  - unfold data_lines. apply Forall_forall. intros l Hl.
    apply in_map_iff in Hl as (c & <- & _). reflexivity.
  - destruct i; repeat constructor.
Qed.

Lemma body_no_lf e cs i :
  clean_field e -> Forall clean cs -> clean_field i ->
  Forall no_lf (body e cs i).
Proof.
  intros He Hcs Hi. unfold body. rewrite !Forall_app. repeat split.
  - destruct e as [e|]; repeat constructor.
    unfold no_lf. rewrite mem_append. destruct (He e eq_refl) as [_ ->].
    reflexivity.
  - unfold data_lines. apply Forall_forall. intros l Hl.
    apply in_map_iff in Hl as (c & <- & Hc).
    rewrite Forall_forall in Hcs. destruct (Hcs c Hc) as [_ H].
    unfold no_lf. rewrite mem_append, H. reflexivity.
  - destruct i as [i|]; repeat constructor.
    unfold no_lf. rewrite mem_append. destruct (Hi i eq_refl) as [_ ->].
    reflexivity.
Qed.

Lemma map_strip_clean (cs : list string) :
  Forall clean cs ->
  map (fun l => strip (drop 5 l)) (data_lines cs) = cs.
Proof.
  unfold data_lines. induction 1 as [|c cs [Hc _] _ IH]; [reflexivity|].
  rewrite !map_cons, IH. f_equal.
  change (drop 5 ("data: " +++ c)) with (String " " c).
  rewrite strip_space_cons. exact Hc.
Qed.

Lemma frame_of_body e cs i :
  clean_field e -> Forall clean cs -> clean_field i ->
  frame_of (body e cs i) = SSEEvent.mk e (join nl cs) i.
Proof.
  intros He Hcs Hi. unfold frame_of, last_field, data_of.
  rewrite body_filter_event, body_filter_data, body_filter_id.
  rewrite (map_strip_clean _ Hcs). f_equal.
  - destruct e as [e|]; [|reflexivity].
    change (Some (strip (String " " e)) = Some e).
    rewrite strip_space_cons. destruct (He e eq_refl) as [-> _]. reflexivity.
  - destruct i as [i|]; [|reflexivity].
    change (Some (strip (String " " i)) = Some i).
    rewrite strip_space_cons. destruct (Hi i eq_refl) as [-> _]. reflexivity.
Qed.

Lemma has_data_body e cs i : cs <> [] -> has_data (body e cs i) = true.
Proof.
  intros H. unfold has_data. apply existsb_exists.
  destruct cs as [|c cs]; [congruence|].
  exists ("data: " +++ c). split; [|reflexivity].
  unfold body. apply in_or_app. right. apply in_or_app. left. left. reflexivity.
Qed.

Lemma reframe (ev : SSEEvent.t) :
  emitted ev -> parse_sse_events (serialize ev) = [ev].
Proof.
  destruct ev as [e d i]. intros (He & (cs & Hne & Hcs & Hd) & Hi).
  simpl in *. subst d.
  assert (Forall no_lf cs) as Hnolf.
  { eapply Forall_impl; [|exact Hcs]. intros c [_ H]; exact H. }
  assert (frame_lines (SSEEvent.mk e (join nl cs) i) = body e cs i ++ [""])
    as Hlines.
  { unfold frame_lines, body; simpl.
    change nl with (String lf ""). rewrite (split_join lf cs Hne Hnolf).
    rewrite <- !app_assoc. reflexivity. }
  rewrite SSE.parse_blocks. unfold serialize. rewrite Hlines.
  rewrite split_unlines.
  2:{ apply Forall_app. split; [apply body_no_lf; auto|].
      repeat constructor. }
  rewrite <- app_assoc.
  rewrite (closed_blocks_app _ _ _ (body_nonempty e cs i)).
  simpl. rewrite (has_data_body e cs i Hne). simpl.
  rewrite frame_of_body; auto.
Qed.

End SSERoundTrip.

(** C9.  Every frame emitted by the SSE framer, written back as [event:],
    [data:] and [id:] lines closed by an empty line, is framed again into
    that one frame. *)
Theorem sse_reframe_serialized (text : string) (ev : SSEEvent.t) :
  In ev (parse_sse_events text) ->
  parse_sse_events (serialize ev) = [ev].
Proof.
  intros H. apply SSERoundTrip.reframe, (SSERoundTrip.parse_emitted text), H.
Qed.

(** C9, on a frame with an event name, two lines of data and an id. *)
Lemma sse_reframe_serialized_witness :
  In (SSEEvent.mk (Some "message") (q "{'a': 1}|line2") (Some "42"))
     (parse_sse_events
        (q "event: message|id: 42|data:  {'a': 1}|: note|data: line2||"))
  /\ parse_sse_events
       (serialize (SSEEvent.mk (Some "message") (q "{'a': 1}|line2") (Some "42")))
     = [SSEEvent.mk (Some "message") (q "{'a': 1}|line2") (Some "42")].
Proof.
  split.
  - vm_compute. left. reflexivity.
  - apply (sse_reframe_serialized
             (q "event: message|id: 42|data:  {'a': 1}|: note|data: line2||")).
    vm_compute. left. reflexivity.
Defined.

(** ** The tag-and-payload framer *)

Module Kagi.
Import Str StrFacts.

Lemma collect_cons (t l : string) (ls parts : list string) :
  collect t (l :: ls) parts
  = if is_blank l then collect t ls parts
    else if is_tag_line l then
      KagiStreamLine.mk t (join_payload parts) :: kagi_loop (l :: ls)
    else collect t ls (parts ++ [l]).
Proof. reflexivity. Qed.

Lemma kagi_loop_cons (raw : string) (rest : list string) :
  kagi_loop (raw :: rest)
  = if is_blank raw then kagi_loop rest
    else match _TAG_RE_match raw with
         | Some (t, g2) => collect t rest [g2]
         | None => kagi_loop rest
         end.
Proof.
  simpl. destruct (is_blank raw); auto.
  destruct (_TAG_RE_match raw) as [[t g2]|]; auto.
  generalize [g2]. induction rest as [|l rest IH]; intros parts; simpl; auto.
  destruct (is_blank l); auto. destruct (is_tag_line l); auto.
Qed.

Lemma tag_head_not_space (c : ascii) : tag_head c = true -> is_space c = false.
Proof.
  destruct c as [[] [] [] [] [] [] [] []]; vm_compute; congruence.
Qed.

Lemma blank_head (c : ascii) (r : string) :
  is_blank (String c r) = true -> is_space c = true.
Proof.
  unfold is_blank, strip. simpl lstrip.
  destruct (is_space c) eqn:E; auto.
  rewrite (rstrip_head _ _ E). discriminate.
Qed.

Lemma tag_not_blank (l : string) : is_tag_line l = true -> is_blank l = false.
Proof.
  unfold is_tag_line, _TAG_RE_match.
  destruct l as [|c r]; [discriminate|].
  destruct (tag_head c) eqn:E; [|discriminate]. intros _.
  destruct (is_blank (String c r)) eqn:B; auto.
  apply blank_head in B. apply tag_head_not_space in E. congruence.
Qed.

(** The inner loop over the lines of one frame. *)
Lemma collect_frame (t : string) (conts rest parts : list string) :
  Forall (fun l => is_tag_line l = false) conts ->
  ends_frame rest ->
  collect t (conts ++ rest) parts
  = KagiStreamLine.mk t (join_payload (parts ++ conts)) :: kagi_loop rest.
Proof.
  intros Hc Hr. revert parts.
  induction Hc as [|l conts Hl _ IH]; intros parts.
  - rewrite app_nil_r. destruct rest as [|l rest]; [reflexivity|].
    simpl in Hr. cbn [app]. rewrite collect_cons.
    rewrite (tag_not_blank _ Hr), Hr. reflexivity.
  - cbn [app]. rewrite collect_cons, Hl.
    destruct (is_blank l) eqn:B; rewrite IH.
    + replace (parts ++ l :: conts) with ((parts ++ [l]) ++ conts)
        by (rewrite <- app_assoc; reflexivity).
      unfold join_payload. rewrite !filter_app. simpl. rewrite B. simpl.
      rewrite app_nil_r. reflexivity.
    + rewrite <- app_assoc. reflexivity.
Qed.

(** A tag line closes whatever frame is open before it. *)
Lemma loop_app_tag (x : string) (more pre : list string) :
  is_tag_line x = true ->
  kagi_loop (pre ++ x :: more) = kagi_loop pre ++ kagi_loop (x :: more)
  /\ forall t parts,
      collect t (pre ++ x :: more) parts
      = collect t pre parts ++ kagi_loop (x :: more).
Proof.
  intros Hx. induction pre as [|a pre [IH1 IH2]].
  - split; [reflexivity|]. intros t parts. cbn [app]. rewrite collect_cons.
    rewrite (tag_not_blank _ Hx), Hx. reflexivity.
  - assert (kagi_loop ((a :: pre) ++ x :: more)
            = kagi_loop (a :: pre) ++ kagi_loop (x :: more)) as H1.
    { cbn [app].
      rewrite (kagi_loop_cons a (pre ++ x :: more)), (kagi_loop_cons a pre).
      destruct (is_blank a); auto.
      destruct (_TAG_RE_match a) as [[t g2]|]; auto. }
    split; [exact H1|]. intros t parts.
    cbn [app]. rewrite !collect_cons.
    destruct (is_blank a); auto.
    destruct (is_tag_line a); auto.
    cbn [app] in H1. rewrite H1. reflexivity.
Qed.

Lemma frame_at_tag_line (pre : list string) (raw t g2 : string)
      (conts rest : list string) :
  _TAG_RE_match raw = Some (t, g2) ->
  Forall (fun l => is_tag_line l = false) conts ->
  ends_frame rest ->
  kagi_loop (pre ++ raw :: conts ++ rest)
  = kagi_loop pre
      ++ KagiStreamLine.mk t (join nl (filter not_blank (g2 :: conts)))
      :: kagi_loop rest.
Proof.
  intros Hm Hc Hr.
  assert (is_tag_line raw = true) as Ht by (unfold is_tag_line; rewrite Hm; auto).
  destruct (loop_app_tag raw (conts ++ rest) pre Ht) as [-> _].
  f_equal. rewrite kagi_loop_cons, (tag_not_blank _ Ht), Hm.
  apply collect_frame; assumption.
Qed.

(** The lines before the next tag line, and the lines from it on. *)
Lemma split_at_tag (lines : list string) :
  exists conts rest,
    lines = conts ++ rest
    /\ Forall (fun l => is_tag_line l = false) conts
    /\ ends_frame rest
    /\ (List.length rest <= List.length lines)%nat.
Proof.
  induction lines as [|l lines (conts & rest & E & Hc & Hr & Hlen)].
  - exists [], []. simpl. auto.
  - destruct (is_tag_line l) eqn:T.
    + exists [], (l :: lines). simpl. auto.
    + exists (l :: conts), rest. subst lines. simpl. repeat split; auto.
Qed.

Lemma loop_drops_plain_line (l : string) (rest : list string) :
  is_tag_line l = false -> kagi_loop (l :: rest) = kagi_loop rest.
Proof.
  intros H. rewrite kagi_loop_cons. unfold is_tag_line in H.
  destruct (is_blank l); auto.
  destruct (_TAG_RE_match l) as [[t g2]|]; auto. discriminate.
Qed.

(** Every frame comes from a tag line and the lines after it. *)
Lemma frame_origin (n : nat) (lines : list string) (f : KagiStreamLine.t) :
  (List.length lines <= n)%nat ->
  In f (kagi_loop lines) ->
  exists pre raw g2 conts rest,
    lines = pre ++ raw :: conts ++ rest
    /\ _TAG_RE_match raw = Some (KagiStreamLine.tag f, g2)
    /\ Forall (fun l => is_tag_line l = false) conts
    /\ ends_frame rest
    /\ KagiStreamLine.payload f = join nl (filter not_blank (g2 :: conts)).
Proof.
  revert lines. induction n as [|n IH]; intros lines Hn Hin.
  - destruct lines; [contradiction | simpl in Hn; lia].
  - destruct lines as [|a tl]; [contradiction|].
    simpl in Hn. destruct (is_tag_line a) eqn:T.
    + destruct (split_at_tag tl) as (conts & rest & E & Hc & Hr & Hlen).
      subst tl. unfold is_tag_line in T.
      destruct (_TAG_RE_match a) as [[t g2]|] eqn:M; [|discriminate].
      pose proof (frame_at_tag_line [] a t g2 conts rest M Hc Hr) as Heq.
      change (kagi_loop (a :: conts ++ rest)
              = KagiStreamLine.mk t (join nl (filter not_blank (g2 :: conts)))
                  :: kagi_loop rest) in Heq.
      rewrite Heq in Hin. destruct Hin as [<- | Hin].
      * exists [], a, g2, conts, rest. simpl. auto.
      * destruct (IH rest ltac:(lia) Hin)
          as (pre & raw & g2' & conts' & rest' & E & H1 & H2 & H3 & H4).
        exists (a :: conts ++ pre), raw, g2', conts', rest'.
        subst rest. repeat split; auto.
        simpl. rewrite <- app_assoc. reflexivity.
    + rewrite (loop_drops_plain_line _ _ T) in Hin.
      destruct (IH tl ltac:(lia) Hin)
        as (pre & raw & g2' & conts' & rest' & E & H1 & H2 & H3 & H4).
      exists (a :: pre), raw, g2', conts', rest'.
      subst tl. repeat split; auto.
Qed.

End Kagi.

(** C3, as the code has it.  In every text, the frame of a tag line has
    for payload the join by line feeds of the non-blank strings among the
    remainder of the tag line itself and the lines after it, up to the next
    tag line or the end of the input; and every frame emitted is the frame
    of such a tag line. *)
Theorem kagi_payload_joins_remainder_and_continuations (text : string) :
  (forall (pre : list string) (raw t g2 : string) (conts rest : list string),
      Str.split Str.lf text = pre ++ raw :: conts ++ rest ->
      _TAG_RE_match raw = Some (t, g2) ->
      Forall (fun l => is_tag_line l = false) conts ->
      ends_frame rest ->
      parse_kagi_stream_lines text
      = kagi_loop pre
          ++ KagiStreamLine.mk t
               (Str.join Str.nl (filter not_blank (g2 :: conts)))
          :: kagi_loop rest)
  /\ (forall f : KagiStreamLine.t,
         In f (parse_kagi_stream_lines text) ->
         exists pre raw g2 conts rest,
           Str.split Str.lf text = pre ++ raw :: conts ++ rest
           /\ _TAG_RE_match raw = Some (KagiStreamLine.tag f, g2)
           /\ Forall (fun l => is_tag_line l = false) conts
           /\ ends_frame rest
           /\ KagiStreamLine.payload f
              = Str.join Str.nl (filter not_blank (g2 :: conts))).
Proof.
  unfold parse_kagi_stream_lines. split.
  - intros pre raw t g2 conts rest -> Hm Hc Hr.
    apply Kagi.frame_at_tag_line; assumption.
  - intros f Hin. eapply Kagi.frame_origin; [apply le_n | exact Hin].
Qed.

(** C3, on a stream with a frame of several lines between two frames of
    one line. *)
Lemma kagi_payload_joins_remainder_and_continuations_witness :
  parse_kagi_stream_lines
    (q "hi:{1}|thread_list.html:|  <div>| |  </div>|tokens.json:{}|")
  = [KagiStreamLine.mk "hi" "{1}";
     KagiStreamLine.mk "thread_list.html" (q "  <div>|  </div>");
     KagiStreamLine.mk "tokens.json" "{}"].
Proof.
  destruct (kagi_payload_joins_remainder_and_continuations
              (q "hi:{1}|thread_list.html:|  <div>| |  </div>|tokens.json:{}|"))
    as [H _].
  rewrite (H ["hi:{1}"] "thread_list.html:" "thread_list.html" ""
             ["  <div>"; " "; "  </div>"] ["tokens.json:{}"; ""]).
  - reflexivity.
  - reflexivity.
  - reflexivity.
  - repeat constructor.
  - reflexivity.
Defined.

(** C3, as stated, fails: the remainder of the tag line is part of the
    payload, so that a frame written on one line has a payload although no
    line follows its tag line. *)
Lemma kagi_payload_counterexample : ~ payload_is_following_lines.
Proof.
  intros H.
  specialize (H "a:b" [] "a:b" "a" "b" [] []
                eq_refl eq_refl (Forall_nil _) I).
  vm_compute in H. discriminate H.
Qed.

(** ** The summarize reducer *)

Section Summarize.

Variable raw_decode : string -> option (json * string).

Local Notation loads := (json_loads raw_decode).
Local Notation final := (find_final raw_decode).
Local Notation completed := (find_completed raw_decode).
Local Notation reduce := (summary_lines raw_decode).

Lemma get_object (d : json) (k : string) (default : json) :
  is_object d = true -> Py.get d k default = Ok (field d k default).
Proof. destruct d; simpl; try discriminate. reflexivity. Qed.

Lemma get_raises (d : json) (k : string) (default : json) (e : exn) :
  Py.get d k default = Raise e -> e = AttributeError.
Proof. destruct d; simpl; congruence. Qed.

Lemma json_loads_raises (s : string) (e : exn) :
  loads s = Raise e -> e = JSONDecodeError.
Proof.
  unfold json_loads.
  destruct (raw_decode (skip_ws s)) as [[obj rest]|]; [|congruence].
  destruct (Str.is_empty (skip_ws rest)); congruence.
Qed.

Lemma find_final_raises (lines : list KagiStreamLine.t) (e : exn) :
  final lines = Raise e -> e <> IndexError.
Proof.
  induction lines as [|line rest IH]; simpl; [discriminate|].
  destruct (loads (KagiStreamLine.payload line)) as [data|e'] eqn:L; simpl.
  - destruct (Py.get data "type" JNull) as [ty|e'] eqn:G; simpl.
    + destruct (Py.is_str ty "final"); [discriminate | exact IH].
    + intros [= <-]. apply get_raises in G. congruence.
  - intros [= <-]. apply json_loads_raises in L. congruence.
Qed.

Lemma find_completed_raises (lines : list KagiStreamLine.t) (e : exn) :
  completed lines = Raise e -> e <> IndexError.
Proof.
  induction lines as [|line rest IH]; simpl; [discriminate|].
  destruct (loads (KagiStreamLine.payload line)) as [data|e'] eqn:L; simpl.
  - destruct (Py.get data "output_data" (JObj [])) as [od|e'] eqn:G; simpl.
    + destruct (Py.get od "status" JNull) as [st|e''] eqn:G'; simpl.
      * destruct (Py.is_str st "completed"); [discriminate | exact IH].
      * intros [= <-]. apply get_raises in G'. congruence.
    + intros [= <-]. apply get_raises in G. congruence.
  - intros [= <-]. apply json_loads_raises in L. congruence.
Qed.

Ltac get_step :=
  match goal with
  | |- bind (Py.get ?d ?k ?v) _ = Raise _ -> _ =>
      let x := fresh "x" in let e := fresh "e" in let G := fresh "G" in
      destruct (Py.get d k v) as [x|e] eqn:G; simpl;
      [| intros [= <-]; apply get_raises in G; congruence]
  end.

Lemma summary_of_raises (d : json) (e : exn) :
  summary_of d = Raise e -> e <> IndexError.
Proof.
  unfold summary_of. repeat get_step. discriminate.
Qed.

Lemma last_line_nonempty (lines : list KagiStreamLine.t) :
  lines <> [] -> exists line, last_line lines = Ok line.
Proof.
  intros H. unfold last_line. destruct (rev lines) as [|l r] eqn:E.
  - apply (f_equal (@rev _)) in E. rewrite rev_involutive in E. contradiction.
  - eauto.
Qed.

Lemma summary_lines_index_error (lines : list KagiStreamLine.t) :
  reduce lines = Raise IndexError <-> lines = [].
Proof.
  split.
  - intros H. destruct lines as [|l0 ls]; [reflexivity|]. exfalso.
    revert H. generalize (l0 :: ls) (@nil_cons _ l0 ls). clear.
    intros lines Hne. unfold summary_lines.
    destruct (final lines) as [fd|e] eqn:F; simpl.
    2:{ intros [= ->]. apply find_final_raises in F. congruence. }
    destruct fd as [d|]; simpl.
    { intros H. apply summary_of_raises in H. congruence. }
    destruct (completed (rev lines)) as [fd|e] eqn:C; simpl.
    2:{ intros [= ->]. apply find_completed_raises in C. congruence. }
    destruct fd as [d|]; simpl.
    { intros H. apply summary_of_raises in H. congruence. }
    destruct (last_line_nonempty lines) as [line ->]; [congruence|]. simpl.
    destruct (loads (KagiStreamLine.payload line)) as [d|e] eqn:L; simpl.
    + intros H. apply summary_of_raises in H. congruence.
    + intros [= ->]. apply json_loads_raises in L. congruence.
  - intros ->. reflexivity.
Qed.

(** C10.  The non-streaming summarize reducer raises [IndexError] exactly
    on the texts in which the framer finds no frame; the empty text and the
    texts made of blank lines are such texts. *)
Theorem summary_index_error_iff_no_frame (text : string) :
  (_parse_summary_response raw_decode text = Raise IndexError
   <-> parse_kagi_stream_lines text = [])
  /\ parse_kagi_stream_lines "" = []
  /\ (Forall (fun l => is_blank l = true) (Str.split Str.lf text) ->
      parse_kagi_stream_lines text = []).
Proof.
  split; [apply summary_lines_index_error|]. split; [reflexivity|].
  unfold parse_kagi_stream_lines.
  induction 1 as [|l rest Hl _ IH]; [reflexivity|].
  rewrite Kagi.kagi_loop_cons, Hl. exact IH.
Qed.

(** *** The record chosen *)

Lemma record_object (d : json) : summary_record d = true -> is_object d = true.
Proof.
  unfold summary_record. intros H.
  repeat (apply andb_true_iff in H as [H _]). exact H.
Qed.

Lemma record_output_data (d : json) :
  summary_record d = true ->
  is_object (field d "output_data" (JObj [])) = true.
Proof.
  unfold summary_record. intros H.
  apply andb_true_iff in H as [H _]. apply andb_true_iff in H as [H _].
  apply andb_true_iff in H as [_ H]. exact H.
Qed.

Lemma find_final_records (lines : list KagiStreamLine.t) (records : list json) :
  decoded_as raw_decode lines records ->
  Forall (fun d => summary_record d = true) records ->
  final lines = Ok (find is_final records).
Proof.
  induction 1 as [|line d lines records Hd _ IH]; intros Hr; [reflexivity|].
  inversion Hr as [|? ? Hrec Hrest]; subst.
  simpl. rewrite Hd. simpl.
  rewrite (get_object _ _ _ (record_object _ Hrec)). simpl.
  fold (is_final d). destruct (is_final d); auto.
Qed.

Lemma find_completed_records (lines : list KagiStreamLine.t)
      (records : list json) :
  decoded_as raw_decode lines records ->
  Forall (fun d => summary_record d = true) records ->
  completed lines = Ok (find is_completed records).
Proof.
  induction 1 as [|line d lines records Hd _ IH]; intros Hr; [reflexivity|].
  inversion Hr as [|? ? Hrec Hrest]; subst.
  simpl. rewrite Hd. simpl.
  rewrite (get_object _ _ _ (record_object _ Hrec)). simpl.
  rewrite (get_object _ _ _ (record_output_data _ Hrec)). simpl.
  fold (is_completed d). destruct (is_completed d); auto.
Qed.

Lemma decoded_as_rev (lines : list KagiStreamLine.t) (records : list json) :
  decoded_as raw_decode lines records ->
  decoded_as raw_decode (rev lines) (rev records).
Proof.
  unfold decoded_as. induction 1; simpl; [constructor|].
  apply Forall2_app; auto.
Qed.

Lemma summary_of_record (d : json) :
  summary_record d = true -> summary_of d = Ok (summary_fields d).
Proof.
  unfold summary_record. intros H.
  apply andb_true_iff in H as [H Hrm]. apply andb_true_iff in H as [H Hws].
  apply andb_true_iff in H as [Hd Hod].
  unfold summary_of, summary_fields.
  rewrite (get_object d "output_data" _ Hd). simpl.
  rewrite (get_object _ "word_stats" _ Hod). simpl.
  rewrite (get_object _ "response_metadata" _ Hod). simpl.
  rewrite (get_object d "output_text" _ Hd). simpl.
  repeat (rewrite (get_object _ _ _ Hod); simpl).
  repeat (rewrite (get_object _ _ _ Hws); simpl).
  repeat (rewrite (get_object _ _ _ Hrm); simpl).
  repeat (rewrite (get_object _ _ _ Hod); simpl).
  reflexivity.
Qed.

Lemma last_record (lines : list KagiStreamLine.t) (records : list json) :
  decoded_as raw_decode lines records ->
  records <> [] ->
  exists line,
    last_line lines = Ok line
    /\ loads (KagiStreamLine.payload line) = Ok (last records JNull).
Proof.
  intros H Hne. apply decoded_as_rev in H. unfold last_line, decoded_as in *.
  destruct (rev records) as [|d rs] eqn:E.
  - apply (f_equal (@rev _)) in E. rewrite rev_involutive in E. contradiction.
  - destruct (rev lines) as [|line ls]; inversion H as [|? ? ? ? Hd]; subst.
    exists line. split; [reflexivity|]. rewrite Hd. f_equal.
    rewrite <- (rev_involutive records), E. simpl. rewrite last_last.
    reflexivity.
Qed.

Lemma last_in {A : Type} (l : list A) (d : A) : l <> [] -> In (last l d) l.
Proof.
  induction l as [|a [|b l] IH]; intros H; [congruence | left; reflexivity |].
  right. apply IH. discriminate.
Qed.

Lemma summary_lines_records (lines : list KagiStreamLine.t)
      (records : list json) :
  decoded_as raw_decode lines records ->
  Forall (fun d => summary_record d = true) records ->
  records <> [] ->
  reduce lines
  = Ok (summary_fields
          match find is_final records with
          | Some d => d
          | None =>
              match find is_completed (rev records) with
              | Some d => d
              | None => last records JNull
              end
          end).
Proof.
  intros Hd Hr Hne. unfold summary_lines.
  rewrite Forall_forall in Hr.
  rewrite (find_final_records _ _ Hd) by (apply Forall_forall; exact Hr).
  simpl. destruct (find is_final records) as [d|] eqn:F; simpl.
  { apply summary_of_record, Hr. apply (find_some _ _ F). }
  rewrite (find_completed_records _ _ (decoded_as_rev _ _ Hd)).
  2:{ apply Forall_forall. intros d Hin. apply Hr, in_rev, Hin. }
  simpl. destruct (find is_completed (rev records)) as [d|] eqn:C; simpl.
  { apply summary_of_record, Hr, in_rev. apply (find_some _ _ C). }
  destruct (last_record _ _ Hd Hne) as (line & -> & L). simpl.
  rewrite L. simpl. apply summary_of_record, Hr, last_in, Hne.
Qed.

(** C2.  On a stream whose frames decode to summarizer records, at least
    one, [_parse_summary_response] returns the fields of the first record
    whose [type] is [final] when there is one; otherwise those of the last
    record whose [output_data.status] is [completed]; otherwise those of
    the last record.  In particular, when the frames are two updates and a
    final frame, it returns the fields of the final frame. *)
Theorem summary_returns_final_else_completed_else_last
        (text : string) (records : list json) :
  decoded_as raw_decode (parse_kagi_stream_lines text) records ->
  Forall (fun d => summary_record d = true) records ->
  records <> [] ->
  (forall d, find is_final records = Some d ->
             _parse_summary_response raw_decode text = Ok (summary_fields d))
  /\ (find is_final records = None ->
      forall d, find is_completed (rev records) = Some d ->
                _parse_summary_response raw_decode text = Ok (summary_fields d))
  /\ (find is_final records = None ->
      find is_completed (rev records) = None ->
      _parse_summary_response raw_decode text
      = Ok (summary_fields (last records JNull)))
  /\ (forall u1 u2 f,
         records = [u1; u2; f] ->
         is_final u1 = false -> is_final u2 = false -> is_final f = true ->
         _parse_summary_response raw_decode text = Ok (summary_fields f)).
Proof.
  intros Hd Hr Hne. unfold _parse_summary_response.
  rewrite (summary_lines_records _ _ Hd Hr Hne).
  split; [|split; [|split]].
  - intros d ->. reflexivity.
  - intros -> d ->. reflexivity.
  - intros -> ->. reflexivity.
  - intros u1 u2 f -> H1 H2 H3. simpl. rewrite H1, H2, H3. reflexivity.
Qed.

End Summarize.

(** C10, on a text of blank lines. *)
Lemma summary_index_error_iff_no_frame_witness :
  _parse_summary_response JSON.raw_decode (q "|  |") = Raise IndexError.
Proof.
  destruct (summary_index_error_iff_no_frame JSON.raw_decode (q "|  |"))
    as (H & _ & Hblank).
  apply H, Hblank. vm_compute. repeat constructor.
Defined.

Lemma records_of_decoded (text : string) :
  forallb (fun line =>
             match json_loads JSON.raw_decode (KagiStreamLine.payload line) with
             | Ok _ => true
             | Raise _ => false
             end)
          (parse_kagi_stream_lines text) = true ->
  decoded_as JSON.raw_decode (parse_kagi_stream_lines text) (records_of text).
Proof.
  unfold records_of, decoded_as.
  induction (parse_kagi_stream_lines text) as [|line lines IH]; simpl.
  - constructor.
  - intros H. apply andb_true_iff in H as [H1 H2].
    constructor; auto.
    destruct (json_loads JSON.raw_decode (KagiStreamLine.payload line));
      [reflexivity | discriminate].
Qed.

(** C2, on the summarizer stream of the unit tests, with the fields that
    the tests read. *)
Lemma summary_returns_final_else_completed_else_last_witness :
  exists r,
    _parse_summary_response JSON.raw_decode summary_stream_example = Ok r
    /\ SummaryResult.title r = JStr "Test Article"
    /\ SummaryResult.status r = JStr "completed"
    /\ SummaryResult.markdown r = JStr (q "Title: Test||- Point one")
    /\ ResponseMetadata.model (SummaryResult.response_metadata r)
       = JStr "Mistral Small"
    /\ ResponseMetadata.speed (SummaryResult.response_metadata r) = JInt 77
    /\ SummaryResult.elapsed_seconds r = JFloat 0x1.8333333333333p+3.
Proof.
  destruct (summary_returns_final_else_completed_else_last JSON.raw_decode
              summary_stream_example (records_of summary_stream_example))
    as (_ & _ & _ & H).
  - apply records_of_decoded. vm_compute. reflexivity.
  - apply Forall_forall, forallb_forall. vm_compute. reflexivity.
  - vm_compute. discriminate.
  - pose (rs := records_of summary_stream_example).
    assert (records_of summary_stream_example = rs) as E by reflexivity.
    vm_compute in rs. subst rs.
    eexists. split.
    + eapply H; [exact E | vm_compute; reflexivity ..].
    + vm_compute. repeat split; reflexivity.
Defined.

(** ** The assistant reducer *)

Section Assistant.

Variable raw_decode : string -> option (json * string).

Local Notation first_json := (_parse_json raw_decode).
Local Notation decoded := (payload_json raw_decode).
Local Notation fold := (assistant_fold raw_decode).
Local Notation step := (assistant_step raw_decode).

Lemma getitem_has_key (members : list (string * json)) (k : string)
      (default : json) :
  Py.has_key members k = true ->
  Py.getitem (JObj members) k = Ok (field (JObj members) k default).
Proof.
  unfold Py.has_key, Py.getitem, field.
  destruct (Py.lookup members k); [reflexivity | discriminate].
Qed.

Lemma step_thread (st : assistant_state) (line : KagiStreamLine.t) :
  KagiStreamLine.tag line = "thread.json" ->
  frame_ok raw_decode line = true ->
  step st line
  = Ok (mkAssistantState (Some (thread_fields (decoded line))) (as_message st)).
Proof.
  intros Ht Hok. unfold frame_ok in Hok. unfold assistant_step, payload_json.
  rewrite Ht, String.eqb_refl in *.
  destruct (first_json (KagiStreamLine.payload line)) as [d|]; [|discriminate].
  destruct d as [| | | | | |members]; try discriminate.
  unfold has_keys in Hok. cbn [forallb] in Hok.
  repeat (apply andb_true_iff in Hok as [?H Hok]).
  cbn [bind]. unfold thread_fields.
  repeat (rewrite (getitem_has_key _ _ JNull) by assumption; cbn [bind]).
  repeat (rewrite get_object by reflexivity; cbn [bind]).
  reflexivity.
Qed.

Lemma step_message (st : assistant_state) (line : KagiStreamLine.t) :
  KagiStreamLine.tag line = "new_message.json" ->
  frame_ok raw_decode line = true ->
  step st line
  = Ok (mkAssistantState (as_thread st) (Some (message_fields (decoded line)))).
Proof.
  intros Ht Hok. unfold frame_ok in Hok. unfold assistant_step, payload_json.
  rewrite Ht in *.
  change (String.eqb "new_message.json" "thread.json") with false in *.
  rewrite String.eqb_refl in *.
  destruct (first_json (KagiStreamLine.payload line)) as [d|]; [|discriminate].
  destruct d as [| | | | | |members]; try discriminate.
  unfold has_keys in Hok. cbn [forallb] in Hok.
  repeat (apply andb_true_iff in Hok as [?H Hok]).
  cbn [bind]. unfold message_fields.
  repeat (rewrite (getitem_has_key _ _ JNull) by assumption; cbn [bind]).
  repeat (rewrite get_object by reflexivity; cbn [bind]).
  reflexivity.
Qed.

Lemma step_other (st : assistant_state) (line : KagiStreamLine.t) :
  KagiStreamLine.tag line <> "thread.json" ->
  KagiStreamLine.tag line <> "new_message.json" ->
  step st line = Ok st.
Proof.
  intros H1 H2. unfold assistant_step.
  apply String.eqb_neq in H1, H2. rewrite H1, H2. reflexivity.
Qed.

(** The state after a run of well-formed frames. *)
Lemma fold_well_formed (lines : list KagiStreamLine.t) (st : assistant_state) :
  Forall (fun line => frame_ok raw_decode line = true) lines ->
  fold lines st
  = Ok (mkAssistantState
          match last_tagged "thread.json" lines with
          | Some l => Some (thread_fields (decoded l))
          | None => as_thread st
          end
          match last_tagged "new_message.json" lines with
          | Some l => Some (message_fields (decoded l))
          | None => as_message st
          end).
Proof.
  intros H. revert st. induction H as [|line rest Hok _ IH]; intros st.
  - destruct st; reflexivity.
  - unfold assistant_fold in *. cbn [foldM last_tagged].
    destruct (String.eqb_spec (KagiStreamLine.tag line) "thread.json") as [Ht|Ht].
    + rewrite (step_thread st line Ht Hok). cbn [bind]. rewrite IH.
      rewrite Ht. cbn [String.eqb Ascii.eqb Bool.eqb as_thread as_message].
      destruct (last_tagged "thread.json" rest),
               (last_tagged "new_message.json" rest); reflexivity.
    + destruct (String.eqb_spec (KagiStreamLine.tag line) "new_message.json")
        as [Hm|Hm].
      * rewrite (step_message st line Hm Hok). cbn [bind]. rewrite IH.
        cbn [as_thread as_message].
        destruct (last_tagged "thread.json" rest),
                 (last_tagged "new_message.json" rest); reflexivity.
      * rewrite (step_other st line Ht Hm). cbn [bind]. rewrite IH.
        destruct (last_tagged "thread.json" rest),
                 (last_tagged "new_message.json" rest); reflexivity.
Qed.

Lemma last_tagged_none (t : string) (lines : list KagiStreamLine.t) :
  last_tagged t lines = None <-> has_tag t lines = false.
Proof.
  unfold has_tag. induction lines as [|line rest IH]; simpl.
  - split; reflexivity.
  - destruct (last_tagged t rest) eqn:L.
    + split; [discriminate|]. intros H.
      apply orb_false_iff in H as [_ H]. apply IH in H. discriminate.
    + destruct (String.eqb (KagiStreamLine.tag line) t); simpl.
      * split; discriminate.
      * split; intros _; [apply IH|]; reflexivity.
Qed.

(** C6, as the code has it.  When every [thread.json] and
    [new_message.json] frame carries a JSON object with the keys that the
    reducer subscripts, the reducer fails exactly when the stream has no
    [thread.json] frame or no [new_message.json] frame, and it fails with
    the API error of status 200 that names the missing frame; otherwise it
    returns the thread of the last [thread.json] frame and the message of
    the last [new_message.json] frame. *)
Theorem assistant_result_of_well_formed_stream (text : string) :
  Forall (fun line => frame_ok raw_decode line = true)
         (parse_kagi_stream_lines text) ->
  ((exists e, _parse_assistant_response raw_decode text = Raise e)
   <-> (has_tag "thread.json" (parse_kagi_stream_lines text) = false
        \/ has_tag "new_message.json" (parse_kagi_stream_lines text) = false))
  /\ (has_tag "thread.json" (parse_kagi_stream_lines text) = false ->
      _parse_assistant_response raw_decode text
      = Raise (APIError "No thread.json found in response" 200 text))
  /\ (has_tag "thread.json" (parse_kagi_stream_lines text) = true ->
      has_tag "new_message.json" (parse_kagi_stream_lines text) = false ->
      _parse_assistant_response raw_decode text
      = Raise (APIError "No new_message.json found in response" 200 text))
  /\ (forall th m,
         last_tagged "thread.json" (parse_kagi_stream_lines text) = Some th ->
         last_tagged "new_message.json" (parse_kagi_stream_lines text) = Some m ->
         _parse_assistant_response raw_decode text
         = Ok (AssistantResult.mk (thread_fields (decoded th))
                                  (message_fields (decoded m)))).
Proof.
  intros Hok. unfold _parse_assistant_response.
  rewrite (fold_well_formed _ _ Hok). cbn [bind as_thread as_message].
  pose proof (last_tagged_none "thread.json" (parse_kagi_stream_lines text)) as Ht.
  pose proof (last_tagged_none "new_message.json" (parse_kagi_stream_lines text))
    as Hm.
  destruct (last_tagged "thread.json" (parse_kagi_stream_lines text)) as [th|];
    destruct (last_tagged "new_message.json" (parse_kagi_stream_lines text))
      as [m|].
  - assert (has_tag "thread.json" (parse_kagi_stream_lines text) = true) as T.
    { destruct (has_tag "thread.json" _); auto. destruct Ht as [_ Ht].
      discriminate Ht; reflexivity. }
    assert (has_tag "new_message.json" (parse_kagi_stream_lines text) = true) as M.
    { destruct (has_tag "new_message.json" _); auto. destruct Hm as [_ Hm].
      discriminate Hm; reflexivity. }
    rewrite T, M. repeat split; try discriminate.
    + intros [e H]. discriminate.
    + intros [H|H]; discriminate.
    + intros th' m' [= <-] [= <-]. reflexivity.
  - assert (has_tag "thread.json" (parse_kagi_stream_lines text) = true) as T.
    { destruct (has_tag "thread.json" _); auto. destruct Ht as [_ Ht].
      discriminate Ht; reflexivity. }
    rewrite T, (proj1 Hm eq_refl). repeat split; try discriminate; eauto.
  - rewrite (proj1 Ht eq_refl). repeat split; try discriminate; eauto.
  - rewrite (proj1 Ht eq_refl). repeat split; try discriminate; eauto.
Qed.

End Assistant.

(** C6, on the assistant stream of the unit tests, with the fields that
    the tests read. *)
Lemma assistant_result_of_well_formed_stream_witness :
  exists r,
    _parse_assistant_response JSON.raw_decode assistant_stream_example = Ok r
    /\ AssistantThread.id (AssistantResult.thread r) = JStr "thread-1"
    /\ AssistantMessage.state (AssistantResult.message r) = JStr "done"
    /\ AssistantMessage.reply (AssistantResult.message r)
       = JStr "<p>Hi there!</p>"
    /\ AssistantMessage.md (AssistantResult.message r) = JStr "Hi there!".
Proof.
  destruct (assistant_result_of_well_formed_stream JSON.raw_decode
              assistant_stream_example) as (_ & _ & _ & H).
  - apply Forall_forall, forallb_forall. vm_compute. reflexivity.
  - pose (th := last_tagged "thread.json"
                  (parse_kagi_stream_lines assistant_stream_example)).
    assert (last_tagged "thread.json"
              (parse_kagi_stream_lines assistant_stream_example) = th)
      as Eth by reflexivity.
    pose (m := last_tagged "new_message.json"
                 (parse_kagi_stream_lines assistant_stream_example)).
    assert (last_tagged "new_message.json"
              (parse_kagi_stream_lines assistant_stream_example) = m)
      as Em by reflexivity.
    vm_compute in th, m. subst th m.
    eexists. split.
    + exact (H _ _ Eth Em).
    + vm_compute. repeat split; reflexivity.
Defined.

(** C6, as stated, fails: a stream that has both frames, one of them
    without the keys the reducer subscripts, makes the reducer fail. *)
Lemma assistant_missing_key_counterexample :
  ~ assistant_fails_iff_frame_missing JSON.raw_decode.
Proof.
  intros H.
  destruct (H (q "thread.json:{'id':'t1'}|new_message.json:{'id':'m1'}|"))
    as [H1 _].
  destruct H1 as [H1|H1].
  - exists (KeyError "title"). vm_compute. reflexivity.
  - vm_compute in H1. discriminate.
  - vm_compute in H1. discriminate.
Qed.

(** ** The assistant token stream *)

Lemma yields_from_unique (prev : string) (ts ys ys' : list string) :
  yields_from prev ts ys -> yields_from prev ts ys' -> ys = ys'.
Proof.
  intros H. revert ys'.
  induction H as [prev | prev t ts ys Hne Hnp _ IH | prev t ts ys Hs _ IH];
    intros ys' H'; inversion H'; subst; auto;
    try (f_equal; auto; fail);
    match goal with
    | Hor : _ \/ _ |- _ => destruct Hor; contradiction
    end.
Qed.

Section TokenStream.

Variable raw_decode : string -> option (json * string).

Local Notation text_of := (token_text raw_decode).
Local Notation next := (prompt_stream_step raw_decode).
Local Notation run := (prompt_stream_lines raw_decode).

(** A step of the loop, in terms of the text the line carries. *)
Lemma step_token_text (prev_text : json) (raw_line : string) :
  next prev_text raw_line
  = match text_of raw_line with
    | Raise e => Raise e
    | Ok None => Ok (prev_text, None)
    | Ok (Some full_text) =>
        if Py.truthy full_text && negb (Py.eq full_text prev_text)
        then Ok (full_text, Some full_text)
        else Ok (prev_text, None)
    end.
Proof.
  unfold prompt_stream_step, token_text.
  destruct (parse_kagi_stream_line raw_line) as [parsed|]; [|reflexivity].
  destruct (negb (String.eqb (KagiStreamLine.tag parsed) "tokens.json"));
    [reflexivity|].
  destruct (_parse_json raw_decode (KagiStreamLine.payload parsed)) as [data|];
    [|reflexivity].
  destruct (Py.get data "text" (JStr "")); reflexivity.
Qed.

Lemma run_snapshots (raw_lines : list string) (snapshots : list string) :
  Forall2 (fun line t => text_of line = Ok (Some (JStr t))) raw_lines snapshots ->
  forall prev,
  exists ys,
    run (JStr prev) raw_lines = (map JStr ys, None)
    /\ yields_from prev snapshots ys.
Proof.
  induction 1 as [|line t lines ts Ht _ IH]; intros prev.
  - exists []. split; [reflexivity | constructor].
  - cbn [prompt_stream_lines]. rewrite step_token_text, Ht.
    cbn [Py.truthy Py.eq].
    destruct t as [|c t'].
    + destruct (IH prev) as (ys & E & Y). exists ys.
      split; [exact E|]. apply yields_skip; auto.
    + cbn [Str.is_empty negb andb].
      destruct (String.eqb_spec (String c t') prev) as [Heq|Hne]; cbn [negb].
      * destruct (IH prev) as (ys & E & Y). exists ys.
        split; [exact E|]. apply yields_skip; auto.
      * destruct (IH (String c t')) as (ys & E & Y).
        exists (String c t' :: ys). split.
        -- unfold yield. rewrite E. reflexivity.
        -- apply yields_take; auto. discriminate.
Qed.

(** C5.  On a response of status 200 whose lines are token frames, the
    streaming assistant variant yields, of the snapshots the frames carry,
    exactly those whose text is not empty and differs from the snapshot
    yielded last; on the snapshots empty, A, A, AB it yields A and AB. *)
Theorem assistant_stream_yields_new_nonempty_snapshots
        (resp : Response.t) (raw_lines : list string) (snapshots : list string) :
  Response.status_code resp = 200%Z ->
  Forall2 (fun line t => token_text raw_decode line = Ok (Some (JStr t)))
          raw_lines snapshots ->
  (exists ys,
      prompt_stream raw_decode resp raw_lines = (map JStr ys, None)
      /\ yields_from "" snapshots ys)
  /\ (snapshots = [""; "<p>A</p>"; "<p>A</p>"; "<p>AB</p>"] ->
      prompt_stream raw_decode resp raw_lines
      = ([JStr "<p>A</p>"; JStr "<p>AB</p>"], None)).
Proof.
  intros Hs H. unfold prompt_stream. rewrite Hs. cbn [Z.eqb Pos.eqb negb].
  destruct (run_snapshots _ _ H "") as (ys & E & Y).
  split; [eauto|]. intros ->. rewrite E.
  assert (yields_from "" [""; "<p>A</p>"; "<p>A</p>"; "<p>AB</p>"]
            ["<p>A</p>"; "<p>AB</p>"]) as Y'.
  { apply yields_skip; [left; reflexivity|].
    apply yields_take; [discriminate | discriminate |].
    apply yields_skip; [right; reflexivity|].
    apply yields_take; [discriminate | discriminate |].
    constructor. }
  rewrite (yields_from_unique _ _ _ _ Y Y'). reflexivity.
Qed.

End TokenStream.

(** C5, on four token frames with the snapshots empty, A, A, AB. *)
Lemma assistant_stream_yields_new_nonempty_snapshots_witness :
  prompt_stream JSON.raw_decode (Response.mk 200 "") token_lines_example
  = ([JStr "<p>A</p>"; JStr "<p>AB</p>"], None).
Proof.
  apply (assistant_stream_yields_new_nonempty_snapshots JSON.raw_decode
           (Response.mk 200 "") token_lines_example
           [""; "<p>A</p>"; "<p>A</p>"; "<p>AB</p>"]).
  - reflexivity.
  - unfold token_lines_example.
    repeat (apply Forall2_cons; [vm_compute; reflexivity|]).
    apply Forall2_nil.
  - reflexivity.
Defined.

(** ** Pagination *)

Lemma search_all_run_step (fetch : option json -> result SearchResult.t)
      (fuel : nat) (st : search_all_state) :
  search_all_run fetch (S fuel) st
  = match search_all_next fetch st with
    | (st', _, Yielded r) =>
        match search_all_run fetch fuel st' with
        | Some (rs, e) => Some (r :: rs, e)
        | None => None
        end
    | (_, _, StopAsyncIteration) => Some ([], None)
    | (_, _, Raised e) => Some ([], Some e)
    end.
Proof. reflexivity. Qed.

Lemma search_all_next_after_page
      (fetch : option json -> result SearchResult.t)
      (r : SearchResult.t) (n : Z) :
  SearchInfo.next_batch (SearchResult.info r) = JInt n ->
  search_all_next fetch (SearchAllLoop r)
  = if (0 <? n)%Z then
      match fetch (Some (JInt n)) with
      | Ok r' => (SearchAllLoop r', [Some (JInt n)], Yielded r')
      | Raise e => (SearchAllDone, [Some (JInt n)], Raised e)
      end
    else (SearchAllDone, [], StopAsyncIteration).
Proof.
  intros Hn. unfold search_all_next. rewrite Hn. cbn [Py.gt0].
  destruct (0 <? n)%Z; reflexivity.
Qed.

(** C8.  Over any page-fetch function: when the first page carries
    [next_batch = 2] and the page of batch 2 carries [next_batch = -1],
    [search_all] yields these two pages and ends; and after a page whose
    [next_batch] is the integer [n], a step of the generator calls the
    page-fetch function, with batch [n], exactly when [0 < n], and ends the
    iteration otherwise. *)
Theorem search_all_follows_next_batch
        (fetch : option json -> result SearchResult.t) :
  (forall r1 r2 : SearchResult.t,
      fetch None = Ok r1 ->
      SearchInfo.next_batch (SearchResult.info r1) = JInt 2 ->
      fetch (Some (JInt 2)) = Ok r2 ->
      SearchInfo.next_batch (SearchResult.info r2) = JInt (-1) ->
      forall fuel, 3 <= fuel ->
                   search_all fetch fuel = Some ([r1; r2], None))
  /\ (forall (r : SearchResult.t) (n : Z),
         SearchInfo.next_batch (SearchResult.info r) = JInt n ->
         search_all_next fetch (SearchAllLoop r)
         = if (0 <? n)%Z then
             match fetch (Some (JInt n)) with
             | Ok r' => (SearchAllLoop r', [Some (JInt n)], Yielded r')
             | Raise e => (SearchAllDone, [Some (JInt n)], Raised e)
             end
           else (SearchAllDone, [], StopAsyncIteration)).
Proof.
  split.
  - intros r1 r2 F1 N1 F2 N2 fuel Hfuel.
    destruct fuel as [|[|[|fuel]]]; try lia.
    unfold search_all. rewrite search_all_run_step.
    unfold search_all_next at 1. rewrite F1.
    rewrite search_all_run_step, (search_all_next_after_page _ _ _ N1).
    change (0 <? 2)%Z with true. cbv iota. rewrite F2.
    rewrite search_all_run_step, (search_all_next_after_page _ _ _ N2).
    reflexivity.
  - apply search_all_next_after_page.
Qed.

(** C8, on the two pages of the unit tests, fetched through the search
    reducer. *)
Lemma search_all_follows_next_batch_witness :
  exists r1 r2,
    search_all fetch_example 3 = Some ([r1; r2], None)
    /\ SearchInfo.curr_batch (SearchResult.info r1) = JInt 1
    /\ SearchInfo.next_batch (SearchResult.info r1) = JInt 2
    /\ SearchInfo.curr_batch (SearchResult.info r2) = JInt 2
    /\ SearchInfo.next_batch (SearchResult.info r2) = JInt (-1)
    /\ SearchResult.search_html r1 = q "<div class='result'>Result 1</div>"
    /\ map DomainInfo.domain (SearchResult.domain_infos r1) = [JStr "example.com"].
Proof.
  pose (p1 := fetch_example None).
  assert (fetch_example None = p1) as E1 by reflexivity.
  pose (p2 := fetch_example (Some (JInt 2))).
  assert (fetch_example (Some (JInt 2)) = p2) as E2 by reflexivity.
  vm_compute in p1, p2. subst p1 p2.
  destruct (search_all_follows_next_batch fetch_example) as [H _].
  eexists. eexists. split.
  - apply (H _ _ E1 eq_refl E2 eq_refl 3). apply le_n.
  - vm_compute. repeat split; reflexivity.
Defined.

(** ** Frames that are not JSON *)

Lemma foldM_app {A S : Type} (f : S -> A -> result S) (a b : list A) (st : S) :
  foldM f (a ++ b) st = (st' <- foldM f a st ;; foldM f b st').
Proof.
  revert st. induction a as [|x a IH]; intros st; simpl; [reflexivity|].
  destruct (f st x); simpl; auto.
Qed.

Section Undecodable.

Variable raw_decode : string -> option (json * string).

Lemma parse_json_raises (payload : string) (e : exn) :
  _parse_json raw_decode payload = Raise e -> e = JSONDecodeError.
Proof.
  unfold _parse_json.
  destruct (raw_decode (Str.strip payload)) as [[obj rest]|]; congruence.
Qed.

Lemma proofread_step_raises (st : proofread_state) (event : SSEEvent.t)
      (x : exn) :
  json_loads raw_decode (SSEEvent.data event) = Raise x ->
  proofread_step raw_decode st event = Raise JSONDecodeError.
Proof.
  intros H. unfold proofread_step. rewrite H. simpl.
  apply json_loads_raises in H. congruence.
Qed.

Lemma find_final_aborts (pre post : list KagiStreamLine.t)
      (line : KagiStreamLine.t) (x : exn) :
  find_final raw_decode pre = Ok None ->
  json_loads raw_decode (KagiStreamLine.payload line) = Raise x ->
  find_final raw_decode (pre ++ line :: post) = Raise JSONDecodeError.
Proof.
  intros Hpre H. induction pre as [|l pre IH]; simpl in *.
  - rewrite H. simpl. apply json_loads_raises in H. congruence.
  - destruct (json_loads raw_decode (KagiStreamLine.payload l)); simpl in *;
      [|discriminate].
    destruct (Py.get a "type" JNull); simpl in *; [|discriminate].
    destruct (Py.is_str a0 "final"); [discriminate | auto].
Qed.

Lemma assistant_step_raises (st : assistant_state) (line : KagiStreamLine.t)
      (x : exn) :
  KagiStreamLine.tag line = "thread.json"
  \/ KagiStreamLine.tag line = "new_message.json" ->
  _parse_json raw_decode (KagiStreamLine.payload line) = Raise x ->
  assistant_step raw_decode st line = Raise JSONDecodeError.
Proof.
  intros Ht H. unfold assistant_step.
  pose proof (parse_json_raises _ _ H) as ->.
  destruct Ht as [-> | ->]; cbn [String.eqb Ascii.eqb Bool.eqb];
    rewrite H; reflexivity.
Qed.

Lemma search_step_skips (st : search_state) (event : SSEEvent.t) (x : exn) :
  json_loads raw_decode (SSEEvent.data event) = Raise x ->
  search_step raw_decode st event = Ok st.
Proof.
  intros H. unfold search_step. rewrite H.
  destruct (Str.is_empty (SSEEvent.data event) || is_blank (SSEEvent.data event));
    reflexivity.
Qed.

(** C1, as the code has it.  A frame whose data or payload is not JSON
    makes the proofread reducer, the summarize reducer (when it is read
    before a final record is found) and the assistant reducer (when its
    tag is [thread.json] or [new_message.json]) fail with the JSON decode
    error, whatever follows it; the search reducer alone skips it and folds
    the remaining frames. *)
Theorem undecodable_frame_is_skipped_by_search_only :
  (forall text pre event post st x,
      parse_sse_events text = pre ++ event :: post ->
      proofread_fold raw_decode pre (mkProofreadState None [] None) = Ok st ->
      json_loads raw_decode (SSEEvent.data event) = Raise x ->
      _parse_proofread_response raw_decode text = Raise JSONDecodeError)
  /\ (forall text pre line post x,
         parse_kagi_stream_lines text = pre ++ line :: post ->
         find_final raw_decode pre = Ok None ->
         json_loads raw_decode (KagiStreamLine.payload line) = Raise x ->
         _parse_summary_response raw_decode text = Raise JSONDecodeError)
  /\ (forall text pre line post st x,
         parse_kagi_stream_lines text = pre ++ line :: post ->
         assistant_fold raw_decode pre (mkAssistantState None None) = Ok st ->
         KagiStreamLine.tag line = "thread.json"
         \/ KagiStreamLine.tag line = "new_message.json" ->
         _parse_json raw_decode (KagiStreamLine.payload line) = Raise x ->
         _parse_assistant_response raw_decode text = Raise JSONDecodeError)
  /\ (forall pre event post st x,
         json_loads raw_decode (SSEEvent.data event) = Raise x ->
         search_fold raw_decode (pre ++ event :: post) st
         = search_fold raw_decode (pre ++ post) st).
Proof.
  split; [|split; [|split]].
  - intros text pre event post st x E Hpre H.
    unfold _parse_proofread_response, proofread_fold in *.
    rewrite E, foldM_app, Hpre. simpl.
    rewrite (proofread_step_raises _ _ _ H). reflexivity.
  - intros text pre line post x E Hpre H.
    unfold _parse_summary_response, summary_lines.
    rewrite E, (find_final_aborts _ _ _ _ Hpre H). reflexivity.
  - intros text pre line post st x E Hpre Ht H.
    unfold _parse_assistant_response, assistant_fold in *.
    rewrite E, foldM_app, Hpre. simpl.
    rewrite (assistant_step_raises _ _ _ Ht H). reflexivity.
  - intros pre event post st x H. unfold search_fold.
    rewrite !foldM_app. destruct (foldM _ pre st); simpl; auto.
    rewrite (search_step_skips _ _ _ H). reflexivity.
Qed.

End Undecodable.

(** C1, on a stream of each kind whose second frame is not JSON: three
    reducers fail where the claim has them skip the frame, and the search
    reducer joins the two fragments around it. *)
Lemma undecodable_frame_is_skipped_by_search_only_witness :
  _parse_proofread_response JSON.raw_decode proofread_broken_example
  = Raise JSONDecodeError
  /\ _parse_summary_response JSON.raw_decode summary_broken_example
     = Raise JSONDecodeError
  /\ _parse_assistant_response JSON.raw_decode assistant_broken_example
     = Raise JSONDecodeError
  /\ _parse_search_response JSON.raw_decode no_items search_broken_example
     = Ok (SearchResult.mk (q "<p>1</p>|<p>2</p>") default_info [] []).
Proof.
  destruct (undecodable_frame_is_skipped_by_search_only JSON.raw_decode)
    as (Hp & Hs & Ha & Hx).
  split; [|split; [|split]].
  - eapply (Hp proofread_broken_example
              [SSEEvent.mk None (q "{'delta':'Hel'}") None]
              (SSEEvent.mk None "oops" None)
              [SSEEvent.mk None (q "{'delta':'lo'}") None]);
      vm_compute; reflexivity.
  - eapply (Hs summary_broken_example []
              (KagiStreamLine.mk "update" "oops")
              [KagiStreamLine.mk "final"
                 (q "{'output_text':'done','type':'final'}")]);
      vm_compute; reflexivity.
  - eapply (Ha assistant_broken_example
              [KagiStreamLine.mk "thread.json"
                 (q "{'id':'t1','title':'T','created_at':'now'}")]
              (KagiStreamLine.mk "new_message.json" "oops")
              [KagiStreamLine.mk "new_message.json"
                 (q "{'id':'m1','created_at':'now','state':'done','prompt':'hi'}")]);
      [vm_compute; reflexivity | vm_compute; reflexivity
       | right; reflexivity | vm_compute; reflexivity].
  - unfold _parse_search_response.
    assert (parse_sse_events search_broken_example
            = [SSEEvent.mk None (q "[{'tag':'search','payload':'<p>1</p>'}]") None]
                ++ SSEEvent.mk None "oops" None
                :: [SSEEvent.mk None (q "[{'tag':'search','payload':'<p>2</p>'}]")
                      None]) as -> by (vm_compute; reflexivity).
    rewrite (Hx _ _ _ _ JSONDecodeError) by (vm_compute; reflexivity).
    vm_compute. reflexivity.
Defined.

(** * Further properties of the framers *)

Module SSEMore.
Import Str StrFacts.

Lemma step_irrelevant (st : sse_state) (l : string) :
  sse_relevant l = false -> sse_step st l = st.
Proof.
  unfold sse_relevant, is_event_line, is_data_line, is_id_line, sse_step.
  intros H. repeat (apply orb_false_iff in H as [H ?]).
  rewrite H. repeat match goal with E : _ = false |- _ => rewrite E; clear E end.
  reflexivity.
Qed.

Lemma run_relevant (lines : list string) (st : sse_state) :
  sse_run st (filter sse_relevant lines) = sse_run st lines.
Proof.
  revert st. induction lines as [|l lines IH]; intros st; [reflexivity|].
  simpl. destruct (sse_relevant l) eqn:R.
  - unfold sse_run in *. simpl. apply IH.
  - unfold sse_run in *. simpl. rewrite (step_irrelevant _ _ R). apply IH.
Qed.

Lemma split_app (sep : ascii) (a b : string) :
  split sep (a +++ String sep b) = split sep a ++ split sep b.
Proof.
  induction a as [|c a IH]; simpl.
  - rewrite Ascii.eqb_refl. reflexivity.
  - destruct (Ascii.eqb c sep).
    + rewrite IH. reflexivity.
    + rewrite IH. destruct (split sep a) as [|h t] eqn:E; [|reflexivity].
      destruct a as [|d a]; simpl in E; [discriminate|].
      destruct (Ascii.eqb d sep); [discriminate|].
      destruct (split sep a); discriminate.
Qed.

Lemma split_nonempty (sep : ascii) (s : string) : split sep s <> [].
Proof.
  destruct s as [|c s]; simpl; [discriminate|].
  destruct (Ascii.eqb c sep); [discriminate|].
  destruct (split sep s); discriminate.
Qed.

Lemma blocks_after_blank (lines rest cur : list string) :
  closed_blocks cur (lines ++ "" :: rest)
  = closed_blocks cur (lines ++ [""]) ++ closed_blocks [] rest.
Proof.
  revert cur. induction lines as [|l lines IH]; intros cur; [reflexivity|].
  simpl. destruct (is_empty l); [simpl; f_equal|]; apply IH.
Qed.

Lemma run_after_blank (lines rest : list string) :
  events (sse_run sse_init (lines ++ "" :: rest))
  = events (sse_run sse_init (lines ++ [""]))
      ++ events (sse_run sse_init rest).
Proof.
  change sse_init with (acc_state [] []).
  rewrite !SSE.run_blocks. simpl.
  rewrite blocks_after_blank, filter_app, map_app. reflexivity.
Qed.

Lemma blocks_count (lines cur : list string) :
  List.length (closed_blocks cur lines) = List.length (filter is_empty lines).
Proof.
  revert cur. induction lines as [|l lines IH]; intros cur; simpl; auto.
  destruct (is_empty l); simpl; auto.
Qed.

Lemma data_blocks_count (lines cur : list string) :
  List.length (filter has_data (closed_blocks cur lines))
  <= List.length (filter is_data_line (cur ++ lines)).
Proof.
  revert cur. induction lines as [|l lines IH]; intros cur; simpl.
  - apply Nat.le_0_l.
  - destruct (is_empty l) eqn:E.
    + apply is_empty_true in E. subst l. rewrite filter_app. simpl.
      rewrite length_app. specialize (IH []). simpl in IH.
      destruct (has_data cur) eqn:H; simpl.
      * apply SSE.data_of_not_nil in H. unfold data_of in H.
        destruct (filter is_data_line cur); [simpl in H; congruence|].
        simpl. lia.
      * lia.
    + specialize (IH (cur ++ [l])). rewrite <- app_assoc in IH. exact IH.
Qed.

End SSEMore.

(** X1.  Lines that are neither empty nor an [event:], [data:] or [id:]
    line, such as comments, have no effect: a text and the text without
    them have the same frames. *)
Theorem sse_ignores_other_lines (text : string) :
  parse_sse_events
    (Str.join Str.nl (filter sse_relevant (Str.split Str.lf text)))
  = parse_sse_events text.
Proof.
  unfold parse_sse_events at 2. rewrite <- SSEMore.run_relevant.
  pose proof (StrFacts.split_no_sep Str.lf text) as Hno.
  destruct (filter sse_relevant (Str.split Str.lf text)) as [|l ls] eqn:E.
  - reflexivity.
  - unfold parse_sse_events. change Str.nl with (String Str.lf "").
    rewrite StrFacts.split_join; [reflexivity | discriminate |].
    rewrite <- E. apply Forall_forall. intros x Hx.
    apply filter_In in Hx as [Hx _]. rewrite Forall_forall in Hno. auto.
Qed.

(** X2.  In every frame that the SSE framer emits, the event name and the
    id have no white space at their ends and no line feed, and no line of
    the data has white space at its ends. *)
Theorem sse_frame_fields_are_stripped (text : string) (ev : SSEEvent.t) :
  In ev (parse_sse_events text) ->
  (forall e, SSEEvent.event ev = Some e ->
             Str.strip e = e /\ Str.mem Str.lf e = false)
  /\ (forall i, SSEEvent.id ev = Some i ->
                Str.strip i = i /\ Str.mem Str.lf i = false)
  /\ Forall (fun d => Str.strip d = d) (Str.split Str.lf (SSEEvent.data ev)).
Proof.
  intros H. apply SSERoundTrip.parse_emitted in H.
  destruct H as (He & (cs & Hne & Hcs & Hd) & Hi).
  split; [exact He|]. split; [exact Hi|].
  rewrite Hd. change Str.nl with (String Str.lf "").
  rewrite StrFacts.split_join; auto.
  - eapply Forall_impl; [|exact Hcs]. intros c [H _]; exact H.
  - eapply Forall_impl; [|exact Hcs]. intros c [_ H]; exact H.
Qed.

(** X2, on a frame of two data lines with white space around them. *)
Lemma sse_frame_fields_are_stripped_witness :
  Forall (fun d => Str.strip d = d)
         (Str.split Str.lf
            (SSEEvent.data (SSEEvent.mk (Some "m") (q "a b|c") (Some "7")))).
Proof.
  apply (sse_frame_fields_are_stripped
           (q "event:  m |data:  a b |id: 7|data:c  ||")).
  vm_compute. left. reflexivity.
Defined.

(** X3.  Framing composes at an empty line: the frames of a text cut
    after an empty line are the frames of the first part followed by the
    frames of the second. *)
Theorem sse_frames_of_concatenation (t1 t2 : string) :
  parse_sse_events (t1 +++ Str.nl +++ Str.nl +++ t2)
  = parse_sse_events (t1 +++ Str.nl +++ Str.nl) ++ parse_sse_events t2.
Proof.
  unfold parse_sse_events.
  change (t1 +++ Str.nl +++ Str.nl +++ t2)
    with (t1 +++ String Str.lf (String Str.lf t2)).
  change (t1 +++ Str.nl +++ Str.nl)
    with (t1 +++ String Str.lf (String Str.lf "")).
  rewrite !SSEMore.split_app.
  change (Str.split Str.lf (String Str.lf t2)) with ("" :: Str.split Str.lf t2).
  change (Str.split Str.lf (String Str.lf "")) with ["" ; ""].
  rewrite SSEMore.run_after_blank.
  rewrite (SSEMore.run_after_blank (Str.split Str.lf t1) [""]).
  change (events (sse_run sse_init [""])) with (@nil SSEEvent.t).
  rewrite app_nil_r. reflexivity.
Qed.

(** X4.  The SSE framer emits at most one frame per empty line and at
    most one frame per [data:] line: a text with no empty line, or with no
    [data:] line, has no frame. *)
Theorem sse_frame_count_bounds (text : string) :
  List.length (parse_sse_events text)
  <= List.length (filter Str.is_empty (Str.split Str.lf text))
  /\ List.length (parse_sse_events text)
     <= List.length (filter is_data_line (Str.split Str.lf text)).
Proof.
  rewrite SSE.parse_blocks, length_map. split.
  - rewrite <- (SSEMore.blocks_count _ []). apply filter_length_le.
  - apply (SSEMore.data_blocks_count _ []).
Qed.

Module KagiMore.
Import Str StrFacts.

Lemma tags_loop (lines : list string) :
  map KagiStreamLine.tag (kagi_loop lines) = flat_map tag_of_line lines
  /\ forall t parts,
      map KagiStreamLine.tag (collect t lines parts)
      = t :: flat_map tag_of_line lines.
Proof.
  induction lines as [|l lines [IH1 IH2]].
  - split; reflexivity.
  - assert (map KagiStreamLine.tag (kagi_loop (l :: lines))
            = flat_map tag_of_line (l :: lines)) as H1.
    { rewrite Kagi.kagi_loop_cons. cbn [flat_map]. unfold tag_of_line at 1.
      destruct (is_blank l) eqn:B.
      - destruct (is_tag_line l) eqn:T.
        + apply Kagi.tag_not_blank in T. congruence.
        + unfold is_tag_line in T.
          destruct (_TAG_RE_match l) as [[t g2]|]; [discriminate | exact IH1].
      - destruct (_TAG_RE_match l) as [[t g2]|]; [apply IH2 | exact IH1]. }
    split; [exact H1|]. intros t parts.
    rewrite Kagi.collect_cons.
    destruct (is_blank l) eqn:B.
    + rewrite IH2. cbn [flat_map]. unfold tag_of_line at 2.
      destruct (is_tag_line l) eqn:T.
      * apply Kagi.tag_not_blank in T. congruence.
      * unfold is_tag_line in T.
        destruct (_TAG_RE_match l) as [[t' g2]|]; [discriminate | reflexivity].
    + destruct (is_tag_line l) eqn:T.
      * cbn [map]. rewrite H1. reflexivity.
      * rewrite IH2. cbn [flat_map]. unfold tag_of_line at 2.
        unfold is_tag_line in T.
        destruct (_TAG_RE_match l) as [[t' g2]|]; [discriminate | reflexivity].
Qed.

(** *** [span] *)

Lemma span_append (p : ascii -> bool) (s : string) :
  fst (span p s) +++ snd (span p s) = s.
Proof.
  induction s as [|c s IH]; simpl; auto.
  destruct (p c); simpl; auto.
  destruct (span p s) as [a b]. simpl in *. congruence.
Qed.

Lemma span_all (p : ascii -> bool) (s : string) :
  all_chars p (fst (span p s)) = true.
Proof.
  induction s as [|c s IH]; simpl; auto.
  destruct (p c) eqn:E; simpl; auto.
  destruct (span p s) as [a b]. simpl in *. rewrite E, IH. reflexivity.
Qed.

Lemma span_stop (p : ascii -> bool) (a : string) (c : ascii) (b : string) :
  all_chars p a = true -> p c = false ->
  span p (a +++ String c b) = (a, String c b).
Proof.
  intros Ha Hc. induction a as [|d a IH]; simpl in *.
  - rewrite Hc. reflexivity.
  - apply andb_true_iff in Ha as [Hd Ha]. rewrite Hd, (IH Ha). reflexivity.
Qed.

Lemma span_whole (p : ascii -> bool) (a : string) :
  all_chars p a = true -> span p a = (a, "").
Proof.
  induction a as [|d a IH]; simpl; auto.
  intros Ha. apply andb_true_iff in Ha as [Hd Ha]. rewrite Hd, (IH Ha).
  reflexivity.
Qed.

Lemma no_lf_all (s : string) :
  mem lf s = false -> all_chars (fun c => negb (Ascii.eqb c lf)) s = true.
Proof.
  induction s as [|c s IH]; simpl; auto.
  intros H. apply orb_false_iff in H as [H1 H2]. rewrite H1, (IH H2).
  reflexivity.
Qed.

Lemma all_no_lf (s : string) :
  all_chars (fun c => negb (Ascii.eqb c lf)) s = true -> mem lf s = false.
Proof.
  induction s as [|c s IH]; simpl; auto.
  intros H. apply andb_true_iff in H as [H1 H2].
  apply negb_true_iff in H1. rewrite H1, (IH H2). reflexivity.
Qed.

Lemma tag_rest_plain (p : string) : mem lf p = false -> tag_rest p = Some p.
Proof.
  intros H. unfold tag_rest. rewrite (span_whole _ _ (no_lf_all _ H)).
  reflexivity.
Qed.

Lemma tag_rest_inv (r g2 : string) :
  tag_rest r = Some g2 ->
  mem lf g2 = false /\ (r = g2 \/ r = g2 +++ nl).
Proof.
  unfold tag_rest.
  pose proof (span_append (fun c => negb (Ascii.eqb c lf)) r) as Happ.
  pose proof (span_all (fun c => negb (Ascii.eqb c lf)) r) as Hall.
  destruct (span (fun c => negb (Ascii.eqb c lf)) r) as [body tail].
  simpl in *. destruct (is_empty tail) eqn:E; simpl.
  - intros [= <-]. apply is_empty_true in E. subst tail.
    split; [apply all_no_lf, Hall|]. left.
    rewrite <- Happ. clear. induction body; simpl; congruence.
  - destruct (String.eqb_spec tail nl) as [->|]; [|discriminate].
    intros [= <-]. split; [apply all_no_lf, Hall|]. right. symmetry. exact Happ.
Qed.

Lemma match_shape (s t p : string) :
  _TAG_RE_match s = Some (t, p) ->
  valid_tag t = true /\ mem lf p = false
  /\ (s = t +++ ":" +++ p \/ s = t +++ ":" +++ p +++ nl).
Proof.
  unfold _TAG_RE_match.
  destruct s as [|c s']; [discriminate|].
  destruct (tag_head c) eqn:Hc; [|discriminate].
  pose proof (span_append tag_char s') as Happ.
  pose proof (span_all tag_char s') as Hall.
  destruct (span tag_char s') as [run rest]. simpl in Happ, Hall.
  destruct rest as [|d r]; [discriminate|].
  destruct (Ascii.eqb_spec d ":") as [->|Hd].
  2:{ destruct d as [[] [] [] [] [] [] [] []]; try discriminate.
      contradiction Hd; reflexivity. }
  destruct (tag_rest r) as [g2|] eqn:R; [|discriminate].
  intros [= <- <-]. apply tag_rest_inv in R as [Hno Hr].
  split; [simpl; rewrite Hc, Hall; reflexivity|]. split; [exact Hno|].
  cbn [String.append]. rewrite <- Happ.
  destruct Hr as [-> | ->]; [left | right]; reflexivity.
Qed.

Lemma colon_not_tag_char : tag_char ":" = false.
Proof. reflexivity. Qed.

Lemma append_cons (a : string) (c : ascii) (b : string) :
  (a +++ String c "") +++ b = a +++ String c b.
Proof. induction a; simpl; congruence. Qed.

(** *** Blank strings *)

Lemma all_space_append (a b : string) :
  all_space (a +++ b) = all_space a && all_space b.
Proof.
  induction a as [|c a IH]; simpl; auto. rewrite IH, andb_assoc. reflexivity.
Qed.

Lemma blank_all_space (p : string) : is_blank p = true -> all_space p = true.
Proof.
  unfold is_blank, strip. intros H. apply is_empty_true in H.
  destruct (lstrip_decompose p) as (a & Ea & Ha).
  destruct (rstrip_decompose (lstrip p)) as (c & Ec & Hc).
  rewrite H in Ec. simpl in Ec. rewrite Ea, Ec, all_space_append, Ha, Hc.
  reflexivity.
Qed.

Lemma last_char_append (a b : string) :
  b <> "" -> last_char (a +++ b) = last_char b.
Proof.
  intros Hb. induction a as [|c a IH]; simpl; auto.
  rewrite IH. destruct (last_char b) eqn:L; auto.
  destruct b; [congruence|]. simpl in L. destruct (last_char b); discriminate.
Qed.

Lemma last_char_space (s : string) :
  s <> "" -> all_space s = true ->
  exists ch, last_char s = Some ch /\ is_space ch = true.
Proof.
  induction s as [|c s IH]; [congruence|]. intros _ H. simpl in H.
  apply andb_true_iff in H as [Hc Hs]. simpl.
  destruct s as [|d s].
  - exists c. auto.
  - destruct (IH ltac:(discriminate) Hs) as (ch & -> & Hch). eauto.
Qed.

(** The remainder of a tag line with no white space at its end is blank
    only when it is empty. *)
Lemma remainder_not_blank (line a p : string) :
  strip line = line -> line = a +++ p -> p <> "" -> is_blank p = false.
Proof.
  intros Hs -> Hp. destruct (is_blank p) eqn:B; auto.
  apply blank_all_space in B.
  destruct (last_char_space p Hp B) as (ch & L & Hch).
  assert (last_char (strip (a +++ p)) = Some ch) as L'.
  { rewrite Hs, last_char_append; auto. }
  unfold strip in L'. apply rstrip_last in L'. congruence.
Qed.

End KagiMore.

(** X5.  The tag-and-payload framer emits one frame for each line that
    matches the tag pattern, in order and with the tag of that line, and no
    other frame. *)
Theorem kagi_one_frame_per_tag_line (text : string) :
  map KagiStreamLine.tag (parse_kagi_stream_lines text)
  = flat_map tag_of_line (Str.split Str.lf text).
Proof. apply KagiMore.tags_loop. Qed.

(** X6.  The tag pattern reads back what a tag line is made of: a valid
    tag, a colon and a remainder without line feed match as that tag and
    that remainder; and whatever matches is such a line, with at most one
    line feed after it. *)
Theorem tag_line_round_trip :
  (forall t p : string,
      valid_tag t = true -> Str.mem Str.lf p = false ->
      _TAG_RE_match (t +++ ":" +++ p) = Some (t, p))
  /\ (forall s t p : string,
         _TAG_RE_match s = Some (t, p) ->
         valid_tag t = true /\ Str.mem Str.lf p = false
         /\ (s = t +++ ":" +++ p \/ s = t +++ ":" +++ p +++ Str.nl)).
Proof.
  split.
  - intros t p Ht Hp. destruct t as [|c r]; [discriminate|].
    simpl in Ht. apply andb_true_iff in Ht as [Hc Hr].
    unfold _TAG_RE_match. cbn [String.append]. rewrite Hc.
    change (r +++ ":" +++ p) with (r +++ String ":" p).
    rewrite (KagiMore.span_stop _ _ _ _ Hr KagiMore.colon_not_tag_char).
    rewrite (KagiMore.tag_rest_plain _ Hp). reflexivity.
  - apply KagiMore.match_shape.
Qed.

(** X6, on the tag line of a thread frame. *)
Lemma tag_line_round_trip_witness :
  _TAG_RE_match (q "thread.json:{'id':'t1'}")
  = Some ("thread.json", q "{'id':'t1'}").
Proof.
  destruct tag_line_round_trip as [H _].
  apply (H "thread.json" (q "{'id':'t1'}")); reflexivity.
Defined.

(** X7.  Framing composes at a tag line: when the second of two texts
    begins with a tag line, the frames of the two texts joined by a line
    feed are the frames of the first followed by the frames of the
    second. *)
Theorem kagi_frames_of_concatenation (t1 t2 : string) :
  is_tag_line (hd "" (Str.split Str.lf t2)) = true ->
  parse_kagi_stream_lines (t1 +++ Str.nl +++ t2)
  = parse_kagi_stream_lines t1 ++ parse_kagi_stream_lines t2.
Proof.
  intros H. unfold parse_kagi_stream_lines.
  change (t1 +++ Str.nl +++ t2) with (t1 +++ String Str.lf t2).
  rewrite SSEMore.split_app.
  destruct (Str.split Str.lf t2) as [|x more]; [discriminate|].
  simpl in H. apply (Kagi.loop_app_tag x more (Str.split Str.lf t1) H).
Qed.

(** X7, on a frame of two lines followed by a frame of one line. *)
Lemma kagi_frames_of_concatenation_witness :
  parse_kagi_stream_lines (q "a.html:|<p>|b:1")
  = [KagiStreamLine.mk "a.html" "<p>"; KagiStreamLine.mk "b" "1"].
Proof.
  change (q "a.html:|<p>|b:1") with (q "a.html:|<p>" +++ Str.nl +++ "b:1").
  rewrite kagi_frames_of_concatenation; reflexivity.
Defined.

(** X8.  On one line with no white space at its ends, the framer of a
    text and the parser of a single line agree: the text has the frame that
    the line parses to, and no frame when the line does not parse. *)
Theorem kagi_line_and_lines_agree (line : string) :
  Str.strip line = line ->
  Str.mem Str.lf line = false ->
  parse_kagi_stream_lines line
  = match parse_kagi_stream_line line with
    | Some f => [f]
    | None => []
    end.
Proof.
  intros Hs Hno. unfold parse_kagi_stream_lines, parse_kagi_stream_line.
  rewrite (StrFacts.split_plain _ _ Hno), Hs, Kagi.kagi_loop_cons.
  destruct (_TAG_RE_match line) as [[t p]|] eqn:M.
  - assert (is_tag_line line = true) as T by (unfold is_tag_line; rewrite M; auto).
    rewrite (Kagi.tag_not_blank _ T). cbn [collect]. unfold join_payload.
    destruct (KagiMore.match_shape line t p M) as (_ & _ & [E | E]).
    + destruct p as [|c p]; [reflexivity|].
      cbn [filter].
      rewrite (KagiMore.remainder_not_blank line (t +++ ":") (String c p) Hs).
      * reflexivity.
      * rewrite E. clear.
        induction t as [|x t IHt]; cbn [String.append];
          [reflexivity | f_equal; exact IHt].
      * discriminate.
    + exfalso. rewrite E in Hno. clear - Hno.
      induction t as [|c t IH]; simpl in Hno.
      * induction p as [|d p IHp]; simpl in Hno; [discriminate|].
        apply orb_false_iff in Hno as [_ Hno]. auto.
      * apply orb_false_iff in Hno as [_ Hno]. auto.
  - destruct (is_blank line); reflexivity.
Qed.

(** X8, on a token line. *)
Lemma kagi_line_and_lines_agree_witness :
  parse_kagi_stream_lines (q "tokens.json:{'text':'hi'}")
  = [KagiStreamLine.mk "tokens.json" (q "{'text':'hi'}")].
Proof.
  rewrite kagi_line_and_lines_agree; reflexivity.
Defined.

(** * Further properties of the reducers *)

Section ProofreadMore.

Variable raw_decode : string -> option (json * string).

Lemma has_keys_field (d : json) (ks : list string) (k : string) :
  has_keys d ks = true -> In k ks -> has_field d k = true.
Proof.
  destruct d; simpl; try discriminate.
  intros H Hin. rewrite forallb_forall in H. auto.
Qed.

Lemma getitem_field (d : json) (k : string) (default : json) :
  has_field d k = true -> Py.getitem d k = Ok (field d k default).
Proof.
  destruct d; simpl; try discriminate. apply getitem_has_key.
Qed.

Lemma contains_object (d : json) (k : string) :
  is_object d = true -> Py.contains k d = Ok (has_field d k).
Proof. destruct d; simpl; try discriminate. reflexivity. Qed.

Lemma writing_stats_fields (ws : json) :
  has_keys ws writing_statistics_keys = true ->
  _parse_writing_stats ws = Ok (writing_statistics_fields ws).
Proof.
  intros H. unfold _parse_writing_stats, writing_statistics_fields.
  repeat (rewrite (getitem_field ws _ JNull);
          [cbn [bind]
          | apply (has_keys_field _ _ _ H); unfold writing_statistics_keys;
            simpl; tauto]).
  reflexivity.
Qed.

(** A step of the fold, on a well-formed record. *)
Lemma proofread_step_record (st : proofread_state) (event : SSEEvent.t)
      (d : json) :
  json_loads raw_decode (SSEEvent.data event) = Ok d ->
  proofread_record d = true ->
  proofread_step raw_decode st event
  = Ok (mkProofreadState
          match language_of d with
          | Some l => Some l
          | None => pr_detected_language st
          end
          (pr_text_parts st ++ delta_of d)
          match analysis_of d with
          | Some a => Some a
          | None => pr_analysis st
          end).
Proof.
  intros Hd Hrec. unfold proofread_step. rewrite Hd. cbn [bind].
  unfold proofread_record in Hrec. apply andb_true_iff in Hrec as [Hobj Hrec].
  unfold language_of, delta_of, analysis_of.
  rewrite (contains_object _ _ Hobj). cbn [bind].
  destruct (has_field d "detected_language") eqn:Hdl.
  - rewrite (getitem_field d _ JNull Hdl). cbn [bind].
    rewrite (getitem_field _ "iso" JNull)
      by (apply (has_keys_field _ _ _ Hrec); simpl; tauto).
    cbn [bind].
    rewrite (getitem_field _ "label" JNull)
      by (apply (has_keys_field _ _ _ Hrec); simpl; tauto).
    cbn [bind]. rewrite app_nil_r. destruct st; reflexivity.
  - rewrite (contains_object _ _ Hobj). cbn [bind].
    destruct (has_field d "delta") eqn:Hdelta.
    + rewrite (getitem_field d _ JNull Hdelta). cbn [bind].
      destruct st; reflexivity.
    + rewrite (contains_object _ _ Hobj). cbn [bind].
      destruct (has_field d "analysis") eqn:Ha.
      * apply andb_true_iff in Hrec as [Hrec Hws].
        apply andb_true_iff in Hrec as [Hka Hta].
        rewrite (getitem_field d _ JNull Ha). cbn [bind].
        set (a := field d "analysis" JNull) in *.
        assert (is_object a = true) as Hao
            by (destruct a; simpl in Hka; try discriminate; reflexivity).
        rewrite (getitem_field a "tone_analysis" JNull)
          by (apply (has_keys_field _ _ _ Hka); simpl; tauto).
        cbn [bind].
        rewrite (getitem_field a "writing_statistics" JNull)
          by (apply (has_keys_field _ _ _ Hka); simpl; tauto).
        cbn [bind].
        rewrite (getitem_field a "corrected_text" JNull)
          by (apply (has_keys_field _ _ _ Hka); simpl; tauto).
        cbn [bind].
        rewrite (get_object a "changes" _ Hao). cbn [bind].
        rewrite (getitem_field a "corrections_summary" JNull)
          by (apply (has_keys_field _ _ _ Hka); simpl; tauto).
        cbn [bind].
        rewrite (getitem_field _ "overall_tone" JNull)
          by (apply (has_keys_field _ _ _ Hta); simpl; tauto).
        cbn [bind].
        rewrite (getitem_field _ "description" JNull)
          by (apply (has_keys_field _ _ _ Hta); simpl; tauto).
        cbn [bind].
        rewrite (writing_stats_fields _ Hws). cbn [bind].
        rewrite app_nil_r. destruct st; reflexivity.
      * rewrite app_nil_r. destruct st; reflexivity.
Qed.

Lemma proofread_fold_records (events : list SSEEvent.t) (records : list json) :
  events_decoded_as raw_decode events records ->
  Forall (fun d => proofread_record d = true) records ->
  forall st,
    proofread_fold raw_decode events st
    = Ok (mkProofreadState
            match last_some language_of records with
            | Some l => Some l
            | None => pr_detected_language st
            end
            (pr_text_parts st ++ flat_map delta_of records)
            match last_some analysis_of records with
            | Some a => Some a
            | None => pr_analysis st
            end).
Proof.
  unfold proofread_fold.
  induction 1 as [|event d events records Hd _ IH]; intros Hr st.
  - simpl. rewrite app_nil_r. destruct st; reflexivity.
  - inversion Hr as [|? ? Hrec Hrest]; subst.
    cbn [foldM]. rewrite (proofread_step_record st event d Hd Hrec).
    cbn [bind]. rewrite (IH Hrest). cbn [last_some flat_map].
    cbn [pr_detected_language pr_text_parts pr_analysis].
    rewrite <- app_assoc.
    destruct (last_some language_of records),
             (last_some analysis_of records); reflexivity.
Qed.

Lemma join_strings (sep : string) (l : list string) :
  Py.join sep (map JStr l) = Ok (Str.join sep l).
Proof.
  unfold Py.join. assert (Py.strs (map JStr l) = Ok l) as ->; [|reflexivity].
  induction l as [|s l IH]; simpl; [reflexivity|]. rewrite IH. reflexivity.
Qed.

(** X9.  On a stream whose frames decode to well-formed records, the
    proofread reducer returns the language of the last language frame, the
    deltas of the delta frames concatenated in the order of arrival, and
    the analysis of the last analysis frame; a frame that has the key
    [detected_language] counts as a language frame only, and a frame with
    none of the three keys counts for nothing.  On a stream with no frame
    the result is empty. *)
Theorem proofread_result_of_well_formed_stream
        (text : string) (records : list json) (deltas : list string) :
  events_decoded_as raw_decode (parse_sse_events text) records ->
  Forall (fun d => proofread_record d = true) records ->
  flat_map delta_of records = map JStr deltas ->
  _parse_proofread_response raw_decode text
  = Ok (ProofreadResult.mk (last_some language_of records)
                           (Str.join "" deltas)
                           (last_some analysis_of records))
  /\ (records = [] ->
      _parse_proofread_response raw_decode text
      = Ok (ProofreadResult.mk None "" None)).
Proof.
  intros Hd Hr Hdeltas.
  assert (_parse_proofread_response raw_decode text
          = Ok (ProofreadResult.mk (last_some language_of records)
                                   (Str.join "" deltas)
                                   (last_some analysis_of records))) as H.
  { unfold _parse_proofread_response.
    rewrite (proofread_fold_records _ _ Hd Hr). cbn [bind].
    cbn [pr_detected_language pr_text_parts pr_analysis app].
    rewrite Hdeltas, join_strings. cbn [bind].
    destruct (last_some language_of records),
             (last_some analysis_of records); reflexivity. }
  split; [exact H|]. intros ->. rewrite H.
  destruct deltas; [reflexivity | discriminate].
Qed.

(** X10.  The streaming proofread variant yields the decoded value of each
    frame in order; at the first frame whose data is not JSON it fails with
    the decode error, after the values of the frames before it. *)
Theorem proofread_stream_yields_until_bad_frame
        (pre : list SSEEvent.t) (records : list json) :
  events_decoded_as raw_decode pre records ->
  proofread_stream_events raw_decode pre = (records, None)
  /\ (forall event post x,
         json_loads raw_decode (SSEEvent.data event) = Raise x ->
         proofread_stream_events raw_decode (pre ++ event :: post)
         = (records, Some JSONDecodeError)).
Proof.
  induction 1 as [|ev d events records Hd _ [IH1 IH2]].
  - split; [reflexivity|]. intros event post x H. simpl. rewrite H.
    apply json_loads_raises in H. subst x. reflexivity.
  - split.
    + simpl. rewrite Hd, IH1. reflexivity.
    + intros event post x H. simpl. rewrite Hd, (IH2 event post x H).
      reflexivity.
Qed.

End ProofreadMore.

Lemma events_records_of_decoded (text : string) :
  forallb (fun event =>
             match json_loads JSON.raw_decode (SSEEvent.data event) with
             | Ok _ => true
             | Raise _ => false
             end)
          (parse_sse_events text) = true ->
  events_decoded_as JSON.raw_decode (parse_sse_events text)
                    (events_records_of text).
Proof.
  unfold events_records_of, events_decoded_as.
  induction (parse_sse_events text) as [|event events IH]; simpl.
  - constructor.
  - intros H. apply andb_true_iff in H as [H1 H2].
    constructor; auto.
    destruct (json_loads JSON.raw_decode (SSEEvent.data event));
      [reflexivity | discriminate].
Qed.

(** X9, on a language frame, the deltas [Hel] and [lo], an analysis frame
    and a last frame with none of the three keys. *)
Lemma proofread_result_of_well_formed_stream_witness :
  exists r a,
    _parse_proofread_response JSON.raw_decode proofread_stream_example = Ok r
    /\ ProofreadResult.text r = "Hello"
    /\ ProofreadResult.detected_language r
       = Some (DetectedLanguage.mk (JStr "en") (JStr "English"))
    /\ ProofreadResult.analysis r = Some a
    /\ ProofreadAnalysis.corrected_text a = JStr "Hello".
Proof.
  destruct (proofread_result_of_well_formed_stream JSON.raw_decode
              proofread_stream_example
              (events_records_of proofread_stream_example) ["Hel"; "lo"])
    as [H _].
  - apply events_records_of_decoded. vm_compute. reflexivity.
  - apply Forall_forall, forallb_forall. vm_compute. reflexivity.
  - vm_compute. reflexivity.
  - pose (l := last_some language_of (events_records_of proofread_stream_example)).
    pose (a := last_some analysis_of (events_records_of proofread_stream_example)).
    fold l a in H. vm_compute in l, a.
    eexists. eexists. split; [exact H|]. subst l a. cbn.
    repeat split; reflexivity.
Defined.

(** X10, on a good frame followed by a frame that is not JSON. *)
Lemma proofread_stream_yields_until_bad_frame_witness :
  proofread_stream JSON.raw_decode
    (Response.mk 200 (q "data: {'delta':'Hel'}||data: oops||data: {'delta':'lo'}||"))
  = ([JObj [("delta", JStr "Hel")]], Some JSONDecodeError).
Proof.
  unfold proofread_stream. cbn [Response.status_code Response.text Z.eqb Pos.eqb negb].
  assert (parse_sse_events
            (q "data: {'delta':'Hel'}||data: oops||data: {'delta':'lo'}||")
          = [SSEEvent.mk None (q "{'delta':'Hel'}") None]
              ++ SSEEvent.mk None "oops" None
              :: [SSEEvent.mk None (q "{'delta':'lo'}") None]) as ->
      by (vm_compute; reflexivity).
  destruct (proofread_stream_yields_until_bad_frame JSON.raw_decode
              [SSEEvent.mk None (q "{'delta':'Hel'}") None]
              [JObj [("delta", JStr "Hel")]]) as [_ H].
  - repeat constructor.
  - apply (H _ _ JSONDecodeError). vm_compute. reflexivity.
Defined.

Section SummarizeMore.

Variable raw_decode : string -> option (json * string).

Lemma get_ok (d : json) (k : string) (default x : json) :
  Py.get d k default = Ok x -> x = field d k default.
Proof. destruct d; simpl; congruence. Qed.

Ltac get_ok_step :=
  match goal with
  | |- bind (Py.get ?d ?k ?v) _ = Ok _ -> _ =>
      let x := fresh "x" in let G := fresh "G" in
      destruct (Py.get d k v) as [x|] eqn:G; cbn [bind]; [|discriminate];
      apply get_ok in G; subst x
  end.

Lemma summary_of_ok (d : json) (r : SummaryResult.t) :
  summary_of d = Ok r -> r = summary_fields d.
Proof.
  unfold summary_of. repeat get_ok_step. intros [= <-]. reflexivity.
Qed.

Lemma summary_update_ok (line : KagiStreamLine.t) (u : SummaryUpdate.t) :
  summary_update_of raw_decode line = Ok u ->
  exists d,
    json_loads raw_decode (KagiStreamLine.payload line) = Ok d
    /\ SummaryUpdate.output_text u
       = SummaryResult.output_text (summary_fields d)
    /\ SummaryUpdate.status u = SummaryResult.status (summary_fields d)
    /\ SummaryUpdate.word_stats u = SummaryResult.word_stats (summary_fields d).
Proof.
  unfold summary_update_of.
  destruct (json_loads raw_decode (KagiStreamLine.payload line)) as [d|];
    cbn [bind]; [|discriminate].
  repeat get_ok_step. intros [= <-]. exists d. repeat split; reflexivity.
Qed.

Lemma find_final_chosen (lines : list KagiStreamLine.t) (d : json) :
  find_final raw_decode lines = Ok (Some d) ->
  exists line,
    In line lines /\ json_loads raw_decode (KagiStreamLine.payload line) = Ok d.
Proof.
  induction lines as [|l lines IH]; simpl; [discriminate|].
  destruct (json_loads raw_decode (KagiStreamLine.payload l)) as [x|] eqn:L;
    cbn [bind]; [|discriminate].
  destruct (Py.get x "type" JNull) as [ty|]; cbn [bind]; [|discriminate].
  destruct (Py.is_str ty "final").
  - intros [= <-]. exists l. auto.
  - intros H. destruct (IH H) as (line & Hin & Hl). exists line. auto.
Qed.

Lemma find_completed_chosen (lines : list KagiStreamLine.t) (d : json) :
  find_completed raw_decode lines = Ok (Some d) ->
  exists line,
    In line lines /\ json_loads raw_decode (KagiStreamLine.payload line) = Ok d.
Proof.
  induction lines as [|l lines IH]; simpl; [discriminate|].
  destruct (json_loads raw_decode (KagiStreamLine.payload l)) as [x|] eqn:L;
    cbn [bind]; [|discriminate].
  destruct (Py.get x "output_data" (JObj [])) as [od|]; cbn [bind];
    [|discriminate].
  destruct (Py.get od "status" JNull) as [s|]; cbn [bind]; [|discriminate].
  destruct (Py.is_str s "completed").
  - intros [= <-]. exists l. auto.
  - intros H. destruct (IH H) as (line & Hin & Hl). exists line. auto.
Qed.

Lemma summary_lines_chosen (lines : list KagiStreamLine.t)
      (r : SummaryResult.t) :
  summary_lines raw_decode lines = Ok r ->
  exists line d,
    In line lines
    /\ json_loads raw_decode (KagiStreamLine.payload line) = Ok d
    /\ summary_of d = Ok r.
Proof.
  unfold summary_lines.
  destruct (find_final raw_decode lines) as [[d|]|] eqn:F; cbn [bind];
    [| |discriminate].
  - intros H. destruct (find_final_chosen _ _ F) as (line & Hin & Hl).
    exists line, d. auto.
  - destruct (find_completed raw_decode (rev lines)) as [[d|]|] eqn:C;
      cbn [bind]; [| |discriminate].
    + intros H. destruct (find_completed_chosen _ _ C) as (line & Hin & Hl).
      exists line, d. rewrite <- in_rev in Hin. auto.
    + unfold last_line. destruct (rev lines) as [|line ls] eqn:E; cbn [bind];
        [discriminate|].
      destruct (json_loads raw_decode (KagiStreamLine.payload line)) as [d|]
        eqn:L; cbn [bind]; [|discriminate].
      intros H. exists line, d. repeat split; auto.
      apply in_rev. rewrite E. left. reflexivity.
Qed.

Lemma stream_lines_all (lines : list KagiStreamLine.t)
      (us : list SummaryUpdate.t) :
  summarize_stream_lines raw_decode lines = (us, None) ->
  List.length us = List.length lines
  /\ forall line, In line lines ->
                  exists u, In u us /\ summary_update_of raw_decode line = Ok u.
Proof.
  revert us. induction lines as [|l lines IH]; intros us; simpl.
  - intros [= <-]. split; [reflexivity|]. intros line [].
  - destruct (summary_update_of raw_decode l) as [u|] eqn:U; [|discriminate].
    unfold yield.
    destruct (summarize_stream_lines raw_decode lines) as [ys e] eqn:S.
    simpl. intros [= <- ->]. destruct (IH ys eq_refl) as [Hlen Hall].
    split; [simpl; congruence|].
    intros line [<- | Hin].
    + exists u. split; [left; reflexivity | exact U].
    + destruct (Hall line Hin) as (u' & Hu & Hl). exists u'.
      split; [right; exact Hu | exact Hl].
Qed.

Lemma stream_lines_bad (lines : list KagiStreamLine.t)
      (bad : KagiStreamLine.t) (x : exn) :
  In bad lines ->
  json_loads raw_decode (KagiStreamLine.payload bad) = Raise x ->
  snd (summarize_stream_lines raw_decode lines) <> None.
Proof.
  intros Hin Hbad. induction lines as [|l lines IH]; [destruct Hin|].
  simpl. destruct (summary_update_of raw_decode l) as [u|] eqn:U;
    [|discriminate].
  destruct Hin as [<- | Hin].
  - unfold summary_update_of in U. rewrite Hbad in U. discriminate.
  - simpl. apply IH, Hin.
Qed.

(** X11.  Whenever both entry points of the summarizer succeed on a
    response, the streaming one yields one update for each frame of the
    stream, and the result of the non-streaming one has the output text,
    the status and the word statistics of one of these updates.  On a
    response with status 200 and no frame the two differ: the streaming one
    ends without a value and without an error, the other raises
    [IndexError]. *)
Theorem summarize_agrees_with_an_update
        (resp : Response.t) (r : SummaryResult.t)
        (us : list SummaryUpdate.t) :
  (summarize raw_decode resp = Ok r ->
   summarize_stream raw_decode resp = (us, None) ->
   List.length us
   = List.length (parse_kagi_stream_lines (Response.text resp))
   /\ exists u,
       In u us
       /\ SummaryUpdate.output_text u = SummaryResult.output_text r
       /\ SummaryUpdate.status u = SummaryResult.status r
       /\ SummaryUpdate.word_stats u = SummaryResult.word_stats r)
  /\ (Response.status_code resp = 200%Z ->
      parse_kagi_stream_lines (Response.text resp) = [] ->
      summarize_stream raw_decode resp = ([], None)
      /\ summarize raw_decode resp = Raise IndexError).
Proof.
  split.
  - unfold summarize, summarize_stream, _parse_summary_response.
    destruct (negb (Response.status_code resp =? 200)%Z); [discriminate|].
    intros Hr Hs.
    destruct (summary_lines_chosen _ _ Hr) as (line & d & Hin & Hl & Hd).
    destruct (stream_lines_all _ _ Hs) as [Hlen Hall].
    split; [exact Hlen|].
    destruct (Hall line Hin) as (u & Hu & Hul).
    destruct (summary_update_ok _ _ Hul) as (d' & Hl' & H1 & H2 & H3).
    assert (d' = d) as -> by congruence.
    apply summary_of_ok in Hd. subst r. exists u. auto.
  - intros Hc He. unfold summarize, summarize_stream, _parse_summary_response.
    rewrite Hc, He. split; reflexivity.
Qed.

(** X12.  The non-streaming summarize reducer stops reading at the first
    frame whose record has type [final]: its result is built from that
    record whatever the frames after it hold, decodable or not.  The
    streaming entry point reads every frame, and ends in an error when a
    frame after the final one is not JSON. *)
Theorem summary_ignores_frames_after_final
        (text : string) (pre post : list KagiStreamLine.t)
        (line : KagiStreamLine.t) (d : json) :
  parse_kagi_stream_lines text = pre ++ line :: post ->
  find_final raw_decode pre = Ok None ->
  json_loads raw_decode (KagiStreamLine.payload line) = Ok d ->
  is_object d = true ->
  is_final d = true ->
  _parse_summary_response raw_decode text = summary_of d
  /\ (forall bad x,
         In bad post ->
         json_loads raw_decode (KagiStreamLine.payload bad) = Raise x ->
         snd (summarize_stream raw_decode (Response.mk 200 text)) <> None).
Proof.
  intros E Hpre Hl Hobj Hfin. split.
  - unfold _parse_summary_response, summary_lines. rewrite E.
    assert (find_final raw_decode (pre ++ line :: post) = Ok (Some d)) as ->;
      [|reflexivity].
    clear E. induction pre as [|l pre IH]; simpl in *.
    + rewrite Hl. cbn [bind]. rewrite (get_object _ _ _ Hobj). cbn [bind].
      unfold is_final in Hfin. rewrite Hfin. reflexivity.
    + destruct (json_loads raw_decode (KagiStreamLine.payload l)); simpl in *;
        [|discriminate].
      destruct (Py.get a "type" JNull); simpl in *; [|discriminate].
      destruct (Py.is_str a0 "final"); [discriminate | auto].
  - intros bad x Hin Hbad. unfold summarize_stream.
    cbn [Response.status_code Response.text Z.eqb Pos.eqb negb]. rewrite E.
    apply (stream_lines_bad _ bad x); [|exact Hbad].
    apply in_or_app. right. right. exact Hin.
Qed.

End SummarizeMore.

(** X11, on the stream of two updates and a final frame. *)
Lemma summarize_agrees_with_an_update_witness :
  exists r us u,
    summarize JSON.raw_decode (Response.mk 200 summary_stream_example) = Ok r
    /\ summarize_stream JSON.raw_decode (Response.mk 200 summary_stream_example)
       = (us, None)
    /\ List.length us = 3
    /\ In u us
    /\ SummaryUpdate.output_text u = SummaryResult.output_text r.
Proof.
  pose (r := summarize JSON.raw_decode (Response.mk 200 summary_stream_example)).
  pose (s := summarize_stream JSON.raw_decode
               (Response.mk 200 summary_stream_example)).
  assert (summarize JSON.raw_decode (Response.mk 200 summary_stream_example) = r)
    as Hr by reflexivity.
  assert (summarize_stream JSON.raw_decode
            (Response.mk 200 summary_stream_example) = s) as Hs by reflexivity.
  vm_compute in r, s.
  match eval cbv delta [r] in r with
  | Ok ?x =>
      match eval cbv delta [s] in s with
      | (?l, None) =>
          destruct (summarize_agrees_with_an_update JSON.raw_decode
                      (Response.mk 200 summary_stream_example) x l)
            as [H _];
          destruct (H Hr Hs) as (Hlen & u & Hin & Ht & _);
          exists x, l, u
      end
  end.
  split; [exact Hr|]. split; [exact Hs|].
  split; [reflexivity|]. split; [exact Hin | exact Ht].
Defined.

(** X12, on a final frame followed by a frame that is not JSON. *)
Lemma summary_ignores_frames_after_final_witness :
  (exists r,
      _parse_summary_response JSON.raw_decode
        (q "update:{'type':'update'}|final:{'output_text':'done','type':'final'}|update:oops")
      = Ok r
      /\ SummaryResult.output_text r = JStr "done")
  /\ snd (summarize_stream JSON.raw_decode
            (Response.mk 200
               (q "update:{'type':'update'}|final:{'output_text':'done','type':'final'}|update:oops")))
     <> None.
Proof.
  destruct (summary_ignores_frames_after_final JSON.raw_decode
              (q "update:{'type':'update'}|final:{'output_text':'done','type':'final'}|update:oops")
              [KagiStreamLine.mk "update" (q "{'type':'update'}")]
              [KagiStreamLine.mk "update" "oops"]
              (KagiStreamLine.mk "final" (q "{'output_text':'done','type':'final'}"))
              (JObj [("output_text", JStr "done"); ("type", JStr "final")]))
    as [H1 H2]; try (vm_compute; reflexivity).
  split.
  - rewrite H1. eexists. split; [vm_compute; reflexivity | reflexivity].
  - apply (H2 (KagiStreamLine.mk "update" "oops") JSONDecodeError).
    + left. reflexivity.
    + vm_compute. reflexivity.
Defined.

Section AssistantMore.

Variable raw_decode : string -> option (json * string).

Lemma step_skipped (prev_text : json) (raw_line : string) :
  carries_text raw_decode raw_line = false ->
  prompt_stream_step raw_decode prev_text raw_line = Ok (prev_text, None).
Proof.
  unfold carries_text. rewrite step_token_text.
  destruct (token_text raw_decode raw_line) as [[t|]|]; try discriminate.
  reflexivity.
Qed.

Lemma lines_skipped (raw_lines : list string) (prev_text : json) :
  prompt_stream_lines raw_decode prev_text
    (filter (carries_text raw_decode) raw_lines)
  = prompt_stream_lines raw_decode prev_text raw_lines.
Proof.
  revert prev_text.
  induction raw_lines as [|l lines IH]; intros prev; [reflexivity|].
  cbn [filter]. destruct (carries_text raw_decode l) eqn:C.
  - cbn [prompt_stream_lines].
    destruct (prompt_stream_step raw_decode prev l) as [[p [y|]]|];
      rewrite ?IH; reflexivity.
  - cbn [prompt_stream_lines]. rewrite (step_skipped _ _ C). apply IH.
Qed.

(** X13.  The streaming assistant variant takes nothing from a line that
    is not a frame, from a frame whose tag is not [tokens.json], or from a
    [tokens.json] frame whose payload does not start with a JSON value: the
    stream is what it would be without these lines. *)
Theorem prompt_stream_skips_other_lines
        (resp : Response.t) (raw_lines : list string) :
  prompt_stream raw_decode resp (filter (carries_text raw_decode) raw_lines)
  = prompt_stream raw_decode resp raw_lines
  /\ (forall l,
         In l raw_lines -> carries_text raw_decode l = false ->
         parse_kagi_stream_line l = None
         \/ (exists parsed,
                parse_kagi_stream_line l = Some parsed
                /\ (KagiStreamLine.tag parsed <> "tokens.json"
                    \/ _parse_json raw_decode (KagiStreamLine.payload parsed)
                       = Raise JSONDecodeError))).
Proof.
  split.
  - unfold prompt_stream.
    destruct (negb (Response.status_code resp =? 200)%Z); [reflexivity|].
    apply lines_skipped.
  - intros l _. unfold carries_text, token_text.
    destruct (parse_kagi_stream_line l) as [parsed|]; [|auto].
    intros H. right. exists parsed. split; [reflexivity|].
    destruct (String.eqb_spec (KagiStreamLine.tag parsed) "tokens.json")
      as [E|E]; [|auto].
    cbn [negb] in H. right.
    destruct (_parse_json raw_decode (KagiStreamLine.payload parsed))
      as [data|e] eqn:P.
    + destruct (Py.get data "text" (JStr "")); discriminate.
    + apply parse_json_raises in P. subst e. reflexivity.
Qed.




Lemma getitem_missing (members : list (string * json)) (k : string) :
  Py.has_key members k = false ->
  Py.getitem (JObj members) k = Raise (KeyError k).
Proof.
  unfold Py.has_key, Py.getitem.
  destruct (Py.lookup members k); [discriminate | reflexivity].
Qed.

Lemma getitem_object (members : list (string * json)) (k : string) :
  Py.getitem (JObj members) k
  = if Py.has_key members k then Ok (field (JObj members) k JNull)
    else Raise (KeyError k).
Proof.
  destruct (Py.has_key members k) eqn:H.
  - apply getitem_has_key, H.
  - apply getitem_missing, H.
Qed.

Lemma step_missing_key (st : assistant_state) (line : KagiStreamLine.t)
      (d : json) (k : string) :
  _parse_json raw_decode (KagiStreamLine.payload line) = Ok d ->
  is_object d = true ->
  (KagiStreamLine.tag line = "thread.json"
   /\ first_missing d ["id"; "title"; "created_at"] = Some k)
  \/ (KagiStreamLine.tag line = "new_message.json"
      /\ first_missing d ["id"; "created_at"; "state"; "prompt"] = Some k) ->
  assistant_step raw_decode st line = Raise (KeyError k).
Proof.
  intros P Hobj H. destruct d as [| | | | | |m]; try discriminate.
  unfold assistant_step, first_missing in *. cbn [find has_field] in H.
  destruct H as [[-> H] | [-> H]]; cbn [String.eqb Ascii.eqb Bool.eqb];
    rewrite P; cbn [bind]; rewrite !getitem_object.
  - destruct (Py.has_key m "id"); cbn [negb bind] in *; [|congruence].
    destruct (Py.has_key m "title"); cbn [negb bind] in *; [|congruence].
    destruct (Py.has_key m "created_at"); cbn [negb bind] in *;
      [discriminate | congruence].
  - destruct (Py.has_key m "id"); cbn [negb bind] in *; [|congruence].
    destruct (Py.has_key m "created_at"); cbn [negb bind] in *; [|congruence].
    destruct (Py.has_key m "state"); cbn [negb bind] in *; [|congruence].
    destruct (Py.has_key m "prompt"); cbn [negb bind] in *;
      [discriminate | congruence].
Qed.

(** X15.  When the frames before it fold, a [thread.json] frame whose
    object lacks one of the keys [id], [title], [created_at], or a
    [new_message.json] frame whose object lacks one of [id], [created_at],
    [state], [prompt], makes the assistant reducer raise the [KeyError] of
    the first missing key in that order, whatever the frames after it
    are. *)
Theorem assistant_missing_key_raises_key_error
        (text : string) (pre post : list KagiStreamLine.t)
        (line : KagiStreamLine.t) (st : assistant_state) (d : json)
        (k : string) :
  parse_kagi_stream_lines text = pre ++ line :: post ->
  assistant_fold raw_decode pre (mkAssistantState None None) = Ok st ->
  _parse_json raw_decode (KagiStreamLine.payload line) = Ok d ->
  is_object d = true ->
  (KagiStreamLine.tag line = "thread.json"
   /\ first_missing d ["id"; "title"; "created_at"] = Some k)
  \/ (KagiStreamLine.tag line = "new_message.json"
      /\ first_missing d ["id"; "created_at"; "state"; "prompt"] = Some k) ->
  _parse_assistant_response raw_decode text = Raise (KeyError k).
Proof.
  intros E Hpre P Hobj H.
  unfold _parse_assistant_response, assistant_fold in *.
  rewrite E, foldM_app, Hpre. cbn [bind foldM].
  rewrite (step_missing_key st line d k P Hobj H). reflexivity.
Qed.

End AssistantMore.

(** X15, on a message frame that has neither [state] nor [prompt], after
    a thread frame and before a complete message frame. *)
Lemma assistant_missing_key_raises_key_error_witness :
  _parse_assistant_response JSON.raw_decode
    (q ("thread.json:{'id':'t1','title':'T','created_at':'now'}|"
        +++ "new_message.json:{'id':'m1','created_at':'now'}|"
        +++ "new_message.json:{'id':'m1','created_at':'now','state':'done','prompt':'hi'}|"))
  = Raise (KeyError "state").
Proof.
  eapply (assistant_missing_key_raises_key_error JSON.raw_decode _
            [KagiStreamLine.mk "thread.json"
               (q "{'id':'t1','title':'T','created_at':'now'}")]
            [KagiStreamLine.mk "new_message.json"
               (q "{'id':'m1','created_at':'now','state':'done','prompt':'hi'}")]
            (KagiStreamLine.mk "new_message.json"
               (q "{'id':'m1','created_at':'now'}"))).
  - vm_compute. reflexivity.
  - vm_compute. reflexivity.
  - vm_compute. reflexivity.
  - reflexivity.
  - right. split; reflexivity.
Defined.

Section SearchMore.

Variable raw_decode : string -> option (json * string).
Variable _parse_search_items : string -> list SearchItem.t.

Local Notation item_step := (search_item_step raw_decode).
Local Notation parse := (_parse_search_response raw_decode _parse_search_items).

(** The reducer folds the items of the frames, whatever frames they come
    in. *)
Lemma search_fold_items (events : list SSEEvent.t) (st : search_state) :
  search_fold raw_decode events st
  = foldM item_step (flat_map (items_of raw_decode) events) st.
Proof.
  unfold search_fold. revert st.
  induction events as [|event events IH]; intros st; [reflexivity|].
  cbn [foldM flat_map]. rewrite foldM_app.
  unfold search_step at 1, items_of at 1.
  destruct (Str.is_empty (SSEEvent.data event) || is_blank (SSEEvent.data event)).
  - cbn [foldM bind]. apply IH.
  - destruct (json_loads raw_decode (SSEEvent.data event)) as [[| | | | |l|]|];
      cbn [foldM bind]; try apply IH.
    destruct (foldM item_step l st); cbn [bind]; [apply IH | reflexivity].
Qed.


Lemma domain_info_ok (d : json) (di : DomainInfo.t) :
  domain_info_of d = Ok di -> di = domain_info_fields d.
Proof.
  unfold domain_info_of.
  repeat match goal with
         | |- bind (Py.get ?d ?k ?v) _ = Ok _ -> _ =>
             let x := fresh "x" in let G := fresh "G" in
             destruct (Py.get d k v) as [x|] eqn:G; cbn [bind]; [|discriminate];
             apply get_ok in G; subst x
         end.
  intros [= <-]. reflexivity.
Qed.

Lemma domains_fold_ok (ds : list json) (st st' : search_state) :
  foldM (fun st d =>
           di <- domain_info_of d ;;
           Ok (mkSearchState (search_html_parts st) (ss_info st)
                 (ss_domain_infos st ++ [di])))
        ds st = Ok st' ->
  search_html_parts st' = search_html_parts st
  /\ ss_info st' = ss_info st
  /\ ss_domain_infos st' = ss_domain_infos st ++ map domain_info_fields ds.
Proof.
  revert st. induction ds as [|d ds IH]; intros st; cbn [foldM map].
  - intros [= <-]. rewrite app_nil_r. auto.
  - destruct (domain_info_of d) as [di|] eqn:D; cbn [bind]; [|discriminate].
    apply domain_info_ok in D. subst di. intros H.
    destruct (IH _ H) as (H1 & H2 & H3).
    cbn [search_html_parts ss_info ss_domain_infos] in *.
    rewrite H3, <- app_assoc. auto.
Qed.

Lemma is_str_exclusive (v : json) (s t : string) :
  Py.is_str v s = true -> s <> t -> Py.is_str v t = false.
Proof.
  destruct v; cbn; try discriminate.
  intros H Hne. apply String.eqb_eq in H. subst.
  apply String.eqb_neq. exact Hne.
Qed.

Lemma item_step_ok (st st' : search_state) (item : json) :
  item_step st item = Ok st' ->
  search_html_parts st' = search_html_parts st ++ html_of item
  /\ ss_info st'
     = match info_of item with
       | Some i => Some i
       | None => ss_info st
       end
  /\ ss_domain_infos st'
     = ss_domain_infos st ++ domains_of raw_decode item.
Proof.
  unfold search_item_step, html_of, info_of, domains_of.
  destruct (Py.get item "tag" (JStr "")) as [tag|] eqn:G1; cbn [bind];
    [|discriminate].
  apply get_ok in G1. subst tag.
  destruct (Py.get item "payload" JNull) as [payload|] eqn:G2; cbn [bind];
    [|discriminate].
  apply get_ok in G2. subst payload.
  set (tag := field item "tag" (JStr "")).
  set (payload := field item "payload" JNull).
  unfold is_object.
  destruct (Py.is_str tag "search") eqn:T1.
  { rewrite (is_str_exclusive _ _ "search.info" T1) by discriminate.
    rewrite (is_str_exclusive _ _ "domain_info" T1) by discriminate.
    cbn [andb]. rewrite !app_nil_r.
    destruct (Py.isinstance_dict payload) eqn:D.
    - rewrite (get_object _ _ _ D). cbn [bind]. intros [= <-]. cbn. auto.
    - destruct (Py.isinstance_str payload); intros [= <-]; cbn;
        rewrite ?app_nil_r; auto. }
  destruct (Py.is_str tag "search.info") eqn:T2.
  { rewrite (is_str_exclusive _ _ "domain_info" T2) by discriminate.
    cbn [andb]. rewrite !app_nil_r.
    destruct (Py.isinstance_dict payload) eqn:D.
    - repeat (rewrite (get_object _ _ _ D); cbn [bind]).
      intros [= <-]. cbn. auto.
    - intros [= <-]. auto. }
  cbn [andb]. rewrite app_nil_r.
  destruct (Py.is_str tag "domain_info") eqn:T3.
  2:{ intros [= <-]. rewrite app_nil_r. auto. }
  assert (forall raw,
             (if Py.isinstance_dict raw
              then data <- Py.get raw "data" (JArr []) ;;
                   ds <- Py.iter data ;;
                   foldM (fun st d =>
                            di <- domain_info_of d ;;
                            Ok (mkSearchState (search_html_parts st) (ss_info st)
                                  (ss_domain_infos st ++ [di])))
                         ds st
              else Ok st) = Ok st' ->
             search_html_parts st' = search_html_parts st
             /\ ss_info st' = ss_info st
             /\ ss_domain_infos st'
                = ss_domain_infos st
                  ++ (if Py.isinstance_dict raw
                      then match Py.iter (field raw "data" (JArr [])) with
                           | Ok ds => map domain_info_fields ds
                           | Raise _ => []
                           end
                      else [])) as Hraw.
  { intros raw. destruct (Py.isinstance_dict raw) eqn:D.
    - rewrite (get_object _ _ _ D). cbn [bind].
      destruct (Py.iter (field raw "data" (JArr []))) as [ds|]; cbn [bind];
        [|discriminate].
      apply domains_fold_ok.
    - intros [= <-]. rewrite app_nil_r. auto. }
  destruct payload as [| | | |s| |];
    try (cbn [bind]; intros H; apply Hraw in H; exact H).
  destruct (json_loads raw_decode s) as [v|]; cbn [bind]; [|discriminate].
  intros H. apply Hraw in H. exact H.
Qed.

Lemma items_fold_ok (items : list json) (st st' : search_state) :
  foldM item_step items st = Ok st' ->
  search_html_parts st' = search_html_parts st ++ flat_map html_of items
  /\ ss_info st'
     = match last_some info_of items with
       | Some i => Some i
       | None => ss_info st
       end
  /\ ss_domain_infos st'
     = ss_domain_infos st ++ flat_map (domains_of raw_decode) items.
Proof.
  revert st. induction items as [|item items IH]; intros st;
    cbn [foldM flat_map last_some].
  - intros [= <-]. rewrite !app_nil_r. auto.
  - destruct (item_step st item) as [st1|] eqn:S; cbn [bind]; [|discriminate].
    intros H. destruct (item_step_ok _ _ _ S) as (H1 & H2 & H3).
    destruct (IH _ H) as (K1 & K2 & K3).
    rewrite K1, K2, K3, H1, H2, H3, <- !app_assoc.
    repeat split. destruct (last_some info_of items); reflexivity.
Qed.

Lemma strs_ok (parts : list json) (ss : list string) :
  Py.strs parts = Ok ss -> parts = map JStr ss.
Proof.
  revert ss. induction parts as [|p parts IH]; intros ss; cbn [Py.strs].
  - intros [= <-]. reflexivity.
  - destruct p; try discriminate.
    destruct (Py.strs parts) as [l|]; cbn [bind]; [|discriminate].
    intros [= <-]. cbn. f_equal. apply IH. reflexivity.
Qed.

(** X17.  Whenever the search reducer returns, its result is read off the
    items of the stream: the HTML is the fragments of the [search] items,
    which are strings, joined by line feeds in the order of arrival; the
    cursor is that of the last [search.info] item whose payload is an
    object, or the default cursor with [next_batch = -1]; the domains are
    those of the [domain_info] items in order; and the result items are
    extracted from the joined HTML. *)
Theorem search_result_of_items (text : string) (r : SearchResult.t) :
  parse text = Ok r ->
  (exists parts,
      flat_map html_of
               (flat_map (items_of raw_decode) (parse_sse_events text))
      = map JStr parts
      /\ SearchResult.search_html r = Str.join Str.nl parts)
  /\ SearchResult.info r
     = match last_some info_of
               (flat_map (items_of raw_decode) (parse_sse_events text)) with
       | Some i => i
       | None => default_info
       end
  /\ SearchResult.domain_infos r
     = flat_map (domains_of raw_decode)
                (flat_map (items_of raw_decode) (parse_sse_events text))
  /\ SearchResult.items r = _parse_search_items (SearchResult.search_html r).
Proof.
  unfold _parse_search_response. rewrite search_fold_items.
  destruct (foldM item_step _ _) as [st|] eqn:F; cbn [bind]; [|discriminate].
  destruct (items_fold_ok _ _ _ F) as (H1 & H2 & H3).
  cbn [search_html_parts ss_info ss_domain_infos app] in *.
  unfold Py.join.
  destruct (Py.strs (search_html_parts st)) as [ss|] eqn:S; cbn [bind];
    [|discriminate].
  intros [= <-]. cbn [SearchResult.search_html SearchResult.info
                      SearchResult.items SearchResult.domain_infos].
  apply strs_ok in S. split; [|split; [|split]].
  - exists ss. rewrite <- H1. auto.
  - rewrite H2. destruct (last_some info_of _); reflexivity.
  - exact H3.
  - reflexivity.
Qed.

(** X18.  A [domain_info] item whose payload is a string that is not JSON
    makes the search reducer fail with the JSON decode error, when the
    items before it fold: only the data of a frame is decoded under the
    handler, not the payload of an item. *)
Theorem search_fails_on_undecodable_domain_info
        (text : string) (pre post : list json) (item : json)
        (st : search_state) (s : string) (x : exn) :
  flat_map (items_of raw_decode) (parse_sse_events text)
  = pre ++ item :: post ->
  foldM item_step pre (mkSearchState [] None []) = Ok st ->
  is_object item = true ->
  Py.is_str (field item "tag" (JStr "")) "domain_info" = true ->
  field item "payload" JNull = JStr s ->
  json_loads raw_decode s = Raise x ->
  parse text = Raise JSONDecodeError.
Proof.
  intros E Hpre Hobj Htag Hp Hs. unfold _parse_search_response.
  rewrite search_fold_items, E, foldM_app, Hpre. cbn [bind foldM].
  unfold search_item_step at 1.
  rewrite !(get_object _ _ _ Hobj). cbn [bind]. rewrite Hp.
  destruct (Py.is_str (field item "tag" (JStr "")) "search") eqn:T1.
  { rewrite (is_str_exclusive _ _ "domain_info" T1) in Htag by discriminate.
    discriminate. }
  destruct (Py.is_str (field item "tag" (JStr "")) "search.info") eqn:T2.
  { rewrite (is_str_exclusive _ _ "domain_info" T2) in Htag by discriminate.
    discriminate. }
  rewrite Htag, Hs. cbn [bind]. apply json_loads_raises in Hs. subst x.
  reflexivity.
Qed.

End SearchMore.


(** X17, on the first page of the unit tests. *)
Lemma search_result_of_items_witness :
  exists r,
    _parse_search_response JSON.raw_decode no_items search_page1_example = Ok r
    /\ SearchResult.info r
       = match last_some info_of
                 (flat_map (items_of JSON.raw_decode)
                           (parse_sse_events search_page1_example)) with
         | Some i => i
         | None => default_info
         end
    /\ SearchInfo.next_batch (SearchResult.info r) = JInt 2.
Proof.
  pose (p := _parse_search_response JSON.raw_decode no_items
               search_page1_example).
  assert (_parse_search_response JSON.raw_decode no_items search_page1_example
          = p) as Hp by reflexivity.
  vm_compute in p.
  match eval cbv delta [p] in p with
  | Ok ?x =>
      destruct (search_result_of_items JSON.raw_decode no_items
                  search_page1_example x Hp) as (_ & Hi & _);
      exists x
  end.
  split; [exact Hp|]. split; [exact Hi | reflexivity].
Defined.

(** X18, on a page whose [domain_info] payload is not JSON. *)
Lemma search_fails_on_undecodable_domain_info_witness :
  _parse_search_response JSON.raw_decode no_items search_bad_domain_example
  = Raise JSONDecodeError.
Proof.
  eapply (search_fails_on_undecodable_domain_info JSON.raw_decode no_items
            search_bad_domain_example
            [JObj [("tag", JStr "search"); ("payload", JStr "<p>1</p>")]]
            []
            (JObj [("tag", JStr "domain_info"); ("payload", JStr "oops")])
            _ "oops" JSONDecodeError).
  - vm_compute. reflexivity.
  - vm_compute. reflexivity.
  - reflexivity.
  - reflexivity.
  - reflexivity.
  - vm_compute. reflexivity.
Defined.

Section SearchAllMore.

Variable fetch : option json -> result SearchResult.t.

Lemma last_cons_default {A : Type} (l : list A) (a d : A) :
  last (a :: l) d = last l a.
Proof.
  revert a d. induction l as [|b l IH]; intros a d; [reflexivity|].
  change (last (a :: b :: l) d) with (last (b :: l) d).
  rewrite !IH. reflexivity.
Qed.

Lemma run_loop_linked (fuel : nat) (r : SearchResult.t)
      (rs : list SearchResult.t) (e : option exn) :
  search_all_run fetch fuel (SearchAllLoop r) = Some (rs, e) ->
  linked fetch r rs
  /\ (e = None ->
      Py.gt0 (SearchInfo.next_batch (SearchResult.info (last rs r)))
      = Ok false).
Proof.
  revert r rs e. induction fuel as [|fuel IH]; intros r rs e; [discriminate|].
  rewrite search_all_run_step. unfold search_all_next.
  destruct (Py.gt0 (SearchInfo.next_batch (SearchResult.info r)))
    as [[|]|x] eqn:G.
  - destruct (fetch (Some (SearchInfo.next_batch (SearchResult.info r))))
      as [r'|x] eqn:F.
    + destruct (search_all_run fetch fuel (SearchAllLoop r'))
        as [[rs' e']|] eqn:R; [|discriminate].
      intros [= <- <-]. destruct (IH _ _ _ R) as [L E].
      split; [cbn; auto|]. intros He.
      rewrite last_cons_default. auto.
    + intros [= <- <-]. split; [exact I | discriminate].
  - intros [= <- <-]. split; [exact I|]. intros _. exact G.
  - intros [= <- <-]. split; [exact I | discriminate].
Qed.

(** X19.  Of the pages that [search_all] yields, the first is the page
    fetched without a batch, and every later one is the page fetched for
    the [next_batch] of the page before it, which is positive; a stream
    that ends without an exception has at least one page, and ends on a
    page whose [next_batch] is not positive. *)
Theorem search_all_pages_are_linked
        (fuel : nat) (rs : list SearchResult.t) (e : option exn) :
  search_all fetch fuel = Some (rs, e) ->
  match rs with
  | [] => exists x, fetch None = Raise x /\ e = Some x
  | r :: rest =>
      fetch None = Ok r
      /\ linked fetch r rest
      /\ (e = None ->
          Py.gt0 (SearchInfo.next_batch (SearchResult.info (last rest r)))
          = Ok false)
  end.
Proof.
  unfold search_all. destruct fuel as [|fuel]; [discriminate|].
  rewrite search_all_run_step. unfold search_all_next.
  destruct (fetch None) as [r|x] eqn:F.
  - destruct (search_all_run fetch fuel (SearchAllLoop r)) as [[rs' e']|] eqn:R;
      [|discriminate].
    intros [= <- <-]. destruct (run_loop_linked _ _ _ _ R) as [L E]. auto.
  - intros [= <- <-]. exists x. auto.
Qed.

Lemma run_loop_goes_on (fuel : nat) (r : SearchResult.t) :
  (forall batch r,
      fetch batch = Ok r ->
      Py.gt0 (SearchInfo.next_batch (SearchResult.info r)) = Ok true) ->
  (forall batch, exists r, fetch batch = Ok r) ->
  Py.gt0 (SearchInfo.next_batch (SearchResult.info r)) = Ok true ->
  search_all_run fetch fuel (SearchAllLoop r) = None.
Proof.
  intros Hpos Hok. revert r.
  induction fuel as [|fuel IH]; intros r G; [reflexivity|].
  rewrite search_all_run_step. unfold search_all_next. rewrite G.
  destruct (Hok (Some (SearchInfo.next_batch (SearchResult.info r))))
    as [r' F].
  rewrite F, (IH r' (Hpos _ _ F)). reflexivity.
Qed.

(** X20.  [search_all] has no bound on the number of pages: when every
    call of the page-fetch function returns a page whose [next_batch] is
    positive, the iteration has not ended after any number of steps. *)
Theorem search_all_goes_on_while_next_batch_positive (fuel : nat) :
  (forall batch r,
      fetch batch = Ok r ->
      Py.gt0 (SearchInfo.next_batch (SearchResult.info r)) = Ok true) ->
  (forall batch, exists r, fetch batch = Ok r) ->
  search_all fetch fuel = None.
Proof.
  intros Hpos Hok. unfold search_all.
  destruct fuel as [|fuel]; [reflexivity|].
  rewrite search_all_run_step. unfold search_all_next.
  destruct (Hok None) as [r F]. rewrite F.
  rewrite (run_loop_goes_on fuel r Hpos Hok (Hpos _ _ F)). reflexivity.
Qed.

End SearchAllMore.

(** X19, on the two pages of the unit tests. *)
Lemma search_all_pages_are_linked_witness :
  exists r1 r2,
    search_all fetch_example 3 = Some ([r1; r2], None)
    /\ fetch_example None = Ok r1
    /\ fetch_example (Some (SearchInfo.next_batch (SearchResult.info r1)))
       = Ok r2
    /\ Py.gt0 (SearchInfo.next_batch (SearchResult.info r2)) = Ok false.
Proof.
  pose (p := search_all fetch_example 3).
  assert (search_all fetch_example 3 = p) as Hp by reflexivity.
  vm_compute in p.
  match eval cbv delta [p] in p with
  | Some ([?x; ?y], None) =>
      pose proof (search_all_pages_are_linked fetch_example 3 [x; y] None Hp)
        as (H1 & (_ & H2 & _) & H3);
      exists x, y
  end.
  split; [exact Hp|]. split; [exact H1|]. split; [exact H2|].
  exact (H3 eq_refl).
Defined.

(** X20, on a page-fetch function whose every page has [next_batch = 2]. *)
Lemma search_all_goes_on_while_next_batch_positive_witness :
  search_all fetch_same_page_example 1000 = None.
Proof.
  apply search_all_goes_on_while_next_batch_positive.
  - intros batch r [= <-]. reflexivity.
  - intros batch. eexists. reflexivity.
Defined.

(** * The session token *)

Section AuthFacts.

Variable jwt_decode : json -> option json.
Variable now : Z.
Variable response_json : Response.t -> result json.

Local Notation refresh := (refresh_token response_json).
Local Notation valid := (get_valid_token jwt_decode now response_json).

Lemma refresh_outcome (resp : Response.t) (self : KagiAuth.t) :
  KagiAuth.kagi_session (snd (refresh resp self)) = KagiAuth.kagi_session self
  /\ (forall token,
         fst (refresh resp self) = AuthOk token ->
         KagiAuth._token (snd (refresh resp self)) = token)
  /\ (forall e,
         fst (refresh resp self) = AuthRaise e -> snd (refresh resp self) = self).
Proof.
  unfold refresh_token.
  destruct (negb (Response.status_code resp =? 200)%Z).
  - cbn. repeat split; try discriminate; reflexivity.
  - destruct (bind (response_json resp) (fun data => Py.getitem data "token"))
      as [token|e]; cbn; repeat split; try discriminate; try reflexivity;
      congruence.
Qed.

(** X21.  After [get_valid_token], the session cookie is unchanged; a
    token that is returned is the token the object holds afterwards; a
    call that fails leaves the object as it was; and a call makes at most
    one request. *)
Theorem get_valid_token_keeps_what_it_returns
        (resp : Response.t) (self : KagiAuth.t) :
  let '(r, self', requests) := valid resp self in
  KagiAuth.kagi_session self' = KagiAuth.kagi_session self
  /\ (forall token, r = AuthOk token -> KagiAuth._token self' = token)
  /\ (forall e, r = AuthRaise e -> self' = self)
  /\ requests <= 1.
Proof.
  unfold get_valid_token.
  pose proof (refresh_outcome resp self) as (H1 & H2 & H3).
  assert (let '(r, self', requests) := (refresh resp self, 1) in
          KagiAuth.kagi_session self' = KagiAuth.kagi_session self
          /\ (forall token, r = AuthOk token -> KagiAuth._token self' = token)
          /\ (forall e, r = AuthRaise e -> self' = self)
          /\ requests <= 1) as R.
  { destruct (refresh resp self) as [r self']. cbn in *. auto. }
  destruct (KagiAuth._token self) eqn:T; try exact R;
    (destruct (is_token_expired jwt_decode now _) as [[|]|e];
     [exact R | |];
     repeat split; try discriminate; try lia;
     intros token [= <-]; exact T).
Qed.

(** X22.  A token that the object holds and that decodes to a payload
    with the six keys, its [exp] an integer, is returned as it is, without
    a request, exactly when [exp] is later than the current time; when [exp]
    is the current time or earlier, the token is refreshed.  A held token
    that does not decode makes the call fail without a request: it is not
    replaced. *)
Theorem get_valid_token_reuses_unexpired_token
        (resp : Response.t) (self : KagiAuth.t) :
  KagiAuth._token self <> JNull ->
  (forall payload exp,
      jwt_decode (KagiAuth._token self) = Some payload ->
      has_keys payload token_payload_keys = true ->
      field payload "exp" JNull = JInt exp ->
      valid resp self
      = if (exp <=? now)%Z then (refresh resp self, 1)
        else (AuthOk (KagiAuth._token self), self, 0))
  /\ (jwt_decode (KagiAuth._token self) = None ->
      valid resp self = (AuthRaise JwtDecodeError, self, 0)).
Proof.
  intros Hne. split.
  - intros payload exp Hd Hk He.
    assert (is_token_expired jwt_decode now (KagiAuth._token self)
            = AuthOk (exp <=? now)%Z) as E.
    { unfold is_token_expired, decode_token. rewrite Hd.
      repeat (rewrite (getitem_field payload _ JNull);
              [cbn [bind]
              | apply (has_keys_field _ _ _ Hk); unfold token_payload_keys;
                simpl; tauto]).
      cbn [auth_lift TokenPayload.exp]. rewrite He. reflexivity. }
    unfold get_valid_token.
    destruct (KagiAuth._token self) eqn:T; try contradiction; rewrite E;
      destruct (exp <=? now)%Z; reflexivity.
  - intros Hd.
    assert (is_token_expired jwt_decode now (KagiAuth._token self)
            = AuthRaise JwtDecodeError) as E.
    { unfold is_token_expired, decode_token. rewrite Hd. reflexivity. }
    unfold get_valid_token.
    destruct (KagiAuth._token self) eqn:T; try contradiction; rewrite E;
      reflexivity.
Qed.

End AuthFacts.

(** X22, on a held token that expires at 2000: kept at 1999, refreshed at
    2000. *)
Lemma get_valid_token_reuses_unexpired_token_witness :
  get_valid_token jwt_decode_example 1999
    (fun resp => json_loads JSON.raw_decode (Response.text resp))
    (Response.mk 200 (q "{'token':'new'}")) (KagiAuth.mk "s" (JStr "good"))
  = (AuthOk (JStr "good"), KagiAuth.mk "s" (JStr "good"), 0)
  /\ get_valid_token jwt_decode_example 2000
       (fun resp => json_loads JSON.raw_decode (Response.text resp))
       (Response.mk 200 (q "{'token':'new'}")) (KagiAuth.mk "s" (JStr "good"))
     = (AuthOk (JStr "new"), KagiAuth.mk "s" (JStr "new"), 1).
Proof.
  split.
  - destruct (get_valid_token_reuses_unexpired_token jwt_decode_example 1999
                (fun resp => json_loads JSON.raw_decode (Response.text resp))
                (Response.mk 200 (q "{'token':'new'}"))
                (KagiAuth.mk "s" (JStr "good"))) as [H _]; [discriminate|].
    rewrite (H _ 2000%Z eq_refl eq_refl eq_refl). reflexivity.
  - destruct (get_valid_token_reuses_unexpired_token jwt_decode_example 2000
                (fun resp => json_loads JSON.raw_decode (Response.text resp))
                (Response.mk 200 (q "{'token':'new'}"))
                (KagiAuth.mk "s" (JStr "good"))) as [H _]; [discriminate|].
    rewrite (H _ 2000%Z eq_refl eq_refl eq_refl). vm_compute. reflexivity.
Defined.

(** * The response text *)

Module TagFacts.
Import Str StrFacts.

Lemma index_gt_none (s : string) (k : nat) :
  index_gt s = None -> index_gt (sub_tags k s) = None.
Proof.
  revert k. induction s as [|c r IH]; intros k; [reflexivity|].
  cbn [index_gt]. destruct (Ascii.eqb c ">") eqn:E; [discriminate|].
  destruct (index_gt r) eqn:I; [discriminate|]. intros _.
  cbn [sub_tags]. destruct k as [|k]; [|apply IH; reflexivity].
  unfold tag_length. rewrite I.
  destruct (Ascii.eqb c "<"); cbn [index_gt]; rewrite E, (IH 0 eq_refl);
    reflexivity.
Qed.

Lemma sub_tags_no_tag (s : string) (k : nat) :
  contains_tag (sub_tags k s) = false.
Proof.
  revert k. induction s as [|c r IH]; intros k; [reflexivity|].
  cbn [sub_tags]. destruct k as [|k]; [|apply IH].
  destruct (Ascii.eqb c "<") eqn:E.
  - destruct (tag_length r) as [n|] eqn:T; [apply IH|].
    cbn [contains_tag]. rewrite E, IH, orb_false_r. cbn [andb].
    unfold tag_length in *.
    destruct (index_gt r) as [[|n]|] eqn:I; try discriminate.
    + destruct r as [|d r']; [discriminate|]. cbn [index_gt] in I.
      destruct (Ascii.eqb d ">") eqn:D.
      * cbn [sub_tags].
        assert (Ascii.eqb d "<" = false) as ->.
        { apply Ascii.eqb_eq in D. subst d. reflexivity. }
        cbn [index_gt]. rewrite D. reflexivity.
      * destruct (index_gt r'); discriminate.
    + rewrite (index_gt_none _ _ I). reflexivity.
  - cbn [contains_tag]. rewrite E, IH. reflexivity.
Qed.

Lemma sub_tags_fixed (s : string) :
  contains_tag s = false -> sub_tags 0 s = s.
Proof.
  induction s as [|c r IH]; [reflexivity|].
  cbn [contains_tag sub_tags]. intros H.
  apply orb_false_iff in H as [H1 H2]. rewrite (IH H2).
  destruct (Ascii.eqb c "<"); [|reflexivity].
  destruct (tag_length r); [discriminate | reflexivity].
Qed.

Lemma no_tag_tail (c : ascii) (s : string) :
  contains_tag (String c s) = false -> contains_tag s = false.
Proof.
  cbn [contains_tag]. intros H. apply orb_false_iff in H as [_ H]. exact H.
Qed.

Lemma no_tag_lstrip (s : string) :
  contains_tag s = false -> contains_tag (lstrip s) = false.
Proof.
  induction s as [|c s IH]; [reflexivity|]. intros H. cbn [lstrip].
  destruct (is_space c); [apply IH, (no_tag_tail _ _ H) | exact H].
Qed.

Lemma index_gt_append (a b : string) (n : nat) :
  index_gt a = Some n -> index_gt (a +++ b) = Some n.
Proof.
  revert n. induction a as [|c a IH]; intros n; [discriminate|].
  cbn [index_gt String.append]. destruct (Ascii.eqb c ">"); [auto|].
  destruct (index_gt a) as [m|]; [|discriminate].
  rewrite (IH m eq_refl). auto.
Qed.

Lemma tag_prefix (a b : string) :
  contains_tag a = true -> contains_tag (a +++ b) = true.
Proof.
  induction a as [|c a IH]; [discriminate|].
  cbn [contains_tag String.append]. intros H.
  apply orb_true_iff in H as [H|H].
  - apply andb_true_iff in H as [H1 H2]. rewrite H1. cbn [andb].
    unfold tag_length in *.
    destruct (index_gt a) as [[|n]|] eqn:I; try discriminate.
    rewrite (index_gt_append _ b _ I). reflexivity.
  - rewrite (IH H). apply orb_true_r.
Qed.

Lemma no_tag_rstrip (s : string) :
  contains_tag s = false -> contains_tag (rstrip s) = false.
Proof.
  intros H. destruct (rstrip_decompose s) as (c & E & _).
  destruct (contains_tag (rstrip s)) eqn:T; [|reflexivity].
  rewrite E, (tag_prefix _ c T) in H. discriminate.
Qed.

Lemma no_tag_strip (s : string) :
  contains_tag s = false -> contains_tag (strip s) = false.
Proof. intros H. apply no_tag_rstrip, no_tag_lstrip, H. Qed.

Lemma no_lt_no_tag (s : string) :
  mem "<" s = false -> contains_tag s = false.
Proof.
  induction s as [|c s IH]; [reflexivity|]. cbn [mem contains_tag].
  intros H. apply orb_false_iff in H as [H1 H2]. rewrite H1, (IH H2).
  reflexivity.
Qed.

Lemma no_gt_no_tag (s : string) :
  mem ">" s = false -> contains_tag s = false.
Proof.
  induction s as [|c s IH]; [reflexivity|]. cbn [mem contains_tag].
  intros H. apply orb_false_iff in H as [H1 H2]. rewrite (IH H2).
  assert (index_gt s = None) as I.
  { clear -H2. induction s as [|d s IH]; [reflexivity|].
    cbn [mem index_gt] in *. apply orb_false_iff in H2 as [H1 H2].
    rewrite H1, (IH H2). reflexivity. }
  unfold tag_length. rewrite I. rewrite andb_false_r. reflexivity.
Qed.

Lemma sub_tags_skip (x y : string) :
  sub_tags (String.length x) (x +++ y) = sub_tags 0 y.
Proof. induction x as [|c x IH]; [reflexivity | exact IH]. Qed.

Lemma index_gt_body (body b : string) :
  mem ">" body = false ->
  index_gt (body +++ String ">" b) = Some (String.length body).
Proof.
  induction body as [|c body IH]; [reflexivity|]. cbn [mem]. intros H.
  apply orb_false_iff in H as [H1 H2].
  cbn [String.append index_gt String.length]. rewrite H1, (IH H2). reflexivity.
Qed.

Lemma sub_tags_tag (a body b : string) :
  mem "<" a = false ->
  body <> "" ->
  mem ">" body = false ->
  sub_tags 0 (a +++ String "<" (body +++ String ">" b)) = a +++ sub_tags 0 b.
Proof.
  intros Ha Hne Hbody. induction a as [|c a IH].
  - cbn [String.append sub_tags Ascii.eqb Bool.eqb]. unfold tag_length.
    rewrite (index_gt_body _ b Hbody).
    destruct body as [|d body]; [congruence|]. cbn [String.length].
    replace (String d body +++ String ">" b)
      with ((String d body +++ ">") +++ b).
    + replace (S (S (String.length body)))
        with (String.length (String d body +++ ">")); [apply sub_tags_skip|].
      cbn [String.append String.length]. f_equal.
      clear. induction body as [|c body IH]; [reflexivity|].
      cbn [String.append String.length]. f_equal. exact IH.
    + cbn [String.append]. f_equal. clear.
      induction body as [|c body IH]; [reflexivity|].
      cbn [String.append]. f_equal. exact IH.
  - cbn [mem] in Ha. apply orb_false_iff in Ha as [Hc Ha].
    cbn [String.append sub_tags]. rewrite Hc, (IH Ha). reflexivity.
Qed.

End TagFacts.

Lemma strip_html_no_tag (html : string) :
  contains_tag (_strip_html html) = false.
Proof.
  unfold _strip_html. apply TagFacts.no_tag_strip, TagFacts.sub_tags_no_tag.
Qed.

(** X23.  The text that [_strip_html] returns has no tag left, that is, no
    [<] followed by one or more characters other than [>] and a [>], and no
    white space at either end; stripping it again changes nothing.  A text
    without [<] or without [>] is only trimmed; and of a text without tag
    around one tag, what is before the [<] and after the first [>] is
    kept. *)
Theorem strip_html_leaves_no_tag (html : string) :
  contains_tag (_strip_html html) = false
  /\ Str.strip (_strip_html html) = _strip_html html
  /\ _strip_html (_strip_html html) = _strip_html html
  /\ (Str.mem "<" html = false \/ Str.mem ">" html = false ->
      _strip_html html = Str.strip html)
  /\ (forall a body b,
         html = a +++ String "<" (body +++ String ">" b) ->
         Str.mem "<" a = false ->
         body <> "" ->
         Str.mem ">" body = false ->
         contains_tag b = false ->
         _strip_html html = Str.strip (a +++ b)).
Proof.
  pose proof (strip_html_no_tag html) as H. unfold _strip_html in *.
  split; [exact H|]. split; [apply StrFacts.strip_idem|]. split; [|split].
  - rewrite (TagFacts.sub_tags_fixed _ H). apply StrFacts.strip_idem.
  - intros [L|G]; rewrite TagFacts.sub_tags_fixed; auto.
    + apply TagFacts.no_lt_no_tag, L.
    + apply TagFacts.no_gt_no_tag, G.
  - intros a body b -> Ha Hne Hbody Hb.
    rewrite (TagFacts.sub_tags_tag _ _ _ Ha Hne Hbody).
    rewrite (TagFacts.sub_tags_fixed _ Hb). reflexivity.
Qed.

(** X23, on a paragraph with an emphasis, and on a text with an empty
    pair of brackets. *)
Lemma strip_html_leaves_no_tag_witness :
  _strip_html " <p>Hello <b>world</b></p> " = "Hello world"
  /\ _strip_html "a <> b" = "a <> b"
  /\ contains_tag "a <> b" = false.
Proof.
  destruct (strip_html_leaves_no_tag "a <> b") as (H & _).
  assert (_strip_html "a <> b" = "a <> b") as E by reflexivity.
  rewrite E in H. split; [reflexivity|]. split; [exact E | exact H].
Defined.

Module DetailsFacts.
Import Str StrFacts.

Lemma startswith_nil (s : string) : startswith s "" = true.
Proof. destruct s; reflexivity. Qed.

Lemma contains_tail (c : ascii) (s sub : string) :
  contains (String c s) sub = false -> contains s sub = false.
Proof.
  cbn [contains]. intros H. apply orb_false_iff in H as [_ H]. exact H.
Qed.

Lemma contains_head (s sub : string) :
  contains s sub = false -> startswith s sub = false.
Proof.
  destruct s; cbn [contains]; intros H; apply orb_false_iff in H as [H _];
    exact H.
Qed.

Lemma contains_drop (n : nat) (s sub : string) :
  contains s sub = false -> contains (drop n s) sub = false.
Proof.
  revert s. induction n as [|n IH]; intros s H; [destruct s; exact H|].
  destruct s as [|c s]; [exact H|]. cbn [drop]. apply IH, (contains_tail _ _ _ H).
Qed.

Lemma find_sub_none (s sub : string) :
  contains s sub = false -> find_sub s sub = None.
Proof.
  induction s as [|c s IH]; intros H; cbn [find_sub];
    rewrite (contains_head _ _ H); [reflexivity|].
  rewrite (IH (contains_tail _ _ _ H)). reflexivity.
Qed.

Lemma sub_details_fixed (s : string) :
  (forall n, details_length (drop n s) = None) -> sub_details 0 s = s.
Proof.
  induction s as [|c s IH]; intros H; [reflexivity|].
  pose proof (H 0) as H0. cbn [drop] in H0.
  cbn [sub_details]. rewrite H0. f_equal. apply IH.
  intros n. apply (H (S n)).
Qed.

Lemma no_open_fixed (s : string) :
  contains s "<details>" = false -> sub_details 0 s = s.
Proof.
  intros H. apply sub_details_fixed. intros n. unfold details_length.
  rewrite (contains_head _ _ (contains_drop n _ _ H)). reflexivity.
Qed.

Lemma no_close_fixed (s : string) :
  contains s "</details>" = false -> sub_details 0 s = s.
Proof.
  intros H. apply sub_details_fixed. intros n. unfold details_length.
  destruct (startswith (drop n s) "<details>"); [|reflexivity].
  rewrite find_sub_none; [reflexivity|].
  apply contains_drop, contains_drop, H.
Qed.

Lemma sub_details_skip (x y : string) :
  sub_details (String.length x) (x +++ y) = sub_details 0 y.
Proof. induction x as [|c x IH]; [reflexivity | exact IH]. Qed.

Lemma drop_append (x y : string) : drop (String.length x) (x +++ y) = y.
Proof. induction x as [|c x IH]; [destruct y; reflexivity | exact IH]. Qed.

Lemma length_append (x y : string) :
  String.length (x +++ y) = String.length x + String.length y.
Proof. induction x as [|c x IH]; [reflexivity | cbn; rewrite IH; reflexivity]. Qed.

Lemma span_space (s : string) :
  s = fst (span is_space s) +++ lstrip s.
Proof.
  induction s as [|c s IH]; [reflexivity|]. cbn [span lstrip].
  destruct (is_space c); [|reflexivity].
  destruct (span is_space s) as [a b]. cbn [fst String.append] in *.
  f_equal. exact IH.
Qed.

Lemma drop_space_run (s : string) : drop (space_run s) s = lstrip s.
Proof.
  unfold space_run. rewrite (span_space s) at 2. apply drop_append.
Qed.

(** The closing tag has no border: an occurrence that starts in a text
    before it lies in that text. *)
Lemma close_border (c : ascii) (t u : string) :
  startswith (String c t +++ "</details>" +++ u) "</details>" = true ->
  startswith (String c t) "</details>" = true.
Proof.
  cbn [String.append startswith].
  repeat
    (let E := fresh "E" in
     match goal with
     | |- (Ascii.eqb ?a ?x && _) = true -> _ =>
         destruct (Ascii.eqb a x) eqn:E; cbn [andb]; [|discriminate]
     end;
     match goal with
     | |- startswith (?t +++ _) _ = true -> _ =>
         destruct t; cbn [String.append startswith];
         [cbn; try discriminate|]
     | _ => idtac
     end).
  all: rewrite ?startswith_nil; auto.
Qed.

Lemma find_close (body rest : string) :
  contains body "</details>" = false ->
  find_sub (body +++ "</details>" +++ rest) "</details>"
  = Some (String.length body).
Proof.
  induction body as [|c body IH]; intros H.
  { cbn [String.append find_sub startswith Ascii.eqb Bool.eqb andb String.length].
    rewrite startswith_nil. reflexivity. }
  change (find_sub (String c body +++ "</details>" +++ rest) "</details>")
    with (if startswith (String c body +++ "</details>" +++ rest) "</details>"
          then Some 0
          else option_map S
                 (find_sub (body +++ "</details>" +++ rest) "</details>")).
  destruct (startswith (String c body +++ "</details>" +++ rest) "</details>")
    eqn:S.
  - apply close_border in S. rewrite (contains_head _ _ H) in S. discriminate.
  - rewrite (IH (contains_tail _ _ _ H)). reflexivity.
Qed.

Lemma sapp_assoc (a b c : string) : (a +++ b) +++ c = a +++ b +++ c.
Proof.
  induction a as [|x a IH]; [reflexivity|]. cbn [String.append]. f_equal.
  exact IH.
Qed.

Lemma details_at_start (body rest : string) :
  contains body "</details>" = false ->
  sub_details 0 ("<details>" +++ body +++ "</details>" +++ rest)
  = sub_details 0 (lstrip rest).
Proof.
  intros H.
  pose proof (span_space rest) as E.
  set (ws := fst (span is_space rest)) in E.
  set (x := "details>" +++ body +++ "</details>" +++ ws).
  assert (x +++ lstrip rest = "details>" +++ body +++ "</details>" +++ rest)
    as A.
  { unfold x. rewrite !sapp_assoc, <- E. reflexivity. }
  assert (details_length (String "<" (x +++ lstrip rest))
          = Some (S (String.length x))) as D.
  { rewrite A. unfold details_length.
    assert (startswith (String "<" ("details>" +++ body +++ "</details>" +++ rest))
              "<details>" = true) as ->.
    { cbn [String.append startswith Ascii.eqb Bool.eqb andb].
      apply startswith_nil. }
    change (drop 9 (String "<" ("details>" +++ body +++ "</details>" +++ rest)))
      with (body +++ "</details>" +++ rest).
    rewrite (find_close _ _ H). f_equal.
    assert (drop (9 + String.length body + 10)
                 (String "<" ("details>" +++ body +++ "</details>" +++ rest))
            = rest) as ->.
    { replace (9 + String.length body + 10)
        with (String.length ("<details>" +++ body +++ "</details>")).
      - replace (String "<" ("details>" +++ body +++ "</details>" +++ rest))
          with (("<details>" +++ body +++ "</details>") +++ rest).
        + apply drop_append.
        + rewrite !sapp_assoc. reflexivity.
      - rewrite !length_append. cbn [String.length]. lia. }
    unfold x, space_run. fold ws. rewrite !length_append.
    cbn [String.length]. lia. }
  change ("<details>" +++ body +++ "</details>" +++ rest)
    with (String "<" ("details>" +++ body +++ "</details>" +++ rest)).
  rewrite <- A. cbn [sub_details]. rewrite D. apply sub_details_skip.
Qed.

End DetailsFacts.

Lemma details_after_plain_text (pre body rest : string) :
  Str.mem "<" pre = false ->
  Str.contains body "</details>" = false ->
  sub_details 0 (pre +++ "<details>" +++ body +++ "</details>" +++ rest)
  = pre +++ sub_details 0 (Str.lstrip rest).
Proof.
  intros Hpre Hbody. induction pre as [|c pre IH].
  - apply DetailsFacts.details_at_start, Hbody.
  - cbn [Str.mem] in Hpre. apply orb_false_iff in Hpre as [Hc Hpre].
    cbn [String.append sub_details]. unfold details_length.
    cbn [Str.startswith]. rewrite Hc. cbn [andb]. f_equal. apply IH, Hpre.
Qed.

(** X24.  [_strip_details] removes a thinking block with the white space
    after it: from a text made of plain text, a block whose body has no
    closing tag, and a rest without an opening tag, it keeps the plain text
    and the rest, trimmed.  A text that has no opening tag, or no closing
    tag, is only trimmed, so a block that is not closed is kept.  The
    result has no white space at either end. *)
Theorem strip_details_removes_the_block (text : string) :
  (forall pre body rest,
      text = pre +++ "<details>" +++ body +++ "</details>" +++ rest ->
      Str.mem "<" pre = false ->
      Str.contains body "</details>" = false ->
      Str.contains rest "<details>" = false ->
      _strip_details text = Str.strip (pre +++ Str.lstrip rest))
  /\ (Str.contains text "<details>" = false
      \/ Str.contains text "</details>" = false ->
      _strip_details text = Str.strip text)
  /\ Str.strip (_strip_details text) = _strip_details text.
Proof.
  unfold _strip_details. split; [|split].
  - intros pre body rest -> Hpre Hbody Hrest.
    rewrite (details_after_plain_text _ _ _ Hpre Hbody).
    rewrite DetailsFacts.no_open_fixed; [reflexivity|].
    rewrite <- DetailsFacts.drop_space_run.
    apply DetailsFacts.contains_drop, Hrest.
  - intros [H|H].
    + rewrite (DetailsFacts.no_open_fixed _ H). reflexivity.
    + rewrite (DetailsFacts.no_close_fixed _ H). reflexivity.
  - apply StrFacts.strip_idem.
Qed.

(** X24, on a thinking block between a greeting and an answer. *)
Lemma strip_details_removes_the_block_witness :
  _strip_details
    (q "Hi <details><summary>Thinking</summary>hm</details> |<p>Answer</p> ")
  = "Hi <p>Answer</p>".
Proof.
  destruct (strip_details_removes_the_block
              (q "Hi <details><summary>Thinking</summary>hm</details> |<p>Answer</p> "))
    as [H _].
  rewrite (H "Hi " "<summary>Thinking</summary>hm" (q " |<p>Answer</p> "));
    reflexivity.
Defined.

(** X25.  What [ask_md] returns is either empty or a text with no white
    space at either end followed by one line feed; when the message has no
    Markdown, the response text taken from the reply has no tag left; and
    the only failure is the [TypeError] of a Markdown that is truthy and not
    a string, or of such a reply when the Markdown is falsy. *)
Theorem ask_md_is_empty_or_a_trimmed_text (res : AssistantResult.t) :
  (forall out,
      ask_md res = Ok out ->
      out = ""
      \/ exists body,
          out = body +++ Str.nl /\ body <> "" /\ Str.strip body = body)
  /\ (Py.truthy (AssistantMessage.md (AssistantResult.message res)) = false ->
      forall out, _extract_response res = Ok out -> contains_tag out = false)
  /\ (forall e,
         ask_md res = Raise e ->
         e = TypeError
         /\ ((Py.truthy (AssistantMessage.md (AssistantResult.message res))
              = true
              /\ Py.isinstance_str
                   (AssistantMessage.md (AssistantResult.message res)) = false)
             \/ (Py.truthy (AssistantMessage.md (AssistantResult.message res))
                 = false
                 /\ Py.truthy
                      (AssistantMessage.reply (AssistantResult.message res))
                    = true
                 /\ Py.isinstance_str
                      (AssistantMessage.reply (AssistantResult.message res))
                    = false))).
Proof.
  assert (forall out, _extract_response res = Ok out -> Str.strip out = out)
    as Hstrip.
  { unfold _extract_response.
    destruct (Py.truthy (AssistantMessage.md (AssistantResult.message res))).
    - destruct (AssistantMessage.md (AssistantResult.message res));
        try discriminate.
      intros out [= <-]. apply StrFacts.strip_idem.
    - destruct (Py.truthy (AssistantMessage.reply (AssistantResult.message res))).
      + destruct (AssistantMessage.reply (AssistantResult.message res));
          try discriminate.
        intros out [= <-]. apply StrFacts.strip_idem.
      + intros out [= <-]. reflexivity. }
  split; [|split].
  - unfold ask_md. intros out.
    destruct (_extract_response res) as [response|] eqn:R; cbn [bind];
      [|discriminate].
    destruct response as [|c r]; cbn [Str.is_empty negb]; intros [= <-];
      [left; reflexivity|].
    right. exists (String c r). repeat split; [discriminate|].
    apply Hstrip. reflexivity.
  - unfold _extract_response. intros ->.
    destruct (Py.truthy (AssistantMessage.reply (AssistantResult.message res))).
    + destruct (AssistantMessage.reply (AssistantResult.message res));
        try discriminate.
      intros out [= <-]. apply strip_html_no_tag.
    + intros out [= <-]. reflexivity.
  - unfold ask_md, _extract_response. intros e.
    generalize (AssistantMessage.md (AssistantResult.message res)).
    generalize (AssistantMessage.reply (AssistantResult.message res)).
    intros reply md.
    destruct (Py.truthy md) eqn:Tm.
    + destruct md as [| | | |s| |]; cbn [bind];
        try (intros H; injection H as <-; split; [reflexivity|];
             left; split; reflexivity).
      destruct (negb (Str.is_empty (_strip_details s))); discriminate.
    + destruct (Py.truthy reply) eqn:Tr.
      * destruct reply as [| | | |s| |]; cbn [bind];
          try (intros H; injection H as <-; split; [reflexivity|];
               right; split; [reflexivity|]; split; reflexivity).
        destruct (negb (Str.is_empty (_strip_html (_strip_details s))));
          discriminate.
      * cbn [bind Str.is_empty negb]. discriminate.
Qed.

(** X25, on the result of an assistant stream whose reply has a thinking
    block and tags, and whose Markdown is empty. *)
Lemma ask_md_is_empty_or_a_trimmed_text_witness :
  exists res,
    _parse_assistant_response JSON.raw_decode assistant_reply_example = Ok res
    /\ ask_md res = Ok ("Hello world" +++ Str.nl)
    /\ contains_tag "Hello world" = false.
Proof.
  pose (p := _parse_assistant_response JSON.raw_decode assistant_reply_example).
  assert (_parse_assistant_response JSON.raw_decode assistant_reply_example = p)
    as Hp by reflexivity.
  vm_compute in p.
  match eval cbv delta [p] in p with
  | Ok ?x =>
      destruct (ask_md_is_empty_or_a_trimmed_text x) as (_ & H & _);
      exists x
  end.
  split; [exact Hp|]. split; [vm_compute; reflexivity|].
  apply H; vm_compute; reflexivity.
Defined.
